(** * polymarket-executor: multi-tenant wallet derivation, credential cache,
      gas custody, executor authentication and market listing

    A shallow embedding of [src/polymarketClob.ts], [src/polymarketGamma.ts]
    and [src/server.ts].

    Conventions of the embedding.
    - A JavaScript string is a [string]: a sequence of code units, here
      restricted to the code units below 256.
    - An [ethers] [BigNumber] is a [Z].
    - A JavaScript number is a [JsNum]: NaN, the two infinities, or a finite
      value given as a rational (every finite double is one).
    - An [async] function is run to completion, one call at a time; a thrown
      value (or a rejected promise) is [Throw e], a returned value (or a
      fulfilled promise) is [Ok v].  The state reached is returned in both
      cases, since JavaScript does not roll back on [throw].
    - Module-level [Map]s are [gmap]s held in the process state.
    - Everything that is not code of this repository ([ethers], the Thirdweb
      SDK, the CLOB client, [fetch], [JSON.parse], the number parser of the
      language) is a field of the class [Externals].
    - [console] output is not modelled. *)

From Stdlib Require Import ZArith QArith Qround Ascii String List Lia.
From Stdlib.Strings Require Import Byte.
From stdpp Require Import base option gmap strings list fin_maps pretty.

Local Open Scope string_scope.
Set Warnings "-register-all".

(* ===================================================================== *)
(** * JavaScript runtime values                                            *)
(* ===================================================================== *)

Module Js.

(** ** Strings *)

(** [WhiteSpace] and [LineTerminator] of ECMAScript, for code units below
    256: TAB, LF, VT, FF, CR, SP and NBSP. *)
Definition is_whitespace (c : ascii) : bool :=
  let n := N_of_ascii c in
  (((9 <=? n) && (n <=? 13)) || (n =? 32) || (n =? 160))%N.

Fixpoint trimStart (s : string) : string :=
  match s with
  | EmptyString => EmptyString
  | String c r => if is_whitespace c then trimStart r else s
  end.

Fixpoint trimEnd (s : string) : string :=
  match s with
  | EmptyString => EmptyString
  | String c r =>
      match trimEnd r with
      | EmptyString => if is_whitespace c then EmptyString else String c EmptyString
      | r' => String c r'
      end
  end.

(** [String.prototype.trim] *)
Definition trim (s : string) : string := trimEnd (trimStart s).

(** [s.replace(/a/g, b)] for single characters [a] and [b]. *)
Fixpoint replaceAll (a b : ascii) (s : string) : string :=
  match s with
  | EmptyString => EmptyString
  | String c r => String (if Ascii.eqb c a then b else c) (replaceAll a b r)
  end.

(** [String.prototype.repeat] *)
Fixpoint repeat (s : string) (n : nat) : string :=
  match n with
  | O => EmptyString
  | S n' => s +:+ repeat s n'
  end.

(** Does the character occur in the string? *)
Fixpoint occurs (a : ascii) (s : string) : bool :=
  match s with
  | EmptyString => false
  | String c r => Ascii.eqb c a || occurs a r
  end.

(** A string that does not begin, or does not end, with white space. *)
Definition starts_clean (s : string) : bool :=
  match s with
  | EmptyString => true
  | String c _ => negb (is_whitespace c)
  end.

Fixpoint ends_clean (s : string) : bool :=
  match s with
  | EmptyString => true
  | String c EmptyString => negb (is_whitespace c)
  | String _ r => ends_clean r
  end.

(** ** Numbers *)

Inductive JsNum : Type :=
| NaN
| PosInf
| NegInf
| Fin (q : Q).

Definition num_of_Z (z : Z) : JsNum := Fin (inject_Z z).

(** [ToBoolean] on a number: NaN and zero are falsy. *)
Definition num_truthy (n : JsNum) : bool :=
  match n with
  | NaN => false
  | PosInf | NegInf => true
  | Fin q => negb (Qeq_bool q 0)
  end.

(** [Number.isFinite] *)
Definition isFinite (n : JsNum) : bool :=
  match n with Fin _ => true | _ => false end.

(** [Math.min(a, b)] *)
Definition Math_min (a b : JsNum) : JsNum :=
  match a, b with
  | NaN, _ | _, NaN => NaN
  | NegInf, _ | _, NegInf => NegInf
  | PosInf, x | x, PosInf => x
  | Fin p, Fin q => if Qle_bool p q then Fin p else Fin q
  end.

(** [Math.max(a, b)] *)
Definition Math_max (a b : JsNum) : JsNum :=
  match a, b with
  | NaN, _ | _, NaN => NaN
  | PosInf, _ | _, PosInf => PosInf
  | NegInf, x | x, NegInf => x
  | Fin p, Fin q => if Qle_bool p q then Fin q else Fin p
  end.

(** Truncation toward zero of a finite number. *)
Definition Qtrunc (q : Q) : Z :=
  if Qle_bool 0 q then Qfloor q else Qceiling q.

(** ** Values *)

Inductive JsValue : Type :=
| JsUndefined
| JsNull
| JsBool (b : bool)
| JsNumber (n : JsNum)
| JsString (s : string)
| JsObject (props : list (string * JsValue))
| JsArray (elems : list JsValue).

(** The [typeof] operator. *)
Definition typeof (v : JsValue) : string :=
  match v with
  | JsUndefined => "undefined"
  | JsNull => "object"
  | JsBool _ => "boolean"
  | JsNumber _ => "number"
  | JsString _ => "string"
  | JsObject _ => "object"
  | JsArray _ => "object"
  end.

(** [ToBoolean] *)
Definition truthy (v : JsValue) : bool :=
  match v with
  | JsUndefined | JsNull => false
  | JsBool b => b
  | JsNumber n => num_truthy n
  | JsString s => negb (String.eqb s "")
  | JsObject _ | JsArray _ => true
  end.

Fixpoint assoc (k : string) (props : list (string * JsValue)) : JsValue :=
  match props with
  | [] => JsUndefined
  | (k', v) :: rest => if String.eqb k' k then v else assoc k rest
  end.

(** [v.k] for a data property named [k] (never an index, nor [length]) of a
    value that is neither [null] nor [undefined]: plain objects have their
    own properties, every other value has none of that name. *)
Definition get (v : JsValue) (k : string) : JsValue :=
  match v with
  | JsObject props => assoc k props
  | _ => JsUndefined
  end.

Definition nullish (v : JsValue) : bool :=
  match v with JsUndefined | JsNull => true | _ => false end.

(** ** Errors *)

(** A thrown value: the [name] of its class and its [message]. *)
Record JsError : Type := mkError { err_name : string; err_message : string }.

(** [new Error(msg)] *)
Definition Error (msg : string) : JsError := mkError "Error" msg.
Definition TypeError (msg : string) : JsError := mkError "TypeError" msg.

Inductive Result (A : Type) : Type :=
| Ok (a : A)
| Throw (e : JsError).
Arguments Ok {A} a.
Arguments Throw {A} e.

End Js.
Import Js.

(* ===================================================================== *)
(** * Credential normalisation ([polymarketClob.ts], lines 12-43)          *)
(* ===================================================================== *)

Record ApiCreds : Type := mkApiCreds {
  key : string;
  secret : string;
  passphrase : string
}.

Definition normalizeBase64ForAtob (input : string) : string :=
  let trimmed := trim input in
  let base64 := replaceAll "_" "/" (replaceAll "-" "+" trimmed) in
  let padLen := ((4 - (String.length base64 mod 4)) mod 4)%nat in
  base64 +:+ Js.repeat "=" padLen.

(** [typeof v !== "string" || v.trim().length === 0] *)
Definition missing_string (v : JsValue) : bool :=
  match v with
  | JsString s => Nat.eqb (String.length (trim s)) 0
  | _ => true
  end.

Definition as_string (v : JsValue) : string :=
  match v with JsString s => s | _ => "" end.

Definition coerceApiCreds (raw : JsValue) : Result ApiCreds :=
  if negb (truthy raw) || negb (String.eqb (typeof raw) "object")
  then Throw (Error "Invalid api creds: not an object")
  else
    let key := if String.eqb (typeof (get raw "key")) "string"
               then get raw "key" else get raw "apiKey" in
    let secret := get raw "secret" in
    let passphrase := get raw "passphrase" in
    if missing_string key then Throw (Error "Invalid api creds: missing key/apiKey")
    else if missing_string secret then Throw (Error "Invalid api creds: missing secret")
    else if missing_string passphrase then Throw (Error "Invalid api creds: missing passphrase")
    else Ok {| key := trim (as_string key);
               passphrase := trim (as_string passphrase);
               secret := normalizeBase64ForAtob (as_string secret) |}.

(** The object that holds a credential triple. *)
Definition creds_object (c : ApiCreds) : JsValue :=
  JsObject [("key", JsString (key c));
            ("passphrase", JsString (passphrase c));
            ("secret", JsString (secret c))].

(* ===================================================================== *)
(** * Base64, as the two encodings the specification names                 *)
(* ===================================================================== *)

(** The standard padded encoding and the URL-safe encoding of RFC 4648, over
    bytes.  They are the reference against which [normalizeBase64ForAtob] is
    compared; the executor itself never encodes. *)
Module Base64.

Definition std_table : string :=
  "ABCDEFGHIJKLMNOPQRSTUVWXYZabcdefghijklmnopqrstuvwxyz0123456789+/".

Definition url_table : string :=
  "ABCDEFGHIJKLMNOPQRSTUVWXYZabcdefghijklmnopqrstuvwxyz0123456789-_".

Definition digit (table : string) (i : N) : ascii :=
  match String.get (N.to_nat i) table with
  | Some c => c
  | None => "="%char
  end.

(** The 6-bit groups of a byte sequence, the last one filled with zero bits. *)
Fixpoint sextets (bs : list Byte.byte) : list N :=
  match bs with
  | [] => []
  | [a] =>
      let a := Byte.to_N a in
      [N.shiftr a 2; N.shiftl (N.land a 3) 4]
  | [a; b] =>
      let a := Byte.to_N a in
      let b := Byte.to_N b in
      [N.shiftr a 2;
       N.lor (N.shiftl (N.land a 3) 4) (N.shiftr b 4);
       N.shiftl (N.land b 15) 2]
  | a :: b :: c :: rest =>
      let a := Byte.to_N a in
      let b := Byte.to_N b in
      let c := Byte.to_N c in
      [N.shiftr a 2;
       N.lor (N.shiftl (N.land a 3) 4) (N.shiftr b 4);
       N.lor (N.shiftl (N.land b 15) 2) (N.shiftr c 6);
       N.land c 63] ++ sextets rest
  end.

Fixpoint digits (table : string) (groups : list N) : string :=
  match groups with
  | [] => EmptyString
  | g :: rest => String (digit table g) (digits table rest)
  end.

(** Number of [=] characters that complete the last group of four. *)
Definition padding (n : nat) : nat :=
  match (n mod 3)%nat with
  | 0%nat => 0%nat
  | 1%nat => 2%nat
  | _ => 1%nat
  end.

(** Standard alphabet, padded. *)
Definition encode (bs : list Byte.byte) : string :=
  digits std_table (sextets bs) +:+ Js.repeat "=" (padding (length bs)).

(** URL-safe alphabet, without padding. *)
Definition encode_url (bs : list Byte.byte) : string :=
  digits url_table (sextets bs).

(** URL-safe alphabet, padded. *)
Definition encode_url_padded (bs : list Byte.byte) : string :=
  digits url_table (sextets bs) +:+ Js.repeat "=" (padding (length bs)).

End Base64.

(** A response of the remote system that names the key [apiKey] and carries
    the secret in the URL-safe encoding. *)
Definition alternate_response (k : string) (secret_bytes : list Byte.byte) (p : JsValue) : JsValue :=
  JsObject [("apiKey", JsString k);
            ("secret", JsString (Base64.encode_url secret_bytes));
            ("passphrase", p)].

(** A response that names the key [key] and carries the secret in the
    standard padded encoding. *)
Definition canonical_response (k : string) (secret_bytes : list Byte.byte) (p : JsValue) : JsValue :=
  JsObject [("key", JsString k);
            ("secret", JsString (Base64.encode secret_bytes));
            ("passphrase", p)].

(* ===================================================================== *)
(** * The process: external collaborators, state and effects               *)
(* ===================================================================== *)

(** [ThirdwebSDK.fromPrivateKey(privateKey, network)] *)
Record ThirdwebSDK : Type := fromPrivateKey {
  sdk_privateKey : string;
  sdk_network : string
}.

(** [new providers.JsonRpcProvider(url, { chainId, name })] *)
Record JsonRpcProvider : Type := mkJsonRpcProvider {
  rpc_url : string;
  rpc_chainId : Z;
  rpc_name : string
}.

(** An [ethers.Wallet]: its key, the address of the key, its provider. *)
Record Wallet : Type := mkWallet {
  wallet_privateKey : string;
  wallet_address : string;
  wallet_provider : JsonRpcProvider
}.

Record WalletInfo : Type := mkWalletInfo {
  address : string;
  thirdwebWalletId : string;
  provider : string;
  chainId : Z
}.

(** What [fetch] resolves to: [res.ok], [res.status], [await res.text()]. *)
Record HttpResponse : Type := mkHttpResponse {
  res_ok : bool;
  res_status : Z;
  res_text : string
}.

(** A [URL] object: base, path and the entries of its [searchParams]. *)
Record URL : Type := mkURL {
  url_base : string;
  url_path : string;
  url_searchParams : list (string * string)
}.

(** Calls that leave the process, and runs of the key derivation, in the
    order they happen.  The trace is ghost state: no code reads it. *)
Inductive Event : Type :=
| EvDeriveKey (phone : string)
| EvSdkGetAddress (sdk : ThirdwebSDK)
| EvGetBalance (account : string)
| EvSendTransaction (from to : string) (value : Z)
| EvWait (txHash : string)
| EvCreateOrDeriveApiKey (signerAddress : string)
| EvSdkSign (sdk : ThirdwebSDK) (message : string)
| EvSdkSendRawTransaction (sdk : ThirdwebSDK)
| EvFetch (url : string).

(** A native-token transfer submitted to the chain. *)
Record Transfer : Type := mkTransfer {
  tr_from : string;
  tr_to : string;
  tr_value : Z
}.

(** Everything the executor calls but does not define.  [World] is the state
    of the remote systems (chain, exchange, market-data service); reads of it
    are functions of the world, calls that may change it return the new
    world. *)
Class Externals : Type := {
  World : Type;
  (** [process.env] *)
  env : string -> option string;
  (** [ethers.utils.solidityKeccak256(['bytes32', 'string'], [a, b])] *)
  solidityKeccak256 : string -> string -> string;
  (** the address of a private key: [new ethers.Wallet(k).address] *)
  computeAddress : string -> string;
  (** [ethers.utils.formatEther] *)
  formatEther : Z -> string;
  (** [Number(s)] on a string, [String(n)] on a number, [Number(o)] on an
      object or array *)
  StringToNumber : string -> JsNum;
  NumberToString : JsNum -> string;
  ObjectToNumber : JsValue -> JsNum;
  JSON_parse : string -> Result JsValue;
  (** [url.toString()] *)
  URL_toString : URL -> string;
  (** [provider.getBalance(address)] *)
  provider_getBalance : World -> string -> Result Z;
  (** [wallet.sendTransaction({ to, value })] for the wallet of a private
      key; resolves to the transaction hash *)
  wallet_sendTransaction : World -> string -> string -> Z -> Result string * World;
  (** [tx.wait()] *)
  tx_wait : World -> string -> Result unit * World;
  (** [ethers.utils.hexlify] on bytes *)
  hexlify : list Byte.byte -> string;
  (** [sdk.wallet.getAddress()], [sdk.wallet.sign(message)] and
      [sdk.wallet.sendRawTransaction(transaction)] *)
  sdk_wallet_getAddress : World -> ThirdwebSDK -> Result string;
  sdk_wallet_sign : World -> ThirdwebSDK -> string -> Result string;
  sdk_wallet_sendRawTransaction : World -> ThirdwebSDK -> JsValue -> Result JsValue * World;
  (** [l1.createOrDeriveApiKey(nonce)] for the L1 client of a signer *)
  clob_createOrDeriveApiKey : World -> Wallet -> option JsNum -> Result JsValue * World;
  (** [fetch(url, { method: "GET", ... })] followed by [res.text()] *)
  http_fetch : World -> string -> Result HttpResponse * World
}.

Section Process.
Context `{E : Externals}.

(** [new ethers.Wallet(privateKey, provider)] *)
Definition new_Wallet (privateKey : string) (p : JsonRpcProvider) : Wallet :=
  mkWallet privateKey (computeAddress privateKey) p.

(** The module-level state of the process, the world around it and the
    ghost trace. *)
Record State : Type := mkState {
  apiCredsCache : gmap string ApiCreds;
  sdkCache : gmap string ThirdwebSDK;
  world : World;
  trace : list Event
}.

Definition set_apiCredsCache (f : gmap string ApiCreds -> gmap string ApiCreds) (s : State) : State :=
  mkState (f (apiCredsCache s)) (sdkCache s) (world s) (trace s).

Definition set_sdkCache (f : gmap string ThirdwebSDK -> gmap string ThirdwebSDK) (s : State) : State :=
  mkState (apiCredsCache s) (f (sdkCache s)) (world s) (trace s).

Definition set_world (w : World) (s : State) : State :=
  mkState (apiCredsCache s) (sdkCache s) w (trace s).

Definition record (e : Event) (s : State) : State :=
  mkState (apiCredsCache s) (sdkCache s) (world s) (trace s ++ [e]).

(** The state of a process that has just started. *)
Definition initial (w : World) : State := mkState ∅ ∅ w [].

(** ** The monad of effects: state, and a thrown value or a result *)

Definition M (A : Type) : Type := State -> Result A * State.

Definition ret {A} (a : A) : M A := fun s => (Ok a, s).

Definition throw {A} (e : JsError) : M A := fun s => (Throw e, s).

Definition bind {A B} (m : M A) (k : A -> M B) : M B :=
  fun s =>
    match m s with
    | (Ok a, s') => k a s'
    | (Throw e, s') => (Throw e, s')
    end.

(** [try { body } catch (error) { handler }] *)
Definition try_catch {A} (body : M A) (handler : JsError -> M A) : M A :=
  fun s =>
    match body s with
    | (Ok a, s') => (Ok a, s')
    | (Throw e, s') => handler e s'
    end.

Definition gets {A} (f : State -> A) : M A := fun s => (Ok (f s), s).

Definition modify (f : State -> State) : M unit := fun s => (Ok tt, f s).

Definition lift {A} (r : Result A) : M A := fun s => (r, s).

(** A call that reads the world. *)
Definition call_read {A} (e : Event) (f : World -> Result A) : M A :=
  fun s => (f (world s), record e s).

(** A call that may change the world. *)
Definition call {A} (e : Event) (f : World -> Result A * World) : M A :=
  fun s =>
    let '(r, w) := f (world s) in
    (r, set_world w (record e s)).

End Process.

Declare Scope exec_scope.
Delimit Scope exec_scope with exec.
Notation "x <- m ;; k" := (bind m (fun x => k))
  (at level 100, m at next level, right associativity) : exec_scope.
Notation "m ;;; k" := (bind m (fun _ => k))
  (at level 100, right associativity) : exec_scope.
Local Open Scope exec_scope.

(* ===================================================================== *)
(** * Wallet derivation and caches ([polymarketClob.ts], lines 45-92 and
      211-405)                                                             *)
(* ===================================================================== *)

Section Executor.
Context `{E : Externals}.

(** [a || b] on strings read from the environment. *)
Definition or_string (a : option string) (b : string) : string :=
  match a with
  | Some v => if String.eqb v "" then b else v
  | None => b
  end.

(** [process.env.POLYMARKET_PRIVATE_KEY]; the module throws while loading
    when it is missing or empty. *)
Definition MASTER_PRIVATE_KEY : string := or_string (env "POLYMARKET_PRIVATE_KEY") "".

Definition POLYGON_RPC_URL : string := or_string (env "POLYGON_RPC_URL") "https://polygon-rpc.com".

Definition CHAIN_ID : Z := 137.

(** The provider every function of the module builds. *)
Definition polygon_provider : JsonRpcProvider :=
  mkJsonRpcProvider POLYGON_RPC_URL CHAIN_ID "polygon".

(** [deriveUserPrivateKey]: the hash of the master key and the phone.  Each
    run is recorded in the trace. *)
Definition deriveUserPrivateKey (phone : string) : M string :=
  modify (record (EvDeriveKey phone)) ;;;
  let seed := solidityKeccak256 MASTER_PRIVATE_KEY phone in
  ret seed.

(** [sdkCache.get(phone)!]: the entry is always there when this runs; were
    it not, the caller would get [undefined] and fail on its first use. *)
Definition sdkCache_get (phone : string) : M ThirdwebSDK :=
  fun s =>
    match sdkCache s !! phone with
    | Some sdk => (Ok sdk, s)
    | None => (Throw (TypeError "sdk is undefined"), s)
    end.

Definition getSDKForUser (phone : string) : M ThirdwebSDK :=
  has <- gets (fun s => bool_decide (is_Some (sdkCache s !! phone))) ;;
  (if negb has then
     userPrivateKey <- deriveUserPrivateKey phone ;;
     let sdk := fromPrivateKey userPrivateKey "polygon" in
     modify (set_sdkCache (insert phone sdk))
   else ret tt) ;;;
  sdkCache_get phone.

Definition getOrCreateServerWallet (phone : string) : M WalletInfo :=
  try_catch
    (sdk <- getSDKForUser phone ;;
     address <- call_read (EvSdkGetAddress sdk) (fun w => sdk_wallet_getAddress w sdk) ;;
     ret {| address := address;
            thirdwebWalletId := phone;
            provider := "thirdweb";
            chainId := CHAIN_ID |})
    (fun error =>
       throw (Error ("Thirdweb wallet creation failed: " +:+ err_message error))).

Definition getWalletAddress (phone : string) : M string :=
  wallet <- getOrCreateServerWallet phone ;;
  ret (address wallet).

Definition getThirdwebSigner (phone : string) : M Wallet :=
  privateKey <- deriveUserPrivateKey phone ;;
  let provider := polygon_provider in
  ret (new_Wallet privateKey provider).

Definition getPolymarketAddress (phone : string) : M string :=
  signer <- getThirdwebSigner phone ;;
  ret (wallet_address signer).

(** [nonceEnv ? Number(nonceEnv) : undefined], kept only when finite. *)
Definition api_nonce : option JsNum :=
  let nonceEnv := env "POLYMARKET_API_NONCE" in
  let nonceMaybe :=
    match nonceEnv with
    | Some v => if String.eqb v "" then None else Some (StringToNumber v)
    | None => None
    end in
  match nonceMaybe with
  | Some n => if isFinite n then Some n else None
  | None => None
  end.

Definition getApiCreds (phone : string) : M ApiCreds :=
  cached <- gets (fun s => apiCredsCache s !! phone) ;;
  match cached with
  | Some creds => ret creds
  | None =>
      try_catch
        (signer <- getThirdwebSigner phone ;;
         let nonce := api_nonce in
         raw <- call (EvCreateOrDeriveApiKey (wallet_address signer))
                     (fun w => clob_createOrDeriveApiKey w signer nonce) ;;
         creds <- lift (coerceApiCreds raw) ;;
         modify (set_apiCredsCache (insert phone creds)) ;;;
         ret creds)
        (fun error =>
           modify (set_apiCredsCache (delete phone)) ;;;
           throw error)
  end.

(* ===================================================================== *)
(** * Gas management ([polymarketClob.ts], lines 467-521)                  *)
(* ===================================================================== *)

(** [ethers.utils.parseEther('0.1')], [('0.5')] and [('10')], in wei. *)
Definition MATIC_TOP_UP_THRESHOLD_WEI : Z := 100000000000000000.
Definition MATIC_TOP_UP_AMOUNT_WEI : Z := 500000000000000000.
Definition MASTER_WALLET_MIN_BALANCE_WEI : Z := 10000000000000000000.

Definition getBalance (account : string) : M Z :=
  call_read (EvGetBalance account) (fun w => provider_getBalance w account).

(** [wallet.sendTransaction({ to, value })] *)
Definition sendTransaction (wallet : Wallet) (to : string) (value : Z) : M string :=
  call (EvSendTransaction (wallet_address wallet) to value)
       (fun w => wallet_sendTransaction w (wallet_privateKey wallet) to value).

Definition wait (txHash : string) : M unit :=
  call (EvWait txHash) (fun w => tx_wait w txHash).

Definition ensureGasBalance (userPhone : string) : M unit :=
  try_catch
    (let provider := polygon_provider in
     userWallet <- getOrCreateServerWallet userPhone ;;
     userBalance <- getBalance (address userWallet) ;;
     if (userBalance <? MATIC_TOP_UP_THRESHOLD_WEI)%Z then
       let masterWallet := new_Wallet MASTER_PRIVATE_KEY provider in
       masterBalance <- getBalance (wallet_address masterWallet) ;;
       if (masterBalance <? MATIC_TOP_UP_AMOUNT_WEI)%Z then
         throw (Error ("CRITICAL: Master wallet has insufficient MATIC ("
                       +:+ formatEther masterBalance +:+ " < "
                       +:+ formatEther MATIC_TOP_UP_AMOUNT_WEI +:+ ")"))
       else
         tx <- sendTransaction masterWallet (address userWallet) MATIC_TOP_UP_AMOUNT_WEI ;;
         wait tx
     else ret tt)
    (fun error =>
       throw (Error ("Gas balance check failed: " +:+ err_message error))).

(** The message of the error thrown when the master wallet cannot fund a
    top-up. *)
Definition insufficient_master_message (masterBalance : Z) : string :=
  "CRITICAL: Master wallet has insufficient MATIC ("
  +:+ formatEther masterBalance +:+ " < "
  +:+ formatEther MATIC_TOP_UP_AMOUNT_WEI +:+ ")".

(** The key and the address derived for a tenant, and the address of the
    master wallet. *)
Definition key_of (phone : string) : string := solidityKeccak256 MASTER_PRIVATE_KEY phone.
Definition address_of (phone : string) : string := computeAddress (key_of phone).
Definition master_address : string := computeAddress MASTER_PRIVATE_KEY.

(** The signer [getThirdwebSigner] builds for a tenant. *)
Definition signer_of (phone : string) : Wallet := new_Wallet (key_of phone) polygon_provider.

(** ** Reading the trace *)

(** The transfers submitted, in order. *)
Fixpoint transfers (t : list Event) : list Transfer :=
  match t with
  | [] => []
  | EvSendTransaction from to value :: rest => mkTransfer from to value :: transfers rest
  | _ :: rest => transfers rest
  end.

(** How many times the key derivation ran for a phone. *)
Fixpoint derivations (phone : string) (t : list Event) : nat :=
  match t with
  | [] => 0
  | EvDeriveKey p :: rest => (if String.eqb p phone then 1 else 0) + derivations phone rest
  | _ :: rest => derivations phone rest
  end.

(** How many times the remote credential derivation was called. *)
Fixpoint remote_derivations (t : list Event) : nat :=
  match t with
  | [] => 0
  | EvCreateOrDeriveApiKey _ :: rest => S (remote_derivations rest)
  | _ :: rest => remote_derivations rest
  end.

(** Run an operation [n] times in a row, collecting what each call returns. *)
Fixpoint repeat_call {A} (n : nat) (m : M A) (s : State) : list (Result A) * State :=
  match n with
  | O => ([], s)
  | S n' =>
      let '(r, s1) := m s in
      let '(rs, s2) := repeat_call n' m s1 in
      (r :: rs, s2)
  end.

(** ** What the specification calls a typed error and a 32-byte value *)

(** An error is of the type [InsufficientMasterFunds] when that is the name
    of its class. *)
Definition is_InsufficientMasterFunds (e : JsError) : Prop :=
  err_name e = "InsufficientMasterFunds".

Definition is_hex_digit (c : ascii) : bool :=
  let n := N_of_ascii c in
  (((48 <=? n) && (n <=? 57)) || ((97 <=? n) && (n <=? 102)) || ((65 <=? n) && (n <=? 70)))%N.

Fixpoint all_hex (s : string) : bool :=
  match s with
  | EmptyString => true
  | String c r => is_hex_digit c && all_hex r
  end.

(** Number of bytes a [0x]-prefixed hexadecimal string stands for
    ([ethers.utils.hexDataLength]). *)
Definition hexDataLength (s : string) : option nat :=
  match s with
  | String "0" (String "x" r) =>
      if all_hex r && Nat.even (String.length r) then Some (String.length r / 2)%nat else None
  | _ => None
  end.

End Executor.

(* ===================================================================== *)
(** * The signing adapter ([polymarketClob.ts], lines 313-391)             *)
(* ===================================================================== *)

Definition WalletInfo_address (w : WalletInfo) : string := address w.

Module ThirdwebSigner.
Section Class.
Context `{E : Externals}.

(** An instance: the two private fields, the cached [_address] ([None] is
    [null]), the public [address] and the [provider] property. *)
Record t : Type := mk {
  _phone : string;
  _sdk : ThirdwebSDK;
  _address : option string;
  address : string;
  provider : option JsonRpcProvider
}.

(** A promise, by the outcome it settles with; calling the async function
    has its effects at once. *)
Definition promise {A} (m : M A) : M (Result A) :=
  fun s => let '(r, s') := m s in (Ok r, s').

(** [new ThirdwebSigner(phone, provider)]: the instance as the constructor
    returns it, and the promise [wallet] on which it registered its
    callbacks. *)
Definition constructor (phone : string) (provider : option JsonRpcProvider)
  : M (t * Result WalletInfo) :=
  sdk <- getSDKForUser phone ;;
  wallet <- promise (getOrCreateServerWallet phone) ;;
  ret (mk phone sdk None "" provider, wallet).

(** The callbacks of [wallet.then(...).catch(...)], run by the job queue once
    the promise has settled: after the constructor has returned. *)
Definition on_settled (this : t) (wallet : Result WalletInfo) : t :=
  match wallet with
  | Ok w => mk (_phone this) (_sdk this)
               (Some (WalletInfo_address w)) (WalletInfo_address w) (provider this)
  | Throw err => this
  end.

(** [!this._address] *)
Definition address_unset (this : t) : bool :=
  match _address this with
  | None => true
  | Some a => String.eqb a ""
  end.

(** [getAddress()]: the address, and the instance after the call. *)
Definition getAddress (this : t) : M (string * t) :=
  if address_unset this then
    a <- call_read (EvSdkGetAddress (_sdk this))
                   (fun w => sdk_wallet_getAddress w (_sdk this)) ;;
    ret (a, mk (_phone this) (_sdk this) (Some a) a (provider this))
  else
    ret (match _address this with Some a => a | None => "" end, this).

Definition signMessage (this : t) (message : string + list Byte.byte) : M string :=
  try_catch
    (let messageString :=
       match message with
       | inl text => text
       | inr bytes => hexlify bytes
       end in
     call_read (EvSdkSign (_sdk this) messageString)
               (fun w => sdk_wallet_sign w (_sdk this) messageString))
    (fun error => throw (Error ("Failed to sign message: " +:+ err_message error))).

Definition signTransaction (this : t) : M string :=
  throw (Error "signTransaction not implemented - use sendTransaction instead").

Definition sendTransaction (this : t) (transaction : JsValue) : M JsValue :=
  try_catch
    (match provider this with
     | None => throw (Error "Provider required to send transaction")
     | Some _ =>
         call (EvSdkSendRawTransaction (_sdk this))
              (fun w => sdk_wallet_sendRawTransaction w (_sdk this) transaction)
     end)
    (fun error => throw (Error ("Failed to send transaction: " +:+ err_message error))).

Definition connect (this : t) (provider : JsonRpcProvider) : M (t * Result WalletInfo) :=
  constructor (_phone this) (Some provider).

End Class.
End ThirdwebSigner.

(* ===================================================================== *)
(** * Executor authentication ([server.ts], lines 14-33)                   *)
(* ===================================================================== *)

Record Request : Type := mkRequest {
  req_path : string;
  (** [req.header(name)] *)
  req_header : string -> option string
}.

Record Response : Type := mkResponse {
  status : Z;
  body : JsValue
}.

(** What a middleware does with a request: call [next()], or answer. *)
Inductive Handled : Type :=
| Next
| Respond (r : Response).

Section Server.
Context `{E : Externals}.

Definition EXECUTOR_API_TOKEN : string := trim (or_string (env "EXECUTOR_API_TOKEN") "").

(** [token !== EXECUTOR_API_TOKEN] *)
Definition differs (token : option string) (expected : string) : bool :=
  match token with
  | Some t => negb (String.eqb t expected)
  | None => true
  end.

(** [res.status(500).json({ ok: false, error: "EXECUTOR_API_TOKEN missing" })] *)
Definition token_missing : Response :=
  mkResponse 500 (JsObject [("ok", JsBool false);
                            ("error", JsString "EXECUTOR_API_TOKEN missing")]).

(** [res.status(401).json({ ok: false, error: "unauthorized" })] *)
Definition unauthorized : Response :=
  mkResponse 401 (JsObject [("ok", JsBool false);
                            ("error", JsString "unauthorized")]).

Definition auth (req : Request) : Handled :=
  if String.eqb (req_path req) "/health" then Next
  else if String.eqb EXECUTOR_API_TOKEN "" then Respond token_missing
  else
    let token := req_header req "x-executor-token" in
    if differs token EXECUTOR_API_TOKEN then Respond unauthorized
    else Next.

(** The application behind [cors()] and [express.json()]: the authentication
    middleware, then the endpoint handlers registered after it. *)
Definition app (handlers : Request -> M Response) (req : Request) : M Response :=
  match auth req with
  | Next => handlers req
  | Respond r => ret r
  end.

End Server.

(* ===================================================================== *)
(** * Market listing ([polymarketGamma.ts])                                *)
(* ===================================================================== *)

Section Gamma.
Context `{E : Externals}.

Definition GAMMA_HOST : string := "https://gamma-api.polymarket.com".

(** [Number(v)] *)
Definition ToNumber (v : JsValue) : JsNum :=
  match v with
  | JsUndefined => NaN
  | JsNull => Fin 0
  | JsBool b => Fin (if b then 1 else 0)
  | JsNumber n => n
  | JsString s => StringToNumber s
  | JsObject _ | JsArray _ => ObjectToNumber v
  end.

(** [String(v)] for a query parameter: a string, a number or a boolean. *)
Definition ToString (v : JsValue) : string :=
  match v with
  | JsString s => s
  | JsNumber n => NumberToString n
  | JsBool true => "true"
  | JsBool false => "false"
  | _ => ""
  end.

(** [url.searchParams.set(k, v)]: the first pair named [k] takes the value
    and the others of that name go; without one, the pair is appended. *)
Fixpoint searchParams_set (k v : string) (ps : list (string * string)) : list (string * string) :=
  match ps with
  | [] => [(k, v)]
  | (k', v') :: rest =>
      if String.eqb k' k
      then (k, v) :: List.filter (fun p => negb (String.eqb (fst p) k)) rest
      else (k', v') :: searchParams_set k v rest
  end.

Definition with_params (url : URL) (params : list (string * JsValue)) : URL :=
  fold_left
    (fun u kv =>
       match snd kv with
       | JsUndefined => u
       | v => mkURL (url_base u) (url_path u)
                    (searchParams_set (fst kv) (ToString v) (url_searchParams u))
       end)
    params url.

Definition gammaGet (path : string) (params : list (string * JsValue)) : M JsValue :=
  let url := with_params (mkURL GAMMA_HOST path []) params in
  res <- call (EvFetch (URL_toString url)) (fun w => http_fetch w (URL_toString url)) ;;
  let text := res_text res in
  if negb (res_ok res) then
    throw (Error ("Gamma error " +:+ NumberToString (num_of_Z (res_status res))
                  +:+ ": " +:+ text))
  else lift (JSON_parse text).

(** [Number(limit)], with the default value of the parameter. *)
Definition requested (limit : JsValue) : JsNum :=
  let limit := match limit with JsUndefined => JsNumber (Fin 10) | _ => limit end in
  ToNumber limit.

(** [Math.max(1, Math.min(50, Number(limit) || 10))] *)
Definition safeLimit (limit : JsValue) : JsNum :=
  let n := requested limit in
  Math_max (Fin 1) (Math_min (Fin 50) (if num_truthy n then n else Fin 10)).

(** A number above zero. *)
Definition is_positive (n : JsNum) : bool :=
  match n with
  | Fin q => negb (Qle_bool q 0)
  | PosInf => true
  | NaN | NegInf => false
  end.

(** A number below zero. *)
Definition is_negative (n : JsNum) : bool :=
  match n with
  | Fin q => negb (Qle_bool 0 q)
  | NegInf => true
  | NaN | PosInf => false
  end.

(** Equality of numbers, as [===] has it on numbers that are not NaN. *)
Definition num_eqb (a b : JsNum) : bool :=
  match a, b with
  | Fin p, Fin q => Qeq_bool p q
  | PosInf, PosInf | NegInf, NegInf => true
  | _, _ => false
  end.

(** The values a [for ... of] loop visits. *)
Definition iterate (v : JsValue) : Result (list JsValue) :=
  match v with
  | JsArray l => Ok l
  | JsString s => Ok (List.map (fun c => JsString (String c EmptyString)) (list_ascii_of_string s))
  | _ => Throw (TypeError "events is not iterable")
  end.

(** [ev?.markets] *)
Definition markets_of (ev : JsValue) : JsValue :=
  if nullish ev then JsUndefined else get ev "markets".

(** The object pushed for market [m] of event [ev]. *)
Definition flat_market (ev m : JsValue) : Result JsValue :=
  if nullish m then Throw (TypeError "Cannot read properties of null (reading 'id')")
  else Ok (JsObject [("eventId", get ev "id");
                     ("eventTitle", get ev "title");
                     ("eventSlug", get ev "slug");
                     ("id", get m "id");
                     ("question", get m "question");
                     ("slug", get m "slug");
                     ("active", get m "active");
                     ("endDate", get m "endDate");
                     ("outcomes", get m "outcomes");
                     ("outcomePrices", get m "outcomePrices");
                     ("clobTokenIds", get m "clobTokenIds");
                     ("volume", get m "volume");
                     ("liquidity", get m "liquidity")]).

(** The inner loop: [markets.push(...)] for every market of one event. *)
Fixpoint push_markets (ev : JsValue) (evMarkets markets : list JsValue) : Result (list JsValue) :=
  match evMarkets with
  | [] => Ok markets
  | m :: rest =>
      match flat_market ev m with
      | Ok o => push_markets ev rest (markets ++ [o])
      | Throw e => Throw e
      end
  end.

(** The outer loop. *)
Fixpoint flatten (events markets : list JsValue) : Result (list JsValue) :=
  match events with
  | [] => Ok markets
  | ev :: rest =>
      let evMarkets := match markets_of ev with JsArray ms => ms | _ => [] end in
      match push_markets ev evMarkets markets with
      | Ok markets' => flatten rest markets'
      | Throw e => Throw e
      end
  end.

(** [l.slice(0, end)] *)
Definition slice0 {A} (l : list A) (end_ : JsNum) : list A :=
  let len := Z.of_nat (length l) in
  let final :=
    match end_ with
    | NaN => 0%Z
    | NegInf => 0%Z
    | PosInf => len
    | Fin q =>
        let relativeEnd := Qtrunc q in
        if (relativeEnd <? 0)%Z then Z.max (len + relativeEnd) 0 else Z.min relativeEnd len
    end in
  take (Z.to_nat final) l.

(** The address [gammaTopMarkets] fetches. *)
Definition events_url (limit : JsValue) : string :=
  URL_toString
    (with_params (mkURL GAMMA_HOST "/events" [])
                 [("order", JsString "id");
                  ("ascending", JsBool false);
                  ("closed", JsBool false);
                  ("active", JsBool true);
                  ("limit", JsNumber (safeLimit limit));
                  ("offset", JsNumber (Fin 0))]).

Definition gammaTopMarkets (limit : JsValue) : M (list JsValue) :=
  let safeLimit := safeLimit limit in
  events <- gammaGet "/events" [("order", JsString "id");
                                ("ascending", JsBool false);
                                ("closed", JsBool false);
                                ("active", JsBool true);
                                ("limit", JsNumber safeLimit);
                                ("offset", JsNumber (Fin 0))] ;;
  events <- lift (iterate events) ;;
  markets <- lift (flatten events []) ;;
  ret (slice0 markets safeLimit).

(** An array of events, each an object whose [markets], when an array, holds
    objects only. *)
Definition well_formed_event (ev : JsValue) : bool :=
  match markets_of ev with
  | JsArray ms => forallb (fun m => negb (nullish m)) ms
  | _ => true
  end.

End Gamma.

(* ===================================================================== *)
(** * A simulated chain, exchange and market service                       *)
(* ===================================================================== *)

(** One instance of [Externals], on which the model runs on concrete inputs:
    a ledger of balances, a script of replies of the exchange and one reply
    of the market service.  Its hash is a stand-in of the right shape, not
    Keccak. *)
Module Simulation.

Record SimWorld : Type := mkSim {
  balances : gmap string Z;
  exchange_replies : list (Result JsValue);
  gamma_reply : Result HttpResponse
}.

Definition hex_digit (n : N) : ascii :=
  match String.get (N.to_nat n) "0123456789abcdef" with
  | Some c => c
  | None => "0"%char
  end.

Fixpoint hex_of (s : string) : string :=
  match s with
  | EmptyString => EmptyString
  | String c r =>
      let n := N_of_ascii c in
      String (hex_digit (n / 16)) (String (hex_digit (n mod 16)) (hex_of r))
  end.

Fixpoint take_pad (n : nat) (s : string) : string :=
  match n with
  | O => EmptyString
  | S n' =>
      match s with
      | EmptyString => String "0" (take_pad n' EmptyString)
      | String c r => String c (take_pad n' r)
      end
  end.

Definition sim_hash (a b : string) : string :=
  "0x" +:+ take_pad 64 (hex_of (b +:+ a)).

Definition sim_address (privateKey : string) : string :=
  "0x" +:+ take_pad 40 (match privateKey with
                        | String "0" (String "x" r) => r
                        | _ => privateKey
                        end).

Fixpoint strip_zeros (s : string) : string :=
  match s with
  | EmptyString => EmptyString
  | String c r =>
      match strip_zeros r with
      | EmptyString => if Ascii.eqb c "0" then EmptyString else String c EmptyString
      | r' => String c r'
      end
  end.

(** Decimal rendering of an amount of wei in ether: [formatEther]. *)
Definition sim_formatEther (wei : Z) : string :=
  let v := Z.abs wei in
  let unit := (10 ^ 18)%Z in
  let digits := pretty (v mod unit)%Z in
  let fraction := strip_zeros (Js.repeat "0" (18 - String.length digits) +:+ digits) in
  (if (wei <? 0)%Z then "-" else "")
  +:+ pretty (v / unit)%Z +:+ "."
  +:+ (if String.eqb fraction "" then "0" else fraction).

Fixpoint all_digits (s : string) : bool :=
  match s with
  | EmptyString => true
  | String c r => ((48 <=? N_of_ascii c) && (N_of_ascii c <=? 57))%N && all_digits r
  end.

Fixpoint decimal_value (acc : Z) (s : string) : Z :=
  match s with
  | EmptyString => acc
  | String c r => decimal_value (10 * acc + (Z.of_N (N_of_ascii c) - 48))%Z r
  end.

Definition sim_StringToNumber (s : string) : JsNum :=
  if all_digits s then num_of_Z (decimal_value 0 s) else NaN.

Definition sim_NumberToString (n : JsNum) : string :=
  match n with
  | NaN => "NaN"
  | PosInf => "Infinity"
  | NegInf => "-Infinity"
  | Fin q =>
      if Pos.eqb (Qden q) 1 then pretty (Qnum q)
      else pretty (Qnum q) +:+ "/" +:+ pretty (Zpos (Qden q))
  end.

(** Two events, the first with two markets. *)
Definition sample_events : JsValue :=
  JsArray [JsObject [("id", JsString "e1"); ("title", JsString "Election");
                     ("markets", JsArray [JsObject [("id", JsString "m1")];
                                          JsObject [("id", JsString "m2")]])];
           JsObject [("id", JsString "e2");
                     ("markets", JsArray [JsObject [("id", JsString "m3")]])]].

Definition sim_JSON_parse (text : string) : Result JsValue :=
  if String.eqb text "[]" then Ok (JsArray [])
  else if String.eqb text "null" then Ok JsNull
  else if String.eqb text "[e1,e2]" then Ok sample_events
  else Throw (mkError "SyntaxError" "Unexpected token").

Fixpoint query (ps : list (string * string)) : string :=
  match ps with
  | [] => EmptyString
  | [(k, v)] => k +:+ "=" +:+ v
  | (k, v) :: rest => k +:+ "=" +:+ v +:+ "&" +:+ query rest
  end.

Definition sim_URL_toString (u : URL) : string :=
  url_base u +:+ url_path u
  +:+ (match url_searchParams u with [] => "" | ps => "?" +:+ query ps end).

Definition balance_of (w : SimWorld) (account : string) : Z :=
  match balances w !! account with
  | Some b => b
  | None => 0%Z
  end.

Definition sim_send (w : SimWorld) (privateKey to : string) (value : Z) : Result string * SimWorld :=
  let from := sim_address privateKey in
  if (balance_of w from <? value)%Z
  then (Throw (Error "insufficient funds for intrinsic transaction cost"), w)
  else (Ok "0xtx",
        mkSim (<[to := (balance_of w to + value)%Z]>
                 (<[from := (balance_of w from - value)%Z]> (balances w)))
              (exchange_replies w) (gamma_reply w)).

Definition sim_createOrDeriveApiKey (w : SimWorld) (signer : Wallet) (nonce : option JsNum)
  : Result JsValue * SimWorld :=
  match exchange_replies w with
  | [] => (Throw (Error "connect ETIMEDOUT"), w)
  | r :: rest => (r, mkSim (balances w) rest (gamma_reply w))
  end.

Definition externals (environment : string -> option string) : Externals := {|
  World := SimWorld;
  env := environment;
  solidityKeccak256 := sim_hash;
  computeAddress := sim_address;
  formatEther := sim_formatEther;
  StringToNumber := sim_StringToNumber;
  NumberToString := sim_NumberToString;
  ObjectToNumber := fun _ => NaN;
  JSON_parse := sim_JSON_parse;
  URL_toString := sim_URL_toString;
  provider_getBalance := fun w a => Ok (balance_of w a);
  wallet_sendTransaction := sim_send;
  tx_wait := fun w _ => (Ok tt, w);
  hexlify := fun bytes => "0x" +:+ hex_of (string_of_list_byte bytes);
  sdk_wallet_getAddress := fun w sdk => Ok (sim_address (sdk_privateKey sdk));
  sdk_wallet_sign := fun w sdk message => Ok (sim_hash (sdk_privateKey sdk) message);
  sdk_wallet_sendRawTransaction := fun w sdk transaction => (Ok JsNull, w);
  clob_createOrDeriveApiKey := sim_createOrDeriveApiKey;
  http_fetch := fun w _ => (gamma_reply w, w)
|}.

(** The environment of a deployed executor, and one without a token. *)
Definition deployed (name : string) : option string :=
  if String.eqb name "POLYMARKET_PRIVATE_KEY"
  then Some "0xa1b2c3d4e5f60718293a4b5c6d7e8f90a1b2c3d4e5f60718293a4b5c6d7e8f90"
  else if String.eqb name "EXECUTOR_API_TOKEN" then Some " s3cret "
  else None.

Definition tokenless (name : string) : option string :=
  if String.eqb name "POLYMARKET_PRIVATE_KEY"
  then Some "0xa1b2c3d4e5f60718293a4b5c6d7e8f90a1b2c3d4e5f60718293a4b5c6d7e8f90"
  else None.

Definition deployment : Externals := externals deployed.

Definition tenant : string := "+15550001".

Definition tenant_address : string :=
  sim_address (sim_hash (or_string (deployed "POLYMARKET_PRIVATE_KEY") "") tenant).

Definition master : string :=
  sim_address (or_string (deployed "POLYMARKET_PRIVATE_KEY") "").

(** The environment after a restart with another token and another RPC
    endpoint, and the same master key. *)
Definition redeployed (name : string) : option string :=
  if String.eqb name "POLYMARKET_PRIVATE_KEY"
  then Some "0xa1b2c3d4e5f60718293a4b5c6d7e8f90a1b2c3d4e5f60718293a4b5c6d7e8f90"
  else if String.eqb name "EXECUTOR_API_TOKEN" then Some "rotated"
  else if String.eqb name "POLYGON_RPC_URL" then Some "https://rpc.example"
  else None.

Definition redeployment : Externals := externals redeployed.

(** An executor started without [EXECUTOR_API_TOKEN]. *)
Definition unconfigured : Externals := externals tokenless.

(** The deployed executor, just started, in a given world. *)
Definition boot (w : SimWorld) : State (E := deployment) := initial (E := deployment) w.

(** A chain on which the master wallet and the tenant hold the given
    balances, in wei. *)
Definition chain (masterBalance tenantBalance : Z) : SimWorld :=
  mkSim (<[master := masterBalance]> (<[tenant_address := tenantBalance]> ∅))
        [] (Throw (Error "fetch failed")).

(** An exchange that answers the calls to [createOrDeriveApiKey] in turn. *)
Definition exchange (replies : list (Result JsValue)) : SimWorld :=
  mkSim ∅ replies (Throw (Error "fetch failed")).

(** An exchange whose first reply is a failure and whose second reply is a
    credential in the alternate shape. *)
Definition flaky_exchange : SimWorld :=
  exchange [Throw (Error "connect ETIMEDOUT");
            Ok (alternate_response "k-1" [Byte.xfb; Byte.xff] (JsString "pw"))].

(** An exchange that answers once, then fails. *)
Definition failing_exchange : SimWorld :=
  exchange [Ok (canonical_response "k-2" [Byte.x01] (JsString "pw2"));
            Throw (Error "connect ETIMEDOUT")].

(** A market service with one reply. *)
Definition market_service (reply : Result HttpResponse) : SimWorld :=
  mkSim ∅ [] reply.

End Simulation.

(* ===================================================================== *)
(** * The rest of the wallet module ([polymarketClob.ts], lines 83-92 and
      407-461, 523-547)                                                    *)
(* ===================================================================== *)

(** What the functions below call besides [Externals]: the address
    checksum, the [BigNumber] parser and printer, the hash in the receipt of
    a mined transaction, the gas price, and the two token contracts. *)
Class OnchainExternals (E : Externals) : Type := {
  (** [ethers.utils.getAddress] *)
  utils_getAddress : string -> Result string;
  (** [BigNumber.from(s)] and [b.toString()] *)
  BigNumber_from : string -> Result Z;
  BigNumber_toString : Z -> string;
  (** [receipt.transactionHash] of the receipt [tx.wait()] resolved to *)
  receipt_transactionHash : World -> string -> string;
  (** [provider.getGasPrice()] *)
  provider_getGasPrice : World -> Result Z;
  (** [token.allowance(owner, spender)] on the ERC-20 contract at [token] *)
  erc20_allowance : World -> string -> string -> string -> Result Z;
  (** [token.approve(spender, amount, { gasPrice })] signed with a private
      key; resolves to the transaction hash *)
  erc20_approve : World -> string -> string -> string -> Z -> Z -> Result string * World;
  (** [token.isApprovedForAll(account, operator)] on the ERC-1155 contract *)
  erc1155_isApprovedForAll : World -> string -> string -> string -> Result bool;
  (** [token.setApprovalForAll(operator, approved, { gasPrice })] *)
  erc1155_setApprovalForAll :
    World -> string -> string -> string -> bool -> Z -> Result string * World
}.

(** [new ClobClient(host, chainId, signer, creds, signatureType, funder)] *)
Record ClobClient : Type := mkClobClient {
  clob_host : string;
  clob_chainId : JsNum;
  clob_signer : Wallet;
  clob_creds : option ApiCreds;
  clob_signatureType : option Z;
  clob_funder : option string
}.

(** What [checkMasterWalletBalance] writes to the console, by the call and
    the values interpolated in the message. *)
Inductive ConsoleLine : Type :=
| LogMasterBalance (balanceEther masterAddress : string)
| WarnBalanceLow (balanceEther minimumEther : string)
| WarnPleaseTopUp (masterAddress : string)
| ErrorCheckFailed (error : JsError).

Section WalletModule.
Context `{E : Externals} {O : OnchainExternals E}.

(** [process.env.POLYMARKET_HOST ?? "https://clob.polymarket.com"] *)
Definition POLYMARKET_HOST : string :=
  match env "POLYMARKET_HOST" with
  | Some h => h
  | None => "https://clob.polymarket.com"
  end.

(** [Number(process.env.POLYMARKET_CHAIN_ID ?? "137")] *)
Definition POLYMARKET_CHAIN_ID : JsNum :=
  StringToNumber (match env "POLYMARKET_CHAIN_ID" with
                  | Some c => c
                  | None => "137"
                  end).

Definition getL2Client (phone : string) : M ClobClient :=
  signer <- getThirdwebSigner phone ;;
  creds <- getApiCreds phone ;;
  let funder := wallet_address signer in
  ret (mkClobClient POLYMARKET_HOST POLYMARKET_CHAIN_ID signer (Some creds) (Some 0%Z)
                    (Some funder)).

Definition sendNativeToken (phone toAddress amountWei : string) : M string :=
  try_catch
    (signer <- getThirdwebSigner phone ;;
     value <- lift (BigNumber_from amountWei) ;;
     tx <- sendTransaction signer toAddress value ;;
     wait tx ;;;
     txHash <- gets (fun s => receipt_transactionHash (world s) tx) ;;
     ret txHash)
    (fun error =>
       throw (Error ("Failed to send native token: " +:+ err_message error))).

Definition getWalletBalance (phone : string) : M string :=
  try_catch
    (wallet <- getOrCreateServerWallet phone ;;
     balance <- getBalance (address wallet) ;;
     ret (BigNumber_toString balance))
    (fun error =>
       throw (Error ("Failed to get balance: " +:+ err_message error))).

(** [checkMasterWalletBalance]: it returns nothing; the result here is what
    it writes to the console. *)
Definition checkMasterWalletBalance : M (list ConsoleLine) :=
  try_catch
    (let masterWallet := new_Wallet MASTER_PRIVATE_KEY polygon_provider in
     masterBalance <- getBalance (wallet_address masterWallet) ;;
     let balanceEther := formatEther masterBalance in
     let logged := [LogMasterBalance balanceEther (wallet_address masterWallet)] in
     if (masterBalance <? MASTER_WALLET_MIN_BALANCE_WEI)%Z then
       ret (logged ++ [WarnBalanceLow balanceEther
                                      (formatEther MASTER_WALLET_MIN_BALANCE_WEI);
                       WarnPleaseTopUp (wallet_address masterWallet)])%list
     else ret logged)
    (fun error => ret [ErrorCheckFailed error]).

(** The warnings among the lines written. *)
Definition warnings (lines : list ConsoleLine) : list ConsoleLine :=
  List.filter (fun l => match l with
                        | WarnBalanceLow _ _ | WarnPleaseTopUp _ => true
                        | _ => false
                        end) lines.

(** How many times the SDK was asked for an address. *)
Fixpoint address_queries (t : list Event) : nat :=
  match t with
  | [] => 0
  | EvSdkGetAddress _ :: rest => S (address_queries rest)
  | _ :: rest => address_queries rest
  end.

(** The calls into the SDK wallet that sign or send. *)
Fixpoint sdk_sends (t : list Event) : nat :=
  match t with
  | [] => 0
  | EvSdkSendRawTransaction _ :: rest => S (sdk_sends rest)
  | _ :: rest => sdk_sends rest
  end.

(** A credential as [coerceApiCreds] returns them: no field is empty and no
    field begins or ends with white space. *)
Definition well_formed_creds (c : ApiCreds) : Prop :=
  key c <> "" /\ trim (key c) = key c
  /\ passphrase c <> "" /\ trim (passphrase c) = passphrase c
  /\ secret c <> "" /\ trim (secret c) = secret c
  /\ occurs "-" (secret c) = false /\ occurs "_" (secret c) = false
  /\ (String.length (secret c) mod 4 = 0)%nat.

(** Every credential in the cache is well formed. *)
Definition cache_well_formed (s : State) : Prop :=
  forall phone c, apiCredsCache s !! phone = Some c -> well_formed_creds c.

(** [getApiCreds] for each tenant of a list, in turn, whatever each call
    returns. *)
Fixpoint getApiCreds_each (phones : list string) (s : State) : State :=
  match phones with
  | [] => s
  | phone :: rest => getApiCreds_each rest (snd (getApiCreds phone s))
  end.

(** [getWalletAddress] for each tenant of a list, in turn, whatever each
    call returns. *)
Fixpoint getWalletAddress_each (phones : list string) (s : State) : State :=
  match phones with
  | [] => s
  | phone :: rest => getWalletAddress_each rest (snd (getWalletAddress phone s))
  end.

(** Every SDK in the cache is the one built from the key derived for the
    tenant it is filed under. *)
Definition sdkCache_derived (s : State) : Prop :=
  forall phone sdk, sdkCache s !! phone = Some sdk ->
                    sdk = fromPrivateKey (key_of phone) "polygon".

(** The characters [normalizeBase64ForAtob] keeps, with the two URL-safe
    ones replaced. *)
Definition to_standard_alphabet (s : string) : string :=
  replaceAll "_" "/" (replaceAll "-" "+" s).

End WalletModule.

(* ===================================================================== *)
(** * The market listing, seen from outside                                *)
(* ===================================================================== *)

Section GammaModule.
Context `{E : Externals}.

(** The markets of an event that the loop visits. *)
Definition event_markets (ev : JsValue) : list JsValue :=
  match markets_of ev with
  | JsArray ms => ms
  | _ => []
  end.

(** The object pushed for a market that is an object. *)
Definition market_object (ev m : JsValue) : JsValue :=
  JsObject [("eventId", get ev "id");
            ("eventTitle", get ev "title");
            ("eventSlug", get ev "slug");
            ("id", get m "id");
            ("question", get m "question");
            ("slug", get m "slug");
            ("active", get m "active");
            ("endDate", get m "endDate");
            ("outcomes", get m "outcomes");
            ("outcomePrices", get m "outcomePrices");
            ("clobTokenIds", get m "clobTokenIds");
            ("volume", get m "volume");
            ("liquidity", get m "liquidity")].

(** All markets of all events, event by event. *)
Definition all_markets (events : list JsValue) : list JsValue :=
  flat_map (fun ev => List.map (market_object ev) (event_markets ev)) events.

(** The parameters that are not [undefined], as the strings sent. *)
Definition defined_params (params : list (string * JsValue)) : list (string * string) :=
  List.map (fun kv => (fst kv, ToString (snd kv)))
           (List.filter (fun kv => match snd kv with JsUndefined => false | _ => true end)
                        params).


End GammaModule.

(* ===================================================================== *)
(** * On-chain approvals ([polymarketClob.ts], lines 98-198)               *)
(* ===================================================================== *)

(** The constants the module computes while loading. *)
Record OnchainModule : Type := mkOnchainModule {
  EXCHANGE : string;
  CTF : string;
  COLLATERAL : string;
  PRIVATE_KEY : string
}.

(** One entry of [out.approvals]. *)
Record Approval : Type := mkApproval {
  spender : string;
  alreadyOk : bool;
  txHash : option string
}.

(** What [enableTrading] returns. *)
Record EnableTradingResult : Type := mkEnableTradingResult {
  out_owner : string;
  out_exchange : string;
  out_approvals : list Approval;
  out_ctf_wasApproved : bool;
  out_ctf_txHash : option string
}.

(** What [getOnchainApprovals] returns. *)
Record OnchainApprovals : Type := mkOnchainApprovals {
  approvals_owner : string;
  approvals_exchange : string;
  usdcAllowanceToExchange : string;
  ctfApprovedForAllToExchange : bool
}.

(** The calls these functions make to the chain, in order (ghost state). *)
Inductive ChainCall : Type :=
| CallGasPrice
| CallAllowance (token owner spender : string)
| CallApprove (token spender : string) (amount gasPrice : Z)
| CallIsApprovedForAll (token account operator : string)
| CallSetApprovalForAll (token operator : string) (approved : bool) (gasPrice : Z)
| CallWait (txHash : string).

Section Onchain.
Context `{E : Externals} {O : OnchainExternals E}.

Definition mustEnv (name : string) : Result string :=
  let v := trim (or_string (env name) "") in
  if String.eqb v "" then Throw (Error ("Missing " +:+ name +:+ " in env"))
  else Ok v.

Definition normalizeAddress (raw name : string) : Result string :=
  let v := trim raw in
  match utils_getAddress v with
  | Ok checksummed => Ok checksummed
  | Throw _ => Throw (Error ("Invalid address in " +:+ name))
  end.

Definition and_then {A B} (r : Result A) (k : A -> Result B) : Result B :=
  match r with
  | Ok a => k a
  | Throw e => Throw e
  end.

(** The top-level statements of the module, in order: a module that loads
    has its four constants. *)
Definition load_onchain : Result OnchainModule :=
  let PRIVATE_KEY := trim (or_string (env "POLYMARKET_PRIVATE_KEY") "") in
  and_then (and_then (mustEnv "POLY_EXCHANGE_ADDRESS")
                     (fun v => normalizeAddress v "POLY_EXCHANGE_ADDRESS"))
    (fun EXCHANGE =>
  and_then (and_then (mustEnv "POLY_CTF_ADDRESS")
                     (fun v => normalizeAddress v "POLY_CTF_ADDRESS"))
    (fun CTF =>
  and_then (and_then (mustEnv "POLY_COLLATERAL_TOKEN_ADDRESS")
                     (fun v => normalizeAddress v "POLY_COLLATERAL_TOKEN_ADDRESS"))
    (fun COLLATERAL =>
  if String.eqb PRIVATE_KEY "" then Throw (Error "Missing POLYMARKET_PRIVATE_KEY in env")
  else Ok (mkOnchainModule EXCHANGE CTF COLLATERAL PRIVATE_KEY)))).

(** ** Effects of the module: the world and the calls made to it *)

Record Ledger : Type := mkLedger {
  ledger_world : World;
  ledger_calls : list ChainCall
}.

Definition T (A : Type) : Type := Ledger -> Result A * Ledger.

Definition t_ret {A} (a : A) : T A := fun l => (Ok a, l).

Definition t_lift {A} (r : Result A) : T A := fun l => (r, l).

Definition t_bind {A B} (m : T A) (k : A -> T B) : T B :=
  fun l =>
    match m l with
    | (Ok a, l') => k a l'
    | (Throw e, l') => (Throw e, l')
    end.

Definition t_read {A} (c : ChainCall) (f : World -> Result A) : T A :=
  fun l => (f (ledger_world l), mkLedger (ledger_world l) (ledger_calls l ++ [c])).

Definition t_call {A} (c : ChainCall) (f : World -> Result A * World) : T A :=
  fun l =>
    let '(r, w) := f (ledger_world l) in
    (r, mkLedger w (ledger_calls l ++ [c])).

(** [utils.parseUnits("30", "gwei")], [utils.parseUnits("1000000", 6)] and
    [BigNumber.from(2).pow(256).sub(1)] *)
Definition GAS_PRICE_FLOOR : Z := 30000000000.
Definition MAXISH_ALLOWANCE : Z := 1000000000000.
Definition MAX_UINT256 : Z := 2 ^ 256 - 1.

Definition txOverrides : T Z :=
  t_bind (t_read CallGasPrice provider_getGasPrice) (fun gp =>
  let floor := GAS_PRICE_FLOOR in
  t_ret (if (gp <? floor)%Z then floor else gp)).

Definition chain_wait (tx : string) : T unit :=
  t_call (CallWait tx) (fun w => tx_wait w tx).

Definition getOnchainApprovals (m : OnchainModule) : T OnchainApprovals :=
  let owner := computeAddress (PRIVATE_KEY m) in
  t_bind (t_read (CallAllowance (COLLATERAL m) owner (EXCHANGE m))
                 (fun w => erc20_allowance w (COLLATERAL m) owner (EXCHANGE m)))
         (fun allowance =>
  t_bind (t_read (CallIsApprovedForAll (CTF m) owner (EXCHANGE m))
                 (fun w => erc1155_isApprovedForAll w (CTF m) owner (EXCHANGE m)))
         (fun approved =>
  t_ret (mkOnchainApprovals owner (EXCHANGE m) (BigNumber_toString allowance) approved))).

(** [set.add(x)] on a [Set], kept in insertion order. *)
Definition Set_add (set : list string) (x : string) : list string :=
  if existsb (String.eqb x) set then set else (set ++ [x])%list.

(** [Array.from(new Set(xs))] *)
Definition unique (xs : list string) : list string := fold_left Set_add xs [].

(** [xs.map((s) => normalizeAddress(String(s), "spender"))] *)
Fixpoint normalize_all (xs : list string) : Result (list string) :=
  match xs with
  | [] => Ok []
  | x :: rest =>
      and_then (normalizeAddress x "spender") (fun a =>
      and_then (normalize_all rest) (fun l => Ok (a :: l)))
  end.

(** The loop over the spenders. *)
Fixpoint approve_each (m : OnchainModule) (owner : string) (spenders : list string)
         (approvals : list Approval) : T (list Approval) :=
  match spenders with
  | [] => t_ret approvals
  | spender :: rest =>
      t_bind (t_read (CallAllowance (COLLATERAL m) owner spender)
                     (fun w => erc20_allowance w (COLLATERAL m) owner spender))
             (fun current =>
      let isAlreadyMaxish := (MAXISH_ALLOWANCE <? current)%Z in
      if isAlreadyMaxish then
        approve_each m owner rest (approvals ++ [mkApproval spender true None])%list
      else
        t_bind txOverrides (fun gasPrice =>
        t_bind (t_call (CallApprove (COLLATERAL m) spender MAX_UINT256 gasPrice)
                       (fun w => erc20_approve w (PRIVATE_KEY m) (COLLATERAL m) spender
                                               MAX_UINT256 gasPrice))
               (fun tx =>
        t_bind (chain_wait tx) (fun _ =>
        approve_each m owner rest
                     (approvals ++ [mkApproval spender false (Some tx)])%list))))
  end.

Definition enableTrading (m : OnchainModule) (spenders : list string)
  : T EnableTradingResult :=
  let owner := computeAddress (PRIVATE_KEY m) in
  t_bind (t_lift (and_then (normalize_all (EXCHANGE m :: spenders))
                           (fun l => Ok (unique l))))
         (fun uniqueSpenders =>
  t_bind (approve_each m owner uniqueSpenders []) (fun approvals =>
  t_bind (t_read (CallIsApprovedForAll (CTF m) owner (EXCHANGE m))
                 (fun w => erc1155_isApprovedForAll w (CTF m) owner (EXCHANGE m)))
         (fun already =>
  if already then
    t_ret (mkEnableTradingResult owner (EXCHANGE m) approvals true None)
  else
    t_bind txOverrides (fun gasPrice =>
    t_bind (t_call (CallSetApprovalForAll (CTF m) (EXCHANGE m) true gasPrice)
                   (fun w => erc1155_setApprovalForAll w (PRIVATE_KEY m) (CTF m)
                                                       (EXCHANGE m) true gasPrice))
           (fun tx =>
    t_bind (chain_wait tx) (fun _ =>
    t_ret (mkEnableTradingResult owner (EXCHANGE m) approvals false (Some tx)))))))).

(** A call these functions may make: a read, a wait, an approval of the
    unlimited amount or the grant of the exchange as operator, the last two
    at a gas price of at least the floor. *)
Definition safe_call (m : OnchainModule) (c : ChainCall) : Prop :=
  match c with
  | CallApprove token _ amount gasPrice =>
      token = COLLATERAL m /\ amount = MAX_UINT256 /\ (GAS_PRICE_FLOOR <= gasPrice)%Z
  | CallSetApprovalForAll token operator approved gasPrice =>
      token = CTF m /\ operator = EXCHANGE m /\ approved = true
      /\ (GAS_PRICE_FLOOR <= gasPrice)%Z
  | _ => True
  end.

(** The spenders approved by the calls of a log. *)
Fixpoint approved_spenders (calls : list ChainCall) : list string :=
  match calls with
  | [] => []
  | CallApprove _ s _ _ :: rest => s :: approved_spenders rest
  | _ :: rest => approved_spenders rest
  end.

(** Calls that change the chain. *)
Definition is_write (c : ChainCall) : bool :=
  match c with
  | CallApprove _ _ _ _ | CallSetApprovalForAll _ _ _ _ => true
  | _ => false
  end.

End Onchain.

(** A simulated token pair over the simulated chain: allowances and operator
    grants are entries of the ledger of balances. *)
Module SimulationChain.

Definition is_address (s : string) : bool :=
  match s with
  | String "0" (String "x" r) => all_hex r && Nat.eqb (String.length r) 40
  | _ => false
  end.

Definition sim_getAddress (s : string) : Result string :=
  if is_address s then Ok s else Throw (mkError "Error" "invalid address").

Definition sim_BigNumber_from (s : string) : Result Z :=
  if Simulation.all_digits s && negb (String.eqb s "")
  then Ok (Simulation.decimal_value 0 s)
  else Throw (mkError "Error" "invalid BigNumber string").

Definition put (k : string) (v : Z) (w : Simulation.SimWorld) : Simulation.SimWorld :=
  Simulation.mkSim (<[k := v]> (Simulation.balances w))
                   (Simulation.exchange_replies w) (Simulation.gamma_reply w).

Definition onchain_for (environment : string -> option string)
  : OnchainExternals (Simulation.externals environment) := {|
  utils_getAddress := sim_getAddress;
  BigNumber_from := sim_BigNumber_from;
  BigNumber_toString := fun z => pretty z;
  receipt_transactionHash := fun (w : World (Externals := Simulation.externals environment)) tx => tx;
  provider_getGasPrice := fun (w : World (Externals := Simulation.externals environment)) => Ok (Simulation.balance_of w "gas");
  erc20_allowance :=
    fun (w : World (Externals := Simulation.externals environment)) token owner spender =>
      Ok (Simulation.balance_of w ("allowance/" +:+ spender));
  erc20_approve :=
    fun (w : World (Externals := Simulation.externals environment)) key token spender amount gasPrice =>
      (Ok ("0xapprove/" +:+ spender), put ("allowance/" +:+ spender) amount w);
  erc1155_isApprovedForAll :=
    fun (w : World (Externals := Simulation.externals environment)) token account operator =>
      Ok (0 <? Simulation.balance_of w ("operator/" +:+ operator))%Z;
  erc1155_setApprovalForAll :=
    fun (w : World (Externals := Simulation.externals environment)) key token operator approved gasPrice =>
      (Ok "0xoperator", put ("operator/" +:+ operator) (if approved then 1 else 0)%Z w)
|}.

Definition onchain : OnchainExternals Simulation.deployment := onchain_for Simulation.deployed.

Definition exchange_address : string := "0x4bfb41d5b3570defd03c39a9a4d8de6bd8b8982e".
Definition other_spender : string := "0xc5d563a36ae78145c45a50134d48a1215220f80a".

(** A loaded module. *)
Definition loaded : OnchainModule :=
  mkOnchainModule exchange_address
                  "0x4d97dcd97ec945f40cf65f87097ace5ea0476045"
                  "0x2791bca1f2de4661ed88a30c99a7a9449aa84174"
                  "0xa1b2c3d4e5f60718293a4b5c6d7e8f90a1b2c3d4e5f60718293a4b5c6d7e8f90".

(** A chain with a gas price of 10 gwei on which the exchange already holds
    an unlimited allowance and the other spender none. *)
Definition start_world : Simulation.SimWorld :=
  put "gas" 10000000000
      (put ("allowance/" +:+ exchange_address) (2 ^ 256 - 1) (Simulation.chain 0 0)).

Definition start : Ledger (E := Simulation.deployment) :=
  @mkLedger Simulation.deployment start_world [].

(** The same chain once the exchange is an operator of the CTF token. *)
Definition settled : Ledger (E := Simulation.deployment) :=
  @mkLedger Simulation.deployment (put ("operator/" +:+ exchange_address) 1 start_world) [].

(** The report of [enableTrading] for the other spender on the chain at its
    start. *)
Definition enabled : EnableTradingResult :=
  mkEnableTradingResult
    "0xa1b2c3d4e5f60718293a4b5c6d7e8f90a1b2c3d4" exchange_address
    [mkApproval exchange_address true None;
     mkApproval other_spender false (Some ("0xapprove/" +:+ other_spender))]
    false (Some "0xoperator").

(** An environment with the three contract addresses, one of them padded
    with blanks. *)
Definition with_addresses (name : string) : option string :=
  if String.eqb name "POLY_EXCHANGE_ADDRESS" then Some (" " +:+ exchange_address +:+ " ")
  else if String.eqb name "POLY_CTF_ADDRESS"
  then Some "0x4d97dcd97ec945f40cf65f87097ace5ea0476045"
  else if String.eqb name "POLY_COLLATERAL_TOKEN_ADDRESS"
  then Some "0x2791bca1f2de4661ed88a30c99a7a9449aa84174"
  else Simulation.deployed name.

End SimulationChain.

(* ===================================================================== *)
(** * Properties of strings                                                *)
(* ===================================================================== *)

Lemma append_cons (c : ascii) (s t : string) :
  String c s +:+ t = String c (s +:+ t).
Proof. reflexivity. Qed.

Lemma append_empty_l (t : string) : "" +:+ t = t.
Proof. reflexivity. Qed.

Ltac unfold_append := rewrite ?append_cons, ?append_empty_l.

Lemma length_append (s t : string) :
  String.length (s +:+ t) = (String.length s + String.length t)%nat.
Proof.
  induction s as [|c s IH]; unfold_append; simpl; [reflexivity | now rewrite IH].
Qed.

Lemma append_empty_r (s : string) : s +:+ "" = s.
Proof.
  induction s as [|c s IH]; unfold_append; [reflexivity | now rewrite IH].
Qed.

Lemma length_repeat_char (c : ascii) (n : nat) :
  String.length (Js.repeat (String c "") n) = n.
Proof.
  induction n as [|n IH]; simpl; unfold_append; simpl; [reflexivity | now rewrite IH].
Qed.

Lemma length_replaceAll (a b : ascii) (s : string) :
  String.length (replaceAll a b s) = String.length s.
Proof. induction s as [|c s IH]; simpl; [reflexivity | now rewrite IH]. Qed.

Lemma trimStart_clean (s : string) : starts_clean s = true -> trimStart s = s.
Proof.
  destruct s as [|c s]; simpl; [reflexivity|].
  now destruct (is_whitespace c).
Qed.

Lemma trimEnd_clean (s : string) : ends_clean s = true -> trimEnd s = s.
Proof.
  induction s as [|c s IH]; [reflexivity|].
  destruct s as [|d s].
  - simpl. now destruct (is_whitespace c).
  - intros H. change (ends_clean (String d s) = true) in H.
    specialize (IH H).
    change (match trimEnd (String d s) with
            | EmptyString => if is_whitespace c then EmptyString else String c EmptyString
            | r' => String c r'
            end = String c (String d s)).
    now rewrite IH.
Qed.

Lemma starts_clean_trimStart (s : string) : starts_clean (trimStart s) = true.
Proof.
  induction s as [|c s IH]; [reflexivity|].
  simpl. destruct (is_whitespace c) eqn:Hc; [exact IH|].
  simpl. now rewrite Hc.
Qed.

Lemma ends_clean_trimEnd (s : string) : ends_clean (trimEnd s) = true.
Proof.
  induction s as [|c s IH]; [reflexivity|].
  simpl. destruct (trimEnd s) as [|d r] eqn:Hr.
  - destruct (is_whitespace c) eqn:Hc; simpl; [reflexivity | now rewrite Hc].
  - exact IH.
Qed.

Lemma starts_clean_trimEnd (s : string) :
  starts_clean s = true -> starts_clean (trimEnd s) = true.
Proof.
  destruct s as [|c s]; [reflexivity|].
  simpl. intros Hc. destruct (trimEnd s).
  - destruct (is_whitespace c) eqn:Hw; simpl in *; [discriminate | now rewrite Hw].
  - exact Hc.
Qed.

Lemma starts_clean_trim (s : string) : starts_clean (trim s) = true.
Proof. apply starts_clean_trimEnd, starts_clean_trimStart. Qed.

Lemma ends_clean_trim (s : string) : ends_clean (trim s) = true.
Proof. apply ends_clean_trimEnd. Qed.

Lemma trim_clean (s : string) :
  starts_clean s = true -> ends_clean s = true -> trim s = s.
Proof.
  intros Hs He. unfold trim. rewrite (trimStart_clean s Hs). now apply trimEnd_clean.
Qed.

Lemma trim_idempotent (s : string) : trim (trim s) = trim s.
Proof. apply trim_clean; [apply starts_clean_trim | apply ends_clean_trim]. Qed.

Lemma starts_clean_replaceAll (a b : ascii) (s : string) :
  is_whitespace a = false -> is_whitespace b = false ->
  starts_clean (replaceAll a b s) = starts_clean s.
Proof.
  intros Ha Hb. destruct s as [|c s]; [reflexivity|]. simpl.
  destruct (Ascii.eqb c a) eqn:Hc; [|reflexivity].
  apply Ascii.eqb_eq in Hc. subst c. now rewrite Ha, Hb.
Qed.

Lemma ends_clean_replaceAll (a b : ascii) (s : string) :
  is_whitespace a = false -> is_whitespace b = false ->
  ends_clean (replaceAll a b s) = ends_clean s.
Proof.
  intros Ha Hb. induction s as [|c s IH]; [reflexivity|].
  destruct s as [|d s].
  - simpl. destruct (Ascii.eqb c a) eqn:Hc; [|reflexivity].
    apply Ascii.eqb_eq in Hc. subst c. now rewrite Ha, Hb.
  - exact IH.
Qed.

Lemma starts_clean_append (s t : string) :
  starts_clean s = true -> starts_clean t = true -> starts_clean (s +:+ t) = true.
Proof. destruct s; unfold_append; simpl; auto. Qed.

Lemma ends_clean_append (s t : string) :
  ends_clean s = true -> ends_clean t = true -> ends_clean (s +:+ t) = true.
Proof.
  induction s as [|c s IH]; unfold_append; [auto|].
  intros Hs Ht. destruct s as [|d s].
  - unfold_append. destruct t; [exact Hs | exact Ht].
  - rewrite append_cons in *. apply IH; assumption.
Qed.

Lemma starts_clean_repeat_eq (n : nat) : starts_clean (Js.repeat "=" n) = true.
Proof. destruct n; reflexivity. Qed.

Lemma ends_clean_repeat_eq (n : nat) : ends_clean (Js.repeat "=" n) = true.
Proof.
  induction n as [|n IH]; [reflexivity|].
  simpl. unfold_append. destruct (Js.repeat "=" n); [reflexivity | exact IH].
Qed.

Lemma occurs_append (a : ascii) (s t : string) :
  occurs a (s +:+ t) = occurs a s || occurs a t.
Proof.
  induction s as [|c s IH]; unfold_append; simpl; [reflexivity|].
  rewrite IH. now rewrite orb_assoc.
Qed.

Lemma occurs_repeat_other (a c : ascii) (n : nat) :
  a <> c -> occurs a (Js.repeat (String c "") n) = false.
Proof.
  intros Hne. induction n as [|n IH]; [reflexivity|].
  simpl. unfold_append. simpl. rewrite IH.
  destruct (Ascii.eqb c a) eqn:Hc; [|reflexivity].
  apply Ascii.eqb_eq in Hc. congruence.
Qed.

Lemma occurs_replaceAll_replaced (a b : ascii) (s : string) :
  a <> b -> occurs a (replaceAll a b s) = false.
Proof.
  intros Hne. induction s as [|c s IH]; [reflexivity|].
  simpl. rewrite IH. destruct (Ascii.eqb c a) eqn:Hc.
  - destruct (Ascii.eqb b a) eqn:Hb; [|reflexivity].
    apply Ascii.eqb_eq in Hb. congruence.
  - now rewrite Hc.
Qed.

Lemma occurs_replaceAll_absent (x a b : ascii) (s : string) :
  x <> b -> occurs x s = false -> occurs x (replaceAll a b s) = false.
Proof.
  intros Hne. induction s as [|c s IH]; [reflexivity|].
  simpl. intros H. apply orb_false_iff in H as [Hc Hs].
  rewrite (IH Hs). destruct (Ascii.eqb c a).
  - destruct (Ascii.eqb b x) eqn:Hb; [|reflexivity].
    apply Ascii.eqb_eq in Hb. congruence.
  - now rewrite Hc.
Qed.

Lemma replaceAll_absent (a b : ascii) (s : string) :
  occurs a s = false -> replaceAll a b s = s.
Proof.
  induction s as [|c s IH]; [reflexivity|].
  simpl. intros H. apply orb_false_iff in H as [Hc Hs].
  now rewrite Hc, (IH Hs).
Qed.

(* ===================================================================== *)
(** * Credential normalisation is canonicalising                           *)
(* ===================================================================== *)

(** The secret before padding: trimmed, with the two URL-safe characters
    replaced. *)
Lemma normalizeBase64ForAtob_unfold (s : string) :
  normalizeBase64ForAtob s =
  replaceAll "_" "/" (replaceAll "-" "+" (trim s))
  +:+ Js.repeat "=" ((4 - String.length (trim s) mod 4) mod 4).
Proof.
  unfold normalizeBase64ForAtob. now rewrite !length_replaceAll.
Qed.

Lemma pad_completes (n : nat) : ((n + (4 - n mod 4) mod 4) mod 4 = 0)%nat.
Proof.
  pose proof (Nat.div_mod_eq n 4) as Hn.
  pose proof (Nat.mod_upper_bound n 4 ltac:(lia)) as Hr.
  remember (n mod 4)%nat as r eqn:Er.
  remember (n / 4)%nat as q eqn:Eq.
  assert (Hcases : (r = 0 \/ r = 1 \/ r = 2 \/ r = 3)%nat) by lia.
  destruct Hcases as [-> | [-> | [-> | ->]]].
  - change ((4 - 0) mod 4)%nat with 0%nat.
    replace (n + 0)%nat with (0 + q * 4)%nat by lia. now rewrite Nat.Div0.mod_add.
  - change ((4 - 1) mod 4)%nat with 3%nat.
    replace (n + 3)%nat with (0 + (q + 1) * 4)%nat by lia. now rewrite Nat.Div0.mod_add.
  - change ((4 - 2) mod 4)%nat with 2%nat.
    replace (n + 2)%nat with (0 + (q + 1) * 4)%nat by lia. now rewrite Nat.Div0.mod_add.
  - change ((4 - 3) mod 4)%nat with 1%nat.
    replace (n + 1)%nat with (0 + (q + 1) * 4)%nat by lia. now rewrite Nat.Div0.mod_add.
Qed.

Lemma pad_of_multiple (n : nat) : (n mod 4 = 0 -> (4 - n mod 4) mod 4 = 0)%nat.
Proof. intros ->. reflexivity. Qed.

Lemma normalizeBase64ForAtob_length (s : string) :
  (String.length (normalizeBase64ForAtob s) mod 4 = 0)%nat.
Proof.
  rewrite normalizeBase64ForAtob_unfold, length_append, !length_replaceAll.
  rewrite length_repeat_char. apply pad_completes.
Qed.

Lemma normalizeBase64ForAtob_no_dash (s : string) :
  occurs "-" (normalizeBase64ForAtob s) = false.
Proof.
  rewrite normalizeBase64ForAtob_unfold, occurs_append.
  rewrite occurs_replaceAll_absent, occurs_repeat_other; try discriminate; [reflexivity|].
  apply occurs_replaceAll_replaced. discriminate.
Qed.

Lemma normalizeBase64ForAtob_no_underscore (s : string) :
  occurs "_" (normalizeBase64ForAtob s) = false.
Proof.
  rewrite normalizeBase64ForAtob_unfold, occurs_append.
  rewrite occurs_replaceAll_replaced, occurs_repeat_other; try discriminate.
  reflexivity.
Qed.

Lemma normalizeBase64ForAtob_trimmed (s : string) :
  trim (normalizeBase64ForAtob s) = normalizeBase64ForAtob s.
Proof.
  rewrite normalizeBase64ForAtob_unfold. apply trim_clean.
  - apply starts_clean_append; [|apply starts_clean_repeat_eq].
    rewrite !starts_clean_replaceAll by reflexivity. apply starts_clean_trim.
  - apply ends_clean_append; [|apply ends_clean_repeat_eq].
    rewrite !ends_clean_replaceAll by reflexivity. apply ends_clean_trim.
Qed.

(** A second normalisation changes nothing. *)
Lemma normalizeBase64ForAtob_idempotent (s : string) :
  normalizeBase64ForAtob (normalizeBase64ForAtob s) = normalizeBase64ForAtob s.
Proof.
  rewrite (normalizeBase64ForAtob_unfold (normalizeBase64ForAtob s)).
  rewrite normalizeBase64ForAtob_trimmed.
  rewrite (replaceAll_absent "-" "+") by apply normalizeBase64ForAtob_no_dash.
  rewrite (replaceAll_absent "_" "/") by apply normalizeBase64ForAtob_no_underscore.
  rewrite pad_of_multiple by apply normalizeBase64ForAtob_length.
  apply append_empty_r.
Qed.

Lemma normalizeBase64ForAtob_length_ge (s : string) :
  (String.length (trim s) <= String.length (normalizeBase64ForAtob s))%nat.
Proof.
  rewrite normalizeBase64ForAtob_unfold, length_append, !length_replaceAll. lia.
Qed.

Example normalizeBase64ForAtob_url_safe :
  normalizeBase64ForAtob "  ab-_c " = "ab+/c===".
Proof. reflexivity. Qed.

Example normalizeBase64ForAtob_standard :
  normalizeBase64ForAtob "TWFuTQ==" = "TWFuTQ==".
Proof. reflexivity. Qed.

(** ** The two encodings of the same bytes *)

Example encode_Man : Base64.encode [Byte.x4d; Byte.x61; Byte.x6e] = "TWFu".
Proof. reflexivity. Qed.

Example encode_Ma : Base64.encode [Byte.x4d; Byte.x61] = "TWE=".
Proof. reflexivity. Qed.

Example encode_url_high_bits : Base64.encode_url [Byte.xfb; Byte.xff] = "-_8".
Proof. reflexivity. Qed.

Lemma list_ind3 {A} (P : list A -> Prop) :
  P [] -> (forall a, P [a]) -> (forall a b, P [a; b]) ->
  (forall a b c r, P r -> P (a :: b :: c :: r)) ->
  forall l, P l.
Proof.
  intros H0 H1 H2 H3. fix IH 1.
  intros [|a [|b [|c r]]].
  - exact H0.
  - apply H1.
  - apply H2.
  - apply H3, IH.
Qed.

(** Every digit of the URL-safe alphabet becomes the digit of the same value
    of the standard alphabet, and no digit is white space. *)
Lemma digit_url_to_std (g : N) :
  (let c := Base64.digit Base64.url_table g in
   let c1 := if Ascii.eqb c "-" then "+"%char else c in
   if Ascii.eqb c1 "_" then "/"%char else c1) = Base64.digit Base64.std_table g
  /\ is_whitespace (Base64.digit Base64.url_table g) = false
  /\ is_whitespace (Base64.digit Base64.std_table g) = false.
Proof.
  unfold Base64.digit. generalize (N.to_nat g) as n. intros n.
  do 64 (destruct n as [|n]; [repeat split; reflexivity|]).
  repeat split; reflexivity.
Qed.

Lemma digits_url_to_std (gs : list N) :
  replaceAll "_" "/" (replaceAll "-" "+" (Base64.digits Base64.url_table gs))
  = Base64.digits Base64.std_table gs.
Proof.
  induction gs as [|g gs IH]; [reflexivity|].
  simpl. rewrite IH. f_equal. apply (digit_url_to_std g).
Qed.

Lemma length_digits (table : string) (gs : list N) :
  String.length (Base64.digits table gs) = length gs.
Proof. induction gs as [|g gs IH]; simpl; [reflexivity | now rewrite IH]. Qed.

Lemma digits_url_clean (gs : list N) :
  starts_clean (Base64.digits Base64.url_table gs) = true
  /\ ends_clean (Base64.digits Base64.url_table gs) = true.
Proof.
  induction gs as [|g gs [IHs IHe]]; [split; reflexivity|].
  destruct (digit_url_to_std g) as (_ & Hg & _).
  split; simpl; [now rewrite Hg|].
  destruct (Base64.digits Base64.url_table gs) eqn:Hd; [now rewrite Hg | exact IHe].
Qed.

(** The padding the executor adds is the padding of the standard encoding. *)
Lemma pad_of_sextets (bs : list Byte.byte) :
  ((4 - length (Base64.sextets bs) mod 4) mod 4 = Base64.padding (length bs))%nat.
Proof.
  induction bs as [| a | a b | a b c r IH] using list_ind3; try reflexivity.
  change (Base64.sextets (a :: b :: c :: r))
    with ([N.shiftr (Byte.to_N a) 2;
           N.lor (N.shiftl (N.land (Byte.to_N a) 3) 4) (N.shiftr (Byte.to_N b) 4);
           N.lor (N.shiftl (N.land (Byte.to_N b) 15) 2) (N.shiftr (Byte.to_N c) 6);
           N.land (Byte.to_N c) 63] ++ Base64.sextets r)%list.
  rewrite length_app.
  change (length (a :: b :: c :: r)) with (3 + length r)%nat.
  replace (Base64.padding (3 + length r)) with (Base64.padding (length r)).
  - rewrite <- IH. simpl length.
    replace (4 + length (Base64.sextets r))%nat
      with (length (Base64.sextets r) + 1 * 4)%nat by lia.
    now rewrite Nat.Div0.mod_add.
  - unfold Base64.padding.
    replace (3 + length r)%nat with (length r + 1 * 3)%nat by lia.
    now rewrite Nat.Div0.mod_add.
Qed.

(** Normalising the URL-safe encoding of some bytes gives their standard
    padded encoding. *)
Lemma normalize_encode_url (bs : list Byte.byte) :
  normalizeBase64ForAtob (Base64.encode_url bs) = Base64.encode bs.
Proof.
  rewrite normalizeBase64ForAtob_unfold. unfold Base64.encode_url, Base64.encode.
  destruct (digits_url_clean (Base64.sextets bs)) as [Hs He].
  rewrite (trim_clean _ Hs He), digits_url_to_std, length_digits.
  now rewrite pad_of_sextets.
Qed.

(** The standard padded encoding is left as it is. *)
Lemma normalize_encode (bs : list Byte.byte) :
  normalizeBase64ForAtob (Base64.encode bs) = Base64.encode bs.
Proof.
  rewrite <- (normalize_encode_url bs). apply normalizeBase64ForAtob_idempotent.
Qed.

(** So is the padded URL-safe encoding brought to the standard one. *)
Lemma normalize_encode_url_padded (bs : list Byte.byte) :
  normalizeBase64ForAtob (Base64.encode_url_padded bs) = Base64.encode bs.
Proof.
  rewrite normalizeBase64ForAtob_unfold. unfold Base64.encode_url_padded, Base64.encode.
  destruct (digits_url_clean (Base64.sextets bs)) as [Hs He].
  rewrite trim_clean.
  - rewrite length_append, length_digits, length_repeat_char.
    assert (Hpad : forall s n, replaceAll "_" "/" (replaceAll "-" "+" (s +:+ Js.repeat "=" n))
                    = replaceAll "_" "/" (replaceAll "-" "+" s) +:+ Js.repeat "=" n).
    { intros s n. induction s as [|c s IHs]; unfold_append.
      - induction n as [|n IHn]; [reflexivity|]. simpl. unfold_append. simpl.
        now rewrite IHn.
      - simpl. unfold_append. now rewrite IHs. }
    rewrite Hpad, digits_url_to_std.
    rewrite <- (pad_of_sextets bs) at 2.
    rewrite pad_of_multiple; [apply append_empty_r | apply pad_completes].
  - apply starts_clean_append; [exact Hs | apply starts_clean_repeat_eq].
  - apply ends_clean_append; [exact He | apply ends_clean_repeat_eq].
Qed.

(** ** [coerceApiCreds] *)

Lemma missing_string_false (v : JsValue) :
  missing_string v = false ->
  exists s, v = JsString s /\ String.length (trim s) <> 0%nat.
Proof.
  destruct v as [| | | | s | |]; simpl; try discriminate.
  intros H. exists s. split; [reflexivity|]. now apply Nat.eqb_neq.
Qed.

(** What an accepted response is made of. *)
Lemma coerceApiCreds_Ok (raw : JsValue) (c : ApiCreds) :
  coerceApiCreds raw = Ok c ->
  exists k s p,
    c = {| key := trim k; secret := normalizeBase64ForAtob s; passphrase := trim p |}
    /\ String.length (trim k) <> 0%nat
    /\ String.length (trim s) <> 0%nat
    /\ String.length (trim p) <> 0%nat.
Proof.
  unfold coerceApiCreds.
  destruct (negb (truthy raw) || negb (String.eqb (typeof raw) "object")); [discriminate|].
  set (kv := if String.eqb (typeof (get raw "key")) "string"
             then get raw "key" else get raw "apiKey").
  destruct (missing_string kv) eqn:Hk; [discriminate|].
  destruct (missing_string (get raw "secret")) eqn:Hs; [discriminate|].
  destruct (missing_string (get raw "passphrase")) eqn:Hp; [discriminate|].
  apply missing_string_false in Hk as (k & -> & Hk).
  apply missing_string_false in Hs as (s & -> & Hs).
  apply missing_string_false in Hp as (p & -> & Hp).
  intros [= <-]. exists k, s, p. simpl. auto.
Qed.

Lemma missing_string_trimmed (s : string) :
  String.length s <> 0%nat -> trim s = s -> missing_string (JsString s) = false.
Proof. intros Hlen Ht. simpl. rewrite Ht. now apply Nat.eqb_neq. Qed.

(** Coercing the object of an accepted credential gives it back. *)
Lemma coerceApiCreds_idempotent (raw : JsValue) (c : ApiCreds) :
  coerceApiCreds raw = Ok c -> coerceApiCreds (creds_object c) = Ok c.
Proof.
  intros H. apply coerceApiCreds_Ok in H as (k & s & p & -> & Hk & Hs & Hp).
  unfold coerceApiCreds, creds_object. cbn [key secret passphrase].
  change (negb (truthy (JsObject _)) || negb (String.eqb (typeof (JsObject _)) "object"))
    with false.
  cbv beta iota.
  change (get (JsObject [("key", JsString (trim k));
                         ("passphrase", JsString (trim p));
                         ("secret", JsString (normalizeBase64ForAtob s))]) "key")
    with (JsString (trim k)).
  change (get (JsObject [("key", JsString (trim k));
                         ("passphrase", JsString (trim p));
                         ("secret", JsString (normalizeBase64ForAtob s))]) "secret")
    with (JsString (normalizeBase64ForAtob s)).
  change (get (JsObject [("key", JsString (trim k));
                         ("passphrase", JsString (trim p));
                         ("secret", JsString (normalizeBase64ForAtob s))]) "passphrase")
    with (JsString (trim p)).
  change (String.eqb (typeof (JsString (trim k))) "string") with true.
  cbv beta iota.
  rewrite (missing_string_trimmed (trim k) Hk (trim_idempotent k)).
  rewrite (missing_string_trimmed (trim p) Hp (trim_idempotent p)).
  rewrite (missing_string_trimmed (normalizeBase64ForAtob s)).
  - cbn [as_string].
    now rewrite !trim_idempotent, normalizeBase64ForAtob_idempotent.
  - pose proof (normalizeBase64ForAtob_length_ge s). lia.
  - apply normalizeBase64ForAtob_trimmed.
Qed.

Lemma sextets_nonempty (bs : list Byte.byte) :
  bs <> [] -> exists g gs, Base64.sextets bs = g :: gs.
Proof.
  destruct bs as [|a [|b [|c r]]]; [congruence | | |]; intros _; simpl; eauto.
Qed.

(** Both shapes of response are accepted or refused together, and an
    accepted one carries the standard padded encoding of the secret. *)
Lemma coerceApiCreds_shapes (k : string) (p : JsValue) (bs : list Byte.byte) :
  coerceApiCreds (alternate_response k bs p) = coerceApiCreds (canonical_response k bs p)
  /\ forall c, coerceApiCreds (canonical_response k bs p) = Ok c ->
               c = {| key := trim k;
                      secret := Base64.encode bs;
                      passphrase := trim (as_string p) |}.
Proof.
  unfold coerceApiCreds, alternate_response, canonical_response.
  change (negb (truthy (JsObject _)) || negb (String.eqb (typeof (JsObject _)) "object"))
    with false.
  cbv beta iota.
  change (get (JsObject [("apiKey", JsString k);
                         ("secret", JsString (Base64.encode_url bs));
                         ("passphrase", p)]) "key") with JsUndefined.
  change (get (JsObject [("apiKey", JsString k);
                         ("secret", JsString (Base64.encode_url bs));
                         ("passphrase", p)]) "apiKey") with (JsString k).
  change (get (JsObject [("apiKey", JsString k);
                         ("secret", JsString (Base64.encode_url bs));
                         ("passphrase", p)]) "secret")
    with (JsString (Base64.encode_url bs)).
  change (get (JsObject [("apiKey", JsString k);
                         ("secret", JsString (Base64.encode_url bs));
                         ("passphrase", p)]) "passphrase") with p.
  change (get (JsObject [("key", JsString k);
                         ("secret", JsString (Base64.encode bs));
                         ("passphrase", p)]) "key") with (JsString k).
  change (get (JsObject [("key", JsString k);
                         ("secret", JsString (Base64.encode bs));
                         ("passphrase", p)]) "secret")
    with (JsString (Base64.encode bs)).
  change (get (JsObject [("key", JsString k);
                         ("secret", JsString (Base64.encode bs));
                         ("passphrase", p)]) "passphrase") with p.
  change (String.eqb (typeof JsUndefined) "string") with false.
  change (String.eqb (typeof (JsString k)) "string") with true.
  cbv beta iota.
  cbn [as_string].
  rewrite normalize_encode_url, normalize_encode.
  assert (Hsec : missing_string (JsString (Base64.encode_url bs))
                 = missing_string (JsString (Base64.encode bs))).
  { destruct bs as [|b bs]; [reflexivity|].
    destruct (sextets_nonempty (b :: bs)) as (g & gs & Hg); [discriminate|].
    simpl. destruct (digits_url_clean (Base64.sextets (b :: bs))) as [Hs He].
    unfold Base64.encode_url at 1. rewrite (trim_clean _ Hs He).
    pose proof (normalizeBase64ForAtob_trimmed (Base64.encode_url (b :: bs))) as Ht.
    rewrite normalize_encode_url in Ht. rewrite Ht.
    unfold Base64.encode. rewrite length_append, !length_digits, Hg. reflexivity. }
  rewrite Hsec. split; [reflexivity|].
  intros c.
  destruct (missing_string (JsString k)); [discriminate|].
  destruct (missing_string (JsString (Base64.encode bs))); [discriminate|].
  destruct (missing_string p); [discriminate|].
  now intros [= <-].
Qed.

(** C7.  A response that names the key [apiKey] and encodes the secret
    URL-safe is coerced to exactly what the response with [key] and the
    standard padded encoding of the same bytes is coerced to, and that
    credential carries the standard padded encoding.  The secret of any
    accepted credential holds neither [-] nor [_], its length is a multiple
    of 4, and coercing the credential again gives it back unchanged. *)
Theorem coerceApiCreds_canonical
  (k : string) (p : JsValue) (bs : list Byte.byte) (raw : JsValue) (c c' : ApiCreds) :
  coerceApiCreds raw = Ok c ->
  coerceApiCreds (canonical_response k bs p) = Ok c' ->
  coerceApiCreds (alternate_response k bs p) = Ok c'
  /\ secret c' = Base64.encode bs
  /\ occurs "-" (secret c) = false
  /\ occurs "_" (secret c) = false
  /\ (String.length (secret c) mod 4 = 0)%nat
  /\ coerceApiCreds (creds_object c) = Ok c.
Proof.
  intros Hraw Hcanon.
  destruct (coerceApiCreds_shapes k p bs) as [Hsame Hval].
  split; [now rewrite Hsame|].
  split; [now rewrite (Hval c' Hcanon)|].
  pose proof (coerceApiCreds_idempotent raw c Hraw) as Hidem.
  apply coerceApiCreds_Ok in Hraw as (k0 & s0 & p0 & -> & _).
  cbn [secret].
  repeat split.
  - apply normalizeBase64ForAtob_no_dash.
  - apply normalizeBase64ForAtob_no_underscore.
  - apply normalizeBase64ForAtob_length.
  - exact Hidem.
Qed.

Lemma coerceApiCreds_canonical_witness :
  coerceApiCreds
    (alternate_response " k-1 " [Byte.xfb; Byte.xff; Byte.xfe; Byte.x01] (JsString "pw"))
  = Ok {| key := "k-1"; secret := "+//+AQ=="; passphrase := "pw" |}
  /\ coerceApiCreds (JsObject [("key", JsString "k"); ("secret", JsString " a-_b ");
                               ("passphrase", JsString "p")])
     = Ok {| key := "k"; secret := "a+/b"; passphrase := "p" |}
  /\ coerceApiCreds (creds_object {| key := "k"; secret := "a+/b"; passphrase := "p" |})
     = Ok {| key := "k"; secret := "a+/b"; passphrase := "p" |}.
Proof.
  pose proof (coerceApiCreds_canonical
                " k-1 " (JsString "pw") [Byte.xfb; Byte.xff; Byte.xfe; Byte.x01]
                (JsObject [("key", JsString "k"); ("secret", JsString " a-_b ");
                           ("passphrase", JsString "p")])
                {| key := "k"; secret := "a+/b"; passphrase := "p" |}
                {| key := "k-1"; secret := "+//+AQ=="; passphrase := "pw" |}
                eq_refl eq_refl) as (H1 & _ & _ & _ & _ & H6).
  split; [exact H1|]. split; [reflexivity | exact H6].
Defined.

(* ===================================================================== *)
(** * The caches and the key derivation                                    *)
(* ===================================================================== *)

Section ExecutorFacts.
Context `{E : Externals}.

Lemma transfers_app (t u : list Event) :
  transfers (t ++ u)%list = (transfers t ++ transfers u)%list.
Proof.
  induction t as [|e t IH]; [reflexivity|].
  destruct e; simpl; rewrite IH; reflexivity.
Qed.

Lemma derivations_app (phone : string) (t u : list Event) :
  derivations phone (t ++ u)%list = (derivations phone t + derivations phone u)%nat.
Proof.
  induction t as [|e t IH]; [reflexivity|].
  destruct e; simpl; rewrite IH; lia.
Qed.

Lemma remote_derivations_app (t u : list Event) :
  remote_derivations (t ++ u)%list = (remote_derivations t + remote_derivations u)%nat.
Proof.
  induction t as [|e t IH]; [reflexivity|].
  destruct e; simpl; rewrite IH; reflexivity.
Qed.

Lemma deriveUserPrivateKey_run (phone : string) (s : State) :
  deriveUserPrivateKey phone s = (Ok (key_of phone), record (EvDeriveKey phone) s).
Proof. reflexivity. Qed.

Lemma getThirdwebSigner_run (phone : string) (s : State) :
  getThirdwebSigner phone s
  = (Ok (signer_of phone), record (EvDeriveKey phone) s).
Proof. reflexivity. Qed.

Lemma getSDKForUser_hit (phone : string) (sdk : ThirdwebSDK) (s : State) :
  sdkCache s !! phone = Some sdk ->
  getSDKForUser phone s = (Ok sdk, s).
Proof.
  intros H. unfold getSDKForUser, bind, gets, sdkCache_get, ret.
  rewrite bool_decide_eq_true_2 by (rewrite H; eauto).
  simpl. now rewrite H.
Qed.

Lemma getSDKForUser_miss (phone : string) (s : State) :
  sdkCache s !! phone = None ->
  getSDKForUser phone s
  = (Ok (fromPrivateKey (key_of phone) "polygon"),
     set_sdkCache (insert phone (fromPrivateKey (key_of phone) "polygon"))
                  (record (EvDeriveKey phone) s)).
Proof.
  intros H. unfold getSDKForUser, bind, gets, sdkCache_get, ret.
  rewrite bool_decide_eq_false_2 by (rewrite H; intros [? ?]; discriminate).
  simpl. now rewrite lookup_insert_eq.
Qed.

(** [getSDKForUser] always returns a handle; it touches neither the world,
    nor the credential cache, nor any other tenant's entry, and it submits
    nothing. *)
Lemma getSDKForUser_frame (phone : string) (s : State) :
  exists sdk s',
    getSDKForUser phone s = (Ok sdk, s')
    /\ sdkCache s' !! phone = Some sdk
    /\ world s' = world s
    /\ apiCredsCache s' = apiCredsCache s
    /\ transfers (trace s') = transfers (trace s)
    /\ forall other, other <> phone -> sdkCache s' !! other = sdkCache s !! other.
Proof.
  destruct (sdkCache s !! phone) as [sdk|] eqn:H.
  - exists sdk, s. rewrite (getSDKForUser_hit _ _ _ H). auto 10.
  - eexists _, _. rewrite (getSDKForUser_miss _ _ H).
    split; [reflexivity|]. cbn [sdkCache set_sdkCache record world apiCredsCache trace].
    rewrite lookup_insert_eq, transfers_app, app_nil_r.
    repeat split; try reflexivity.
    intros other Hne. now rewrite lookup_insert_ne.
Qed.

(** [getOrCreateServerWallet] reads the world and may fill the tenant's SDK
    entry; it changes nothing else. *)
Lemma getOrCreateServerWallet_frame (phone : string) (s : State) :
  let s' := snd (getOrCreateServerWallet phone s) in
  world s' = world s
  /\ apiCredsCache s' = apiCredsCache s
  /\ transfers (trace s') = transfers (trace s).
Proof.
  destruct (getSDKForUser_frame phone s) as (sdk & s1 & Hrun & _ & Hw & Hc & Ht & _).
  unfold getOrCreateServerWallet, try_catch, bind, call_read, ret, throw.
  rewrite Hrun.
  destruct (sdk_wallet_getAddress (world s1) sdk); simpl;
    rewrite transfers_app, app_nil_r; auto.
Qed.

End ExecutorFacts.

(* ===================================================================== *)
(** * Gas custody                                                          *)
(* ===================================================================== *)

Section GasFacts.
Context `{E : Externals}.

(** The run of [ensureGasBalance] once the wallet is resolved and the balance
    of the tenant is read. *)
Lemma ensureGasBalance_run
  (userPhone : string) (s s1 : State) (userWallet : WalletInfo) (userBalance : Z) :
  getOrCreateServerWallet userPhone s = (Ok userWallet, s1) ->
  provider_getBalance (world s) (address userWallet) = Ok userBalance ->
  ensureGasBalance userPhone s =
  let s2 := record (EvGetBalance (address userWallet)) s1 in
  if (userBalance <? MATIC_TOP_UP_THRESHOLD_WEI)%Z then
    let s3 := record (EvGetBalance master_address) s2 in
    match provider_getBalance (world s) master_address with
    | Throw e => (Throw (Error ("Gas balance check failed: " +:+ err_message e)), s3)
    | Ok masterBalance =>
        if (masterBalance <? MATIC_TOP_UP_AMOUNT_WEI)%Z then
          (Throw (Error ("Gas balance check failed: "
                         +:+ insufficient_master_message masterBalance)), s3)
        else
          let s4 := record (EvSendTransaction master_address (address userWallet)
                                              MATIC_TOP_UP_AMOUNT_WEI) s3 in
          match wallet_sendTransaction (world s) MASTER_PRIVATE_KEY (address userWallet)
                                       MATIC_TOP_UP_AMOUNT_WEI with
          | (Throw e, w1) =>
              (Throw (Error ("Gas balance check failed: " +:+ err_message e)),
               set_world w1 s4)
          | (Ok tx, w1) =>
              let s5 := record (EvWait tx) (set_world w1 s4) in
              match tx_wait w1 tx with
              | (Throw e, w2) =>
                  (Throw (Error ("Gas balance check failed: " +:+ err_message e)),
                   set_world w2 s5)
              | (Ok u, w2) => (Ok u, set_world w2 s5)
              end
          end
    end
  else (Ok tt, s2).
Proof.
  intros Hwallet Hbal.
  pose proof (getOrCreateServerWallet_frame userPhone s) as (Hw & _ & _).
  rewrite Hwallet in Hw. cbn [snd] in Hw.
  unfold ensureGasBalance, try_catch, bind. rewrite Hwallet.
  unfold getBalance, call_read. rewrite Hw, Hbal.
  destruct (userBalance <? MATIC_TOP_UP_THRESHOLD_WEI)%Z; [|reflexivity].
  cbn [world record new_Wallet wallet_address wallet_privateKey].
  rewrite Hw. fold master_address.
  destruct (provider_getBalance (world s) master_address) as [masterBalance|e];
    [|reflexivity].
  destruct (masterBalance <? MATIC_TOP_UP_AMOUNT_WEI)%Z; [reflexivity|].
  unfold sendTransaction, wait, call.
  cbn [world record set_world new_Wallet wallet_address wallet_privateKey].
  rewrite Hw. fold master_address.
  destruct (wallet_sendTransaction (world s) MASTER_PRIVATE_KEY (address userWallet)
                                   MATIC_TOP_UP_AMOUNT_WEI) as [[tx|e] w1];
    [|reflexivity].
  cbn [world record set_world].
  destruct (tx_wait w1 tx) as [[u|e] w2]; reflexivity.
Qed.

(** C1.  Once the tenant's balance is read: at or above the threshold (so
    also exactly at it) [ensureGasBalance] returns normally, submits no
    transfer and leaves the world as it was; strictly below it, with a master
    balance of at least the top-up amount, it submits exactly one transfer,
    of the top-up amount, from the master wallet to the tenant's address, and
    returns normally when the transfer is sent and confirmed. *)
Theorem ensureGasBalance_threshold
  (userPhone : string) (s : State) (userWallet : WalletInfo) (userBalance : Z) :
  fst (getOrCreateServerWallet userPhone s) = Ok userWallet ->
  provider_getBalance (world s) (address userWallet) = Ok userBalance ->
  let r := fst (ensureGasBalance userPhone s) in
  let s' := snd (ensureGasBalance userPhone s) in
  ((MATIC_TOP_UP_THRESHOLD_WEI <= userBalance)%Z ->
   r = Ok tt
   /\ transfers (trace s') = transfers (trace s)
   /\ world s' = world s)
  /\ ((userBalance < MATIC_TOP_UP_THRESHOLD_WEI)%Z ->
      forall masterBalance : Z,
        provider_getBalance (world s) master_address = Ok masterBalance ->
        (MATIC_TOP_UP_AMOUNT_WEI <= masterBalance)%Z ->
        transfers (trace s')
        = (transfers (trace s)
           ++ [mkTransfer master_address (address userWallet) MATIC_TOP_UP_AMOUNT_WEI])%list
        /\ forall tx w1 w2,
            wallet_sendTransaction (world s) MASTER_PRIVATE_KEY (address userWallet)
                                   MATIC_TOP_UP_AMOUNT_WEI = (Ok tx, w1) ->
            tx_wait w1 tx = (Ok tt, w2) ->
            r = Ok tt /\ world s' = w2).
Proof.
  intros Hfst Hbal r s'. subst r s'.
  destruct (getOrCreateServerWallet userPhone s) as [r0 s1] eqn:Hwallet.
  cbn [fst] in Hfst. subst r0.
  rewrite (ensureGasBalance_run _ _ _ _ _ Hwallet Hbal).
  pose proof (getOrCreateServerWallet_frame userPhone s) as (Hw & _ & Ht).
  rewrite Hwallet in Hw, Ht. cbn [snd] in Hw, Ht.
  cbv zeta. split.
  - intros Hge. apply Z.ltb_ge in Hge. rewrite Hge.
    cbn [fst snd trace world record].
    rewrite transfers_app, app_nil_r. auto.
  - intros Hlt masterBalance Hmaster Hge.
    apply Z.ltb_lt in Hlt. apply Z.ltb_ge in Hge. rewrite Hlt, Hmaster, Hge.
    destruct (wallet_sendTransaction (world s) MASTER_PRIVATE_KEY (address userWallet)
                                     MATIC_TOP_UP_AMOUNT_WEI) as [[tx|e] w1].
    + destruct (tx_wait w1 tx) as [[u|e] w2] eqn:Hwait;
        cbn [fst snd trace world record set_world];
        rewrite !transfers_app, Ht; simpl; rewrite !app_nil_r;
        (split; [reflexivity|]);
        intros tx' w1' w2' [= <- <-] Hwait'; rewrite Hwait in Hwait';
        [injection Hwait' as -> -> | discriminate]; auto.
    + cbn [fst snd trace world record set_world].
      rewrite !transfers_app, Ht. simpl. rewrite !app_nil_r.
      split; [reflexivity|]. intros tx w1' w2 [=].
Qed.

(** Every error [ensureGasBalance] throws is a plain [Error] whose message
    begins with the same words, whatever failed. *)
Lemma ensureGasBalance_errors (userPhone : string) (s : State) (e : JsError) :
  fst (ensureGasBalance userPhone s) = Throw e ->
  err_name e = "Error"
  /\ exists cause, err_message e = "Gas balance check failed: " +:+ cause.
Proof.
  unfold ensureGasBalance, try_catch, throw.
  match goal with |- context [match ?body s with _ => _ end] => destruct (body s) as [[u|e0] s0] end.
  - discriminate.
  - cbn [fst]. intros [= <-]. split; [reflexivity|]. now eexists.
Qed.

(** C2, as the code has it.  With the tenant below the threshold and the
    master wallet below the top-up amount, [ensureGasBalance] throws a plain
    [Error] (the executor has no error classes of its own) whose message
    reports the insufficient master balance, submits no transfer and leaves
    the world, hence every balance, as it was. *)
Theorem ensureGasBalance_master_insufficient
  (userPhone : string) (s : State) (userWallet : WalletInfo)
  (userBalance masterBalance : Z) :
  fst (getOrCreateServerWallet userPhone s) = Ok userWallet ->
  provider_getBalance (world s) (address userWallet) = Ok userBalance ->
  (userBalance < MATIC_TOP_UP_THRESHOLD_WEI)%Z ->
  provider_getBalance (world s) master_address = Ok masterBalance ->
  (masterBalance < MATIC_TOP_UP_AMOUNT_WEI)%Z ->
  let r := fst (ensureGasBalance userPhone s) in
  let s' := snd (ensureGasBalance userPhone s) in
  r = Throw (Error ("Gas balance check failed: "
                    +:+ insufficient_master_message masterBalance))
  /\ transfers (trace s') = transfers (trace s)
  /\ world s' = world s
  /\ forall account, provider_getBalance (world s') account
                     = provider_getBalance (world s) account.
Proof.
  intros Hfst Hbal Hlt Hmaster Hlow r s'. subst r s'.
  destruct (getOrCreateServerWallet userPhone s) as [r0 s1] eqn:Hwallet.
  cbn [fst] in Hfst. subst r0.
  rewrite (ensureGasBalance_run _ _ _ _ _ Hwallet Hbal).
  pose proof (getOrCreateServerWallet_frame userPhone s) as (Hw & _ & Ht).
  rewrite Hwallet in Hw, Ht. cbn [snd] in Hw, Ht.
  apply Z.ltb_lt in Hlt. apply Z.ltb_lt in Hlow.
  cbv zeta. rewrite Hlt, Hmaster, Hlow.
  cbn [fst snd trace world record].
  rewrite !transfers_app, Ht. simpl. rewrite !app_nil_r, Hw. auto.
Qed.

End GasFacts.

Lemma ensureGasBalance_threshold_witness :
  (fst (ensureGasBalance (E := Simulation.deployment) Simulation.tenant
          (Simulation.boot (Simulation.chain 1000000000000000000 100000000000000000))) = Ok tt
   /\ transfers
        (trace (snd (ensureGasBalance (E := Simulation.deployment) Simulation.tenant
                       (Simulation.boot (Simulation.chain 1000000000000000000 100000000000000000)))))
      = [])
  /\ transfers
       (trace (snd (ensureGasBalance (E := Simulation.deployment) Simulation.tenant
                      (Simulation.boot (Simulation.chain 1000000000000000000 99999999999999999)))))
     = [mkTransfer Simulation.master Simulation.tenant_address 500000000000000000].
Proof.
  split.
  - destruct (ensureGasBalance_threshold (E := Simulation.deployment) Simulation.tenant
                (Simulation.boot (Simulation.chain 1000000000000000000 100000000000000000))
                (mkWalletInfo Simulation.tenant_address Simulation.tenant "thirdweb" 137)
                100000000000000000%Z)
      as [Hat _].
    + vm_compute. reflexivity.
    + vm_compute. reflexivity.
    + destruct Hat as (Hr & Ht & _); [vm_compute; discriminate|].
      split; [exact Hr | exact Ht].
  - destruct (ensureGasBalance_threshold (E := Simulation.deployment) Simulation.tenant
                (Simulation.boot (Simulation.chain 1000000000000000000 99999999999999999))
                (mkWalletInfo Simulation.tenant_address Simulation.tenant "thirdweb" 137)
                99999999999999999%Z)
      as [_ Hbelow].
    + vm_compute. reflexivity.
    + vm_compute. reflexivity.
    + destruct (Hbelow ltac:(vm_compute; reflexivity) 1000000000000000000%Z) as [Ht _].
      * vm_compute. reflexivity.
      * vm_compute. discriminate.
      * exact Ht.
Defined.

Lemma ensureGasBalance_master_insufficient_witness :
  fst (ensureGasBalance (E := Simulation.deployment) Simulation.tenant
         (Simulation.boot (Simulation.chain 200000000000000000 99999999999999999)))
  = Throw (Error "Gas balance check failed: CRITICAL: Master wallet has insufficient MATIC (0.2 < 0.5)")
  /\ transfers
       (trace (snd (ensureGasBalance (E := Simulation.deployment) Simulation.tenant
                      (Simulation.boot (Simulation.chain 200000000000000000 99999999999999999)))))
     = [].
Proof.
  destruct (ensureGasBalance_master_insufficient (E := Simulation.deployment)
              Simulation.tenant
              (Simulation.boot (Simulation.chain 200000000000000000 99999999999999999))
              (mkWalletInfo Simulation.tenant_address Simulation.tenant "thirdweb" 137)
              99999999999999999%Z 200000000000000000%Z)
    as (Hr & Ht & _).
  - vm_compute. reflexivity.
  - vm_compute. reflexivity.
  - vm_compute. reflexivity.
  - vm_compute. reflexivity.
  - vm_compute. reflexivity.
  - split; [exact Hr | exact Ht].
Defined.

(** C2, as the specification words it, fails: with the tenant one wei below
    the threshold and a master wallet of 0.2 MATIC, the error thrown is not of
    a type [InsufficientMasterFunds]. *)
Lemma ensureGasBalance_error_is_not_typed :
  provider_getBalance
    (world (Simulation.boot (Simulation.chain 200000000000000000 99999999999999999)))
    Simulation.tenant_address = Ok 99999999999999999%Z
  /\ (99999999999999999 < MATIC_TOP_UP_THRESHOLD_WEI)%Z
  /\ provider_getBalance
       (world (Simulation.boot (Simulation.chain 200000000000000000 99999999999999999)))
       Simulation.master = Ok 200000000000000000%Z
  /\ (200000000000000000 < MATIC_TOP_UP_AMOUNT_WEI)%Z
  /\ ~ exists e,
        fst (ensureGasBalance Simulation.tenant
               (Simulation.boot (Simulation.chain 200000000000000000 99999999999999999)))
        = Throw e
        /\ is_InsufficientMasterFunds e.
Proof.
  repeat split; try reflexivity.
  intros (e & He & Htyped).
  pose proof (ensureGasBalance_errors _ _ _ He) as [Hname _].
  unfold is_InsufficientMasterFunds in Htyped. rewrite Hname in Htyped. discriminate.
Qed.

(* ===================================================================== *)
(** * The credential cache                                                 *)
(* ===================================================================== *)

Section CredentialFacts.
Context `{E : Externals}.

Lemma getApiCreds_hit (phone : string) (creds : ApiCreds) (s : State) :
  apiCredsCache s !! phone = Some creds ->
  getApiCreds phone s = (Ok creds, s).
Proof.
  intros H. unfold getApiCreds, bind, gets. now rewrite H.
Qed.

(** On a miss the remote derivation is called, once; the entry is written
    when the reply is accepted and deleted otherwise. *)
Lemma getApiCreds_miss (phone : string) (s : State) :
  apiCredsCache s !! phone = None ->
  getApiCreds phone s =
  let s1 := record (EvCreateOrDeriveApiKey (address_of phone))
                   (record (EvDeriveKey phone) s) in
  match clob_createOrDeriveApiKey (world s) (signer_of phone) api_nonce with
  | (Ok raw, w) =>
      match coerceApiCreds raw with
      | Ok creds => (Ok creds, set_apiCredsCache (insert phone creds) (set_world w s1))
      | Throw e => (Throw e, set_apiCredsCache (delete phone) (set_world w s1))
      end
  | (Throw e, w) => (Throw e, set_apiCredsCache (delete phone) (set_world w s1))
  end.
Proof.
  intros H. unfold getApiCreds, bind at 1, gets. rewrite H.
  unfold try_catch, bind. rewrite getThirdwebSigner_run.
  unfold call, lift, modify, ret, throw.
  cbn [world record]. change (wallet_address (signer_of phone)) with (address_of phone).
  destruct (clob_createOrDeriveApiKey (world s) (signer_of phone) api_nonce)
    as [[raw|e] w]; [|reflexivity].
  destruct (coerceApiCreds raw); reflexivity.
Qed.

(** C5.  When the remote derivation fails on a first attempt, that attempt
    fails with the same error; after any failed attempt the cache holds no
    entry for the tenant and the next attempt calls the remote derivation
    again; after a successful attempt the cache holds the credential, and
    the next attempt returns it and does nothing else: no remote call, no
    change of state. *)
Theorem getApiCreds_retry_then_cache (phone : string) (s : State) :
  let r := fst (getApiCreds phone s) in
  let s1 := snd (getApiCreds phone s) in
  (forall e w,
      apiCredsCache s !! phone = None ->
      clob_createOrDeriveApiKey (world s) (signer_of phone) api_nonce = (Throw e, w) ->
      r = Throw e)
  /\ (forall e,
         r = Throw e ->
         apiCredsCache s1 !! phone = None
         /\ remote_derivations (trace (snd (getApiCreds phone s1)))
            = S (remote_derivations (trace s1)))
  /\ (forall creds,
         r = Ok creds ->
         apiCredsCache s1 !! phone = Some creds
         /\ getApiCreds phone s1 = (Ok creds, s1)).
Proof.
  cbv zeta.
  assert (Hagain : forall s0 : State,
             apiCredsCache s0 !! phone = None ->
             remote_derivations (trace (snd (getApiCreds phone s0)))
             = S (remote_derivations (trace s0))).
  { intros s0 H0. rewrite (getApiCreds_miss _ _ H0). cbv zeta.
    destruct (clob_createOrDeriveApiKey (world s0) (signer_of phone) api_nonce)
      as [[raw|e] w]; [destruct (coerceApiCreds raw)|];
      cbn [snd trace set_apiCredsCache set_world record];
      rewrite !remote_derivations_app; simpl; lia. }
  destruct (apiCredsCache s !! phone) as [c|] eqn:Hc.
  - rewrite (getApiCreds_hit _ _ _ Hc). cbn [fst snd].
    split; [intros e w [=]|]. split; [intros e [=]|].
    intros creds [= <-]. split; [exact Hc | now apply getApiCreds_hit].
  - rewrite (getApiCreds_miss _ _ Hc). cbv zeta.
    destruct (clob_createOrDeriveApiKey (world s) (signer_of phone) api_nonce)
      as [[raw|e0] w] eqn:Hremote.
    + destruct (coerceApiCreds raw) as [c|e0] eqn:Hcoerce; cbn [fst snd].
      * split; [intros e w' _ [=]|]. split; [intros e [=]|].
        intros creds [= <-].
        assert (Hin : apiCredsCache
                        (set_apiCredsCache (insert phone c)
                           (set_world w (record (EvCreateOrDeriveApiKey (address_of phone))
                                           (record (EvDeriveKey phone) s)))) !! phone
                      = Some c)
          by (cbn [apiCredsCache set_apiCredsCache]; apply lookup_insert_eq).
        split; [exact Hin | now apply getApiCreds_hit].
      * split; [intros e w' _ [=]|].
        split; [|intros creds [=]].
        intros e [= <-].
        assert (Hout : apiCredsCache
                         (set_apiCredsCache (delete phone)
                            (set_world w (record (EvCreateOrDeriveApiKey (address_of phone))
                                            (record (EvDeriveKey phone) s)))) !! phone
                       = None)
          by (cbn [apiCredsCache set_apiCredsCache]; apply lookup_delete_eq).
        split; [exact Hout | now apply Hagain].
    + cbn [fst snd].
      split; [intros e w' _ [= <- <-]; reflexivity|].
      split; [|intros creds [=]].
      intros e [= <-].
      assert (Hout : apiCredsCache
                       (set_apiCredsCache (delete phone)
                          (set_world w (record (EvCreateOrDeriveApiKey (address_of phone))
                                          (record (EvDeriveKey phone) s)))) !! phone
                     = None)
        by (cbn [apiCredsCache set_apiCredsCache]; apply lookup_delete_eq).
      split; [exact Hout | now apply Hagain].
Qed.

(** C8.  When the derivation of credentials fails for a tenant, the entry of
    every other tenant in the credential cache is what it was, the cache of
    SDKs is untouched, and the failed tenant has no entry. *)
Theorem getApiCreds_failure_is_local (t1 t2 : string) (s : State) (e : JsError) :
  t1 <> t2 ->
  fst (getApiCreds t1 s) = Throw e ->
  let s1 := snd (getApiCreds t1 s) in
  apiCredsCache s1 !! t2 = apiCredsCache s !! t2
  /\ sdkCache s1 = sdkCache s
  /\ apiCredsCache s1 !! t1 = None.
Proof.
  intros Hne. cbv zeta.
  destruct (apiCredsCache s !! t1) as [c|] eqn:Hc.
  - rewrite (getApiCreds_hit _ _ _ Hc). intros [=].
  - rewrite (getApiCreds_miss _ _ Hc). cbv zeta.
    destruct (clob_createOrDeriveApiKey (world s) (signer_of t1) api_nonce)
      as [[raw|e0] w]; [destruct (coerceApiCreds raw) as [c|e0]|];
      cbn [fst snd apiCredsCache sdkCache set_apiCredsCache set_world record];
      intros [=]; subst;
      rewrite lookup_delete_eq, lookup_delete_ne by exact Hne; auto.
Qed.

(** Success is as local: it writes the entry of its own tenant only. *)
Lemma getApiCreds_frame (t1 t2 : string) (s : State) :
  t1 <> t2 ->
  apiCredsCache (snd (getApiCreds t1 s)) !! t2 = apiCredsCache s !! t2
  /\ sdkCache (snd (getApiCreds t1 s)) = sdkCache s.
Proof.
  intros Hne.
  destruct (apiCredsCache s !! t1) as [c|] eqn:Hc.
  - rewrite (getApiCreds_hit _ _ _ Hc). auto.
  - rewrite (getApiCreds_miss _ _ Hc). cbv zeta.
    destruct (clob_createOrDeriveApiKey (world s) (signer_of t1) api_nonce)
      as [[raw|e0] w]; [destruct (coerceApiCreds raw) as [c|e0]|];
      cbn [fst snd apiCredsCache sdkCache set_apiCredsCache set_world record];
      rewrite ?lookup_delete_ne, ?lookup_insert_ne by exact Hne; auto.
Qed.

End CredentialFacts.

Lemma getApiCreds_retry_then_cache_witness :
  fst (getApiCreds Simulation.tenant (Simulation.boot Simulation.flaky_exchange))
  = Throw (Error "connect ETIMEDOUT")
  /\ apiCredsCache
       (snd (getApiCreds Simulation.tenant (Simulation.boot Simulation.flaky_exchange)))
     !! Simulation.tenant = None
  /\ remote_derivations
       (trace (snd (getApiCreds Simulation.tenant
                      (snd (getApiCreds Simulation.tenant
                              (Simulation.boot Simulation.flaky_exchange))))))
     = 2%nat
  /\ fst (getApiCreds Simulation.tenant
            (snd (getApiCreds Simulation.tenant
                    (snd (getApiCreds Simulation.tenant
                            (Simulation.boot Simulation.flaky_exchange))))))
     = Ok {| key := "k-1"; secret := "+/8="; passphrase := "pw" |}
  /\ remote_derivations
       (trace (snd (getApiCreds Simulation.tenant
                      (snd (getApiCreds Simulation.tenant
                              (snd (getApiCreds Simulation.tenant
                                      (Simulation.boot Simulation.flaky_exchange))))))))
     = 2%nat.
Proof.
  destruct (getApiCreds_retry_then_cache (E := Simulation.deployment) Simulation.tenant
              (Simulation.boot Simulation.flaky_exchange)) as (Hfail & Hretry & _).
  destruct (getApiCreds_retry_then_cache (E := Simulation.deployment) Simulation.tenant
              (snd (getApiCreds Simulation.tenant
                      (Simulation.boot Simulation.flaky_exchange)))) as (_ & _ & Hcached).
  assert (H1 : fst (getApiCreds Simulation.tenant (Simulation.boot Simulation.flaky_exchange))
               = Throw (Error "connect ETIMEDOUT")).
  { apply (Hfail _ (Simulation.exchange
                      [Ok (alternate_response "k-1" [Byte.xfb; Byte.xff] (JsString "pw"))]));
      vm_compute; reflexivity. }
  destruct (Hretry _ H1) as [Hnone Hcount].
  destruct (Hcached {| key := "k-1"; secret := "+/8="; passphrase := "pw" |}) as [_ Hhit].
  { vm_compute. reflexivity. }
  split; [exact H1|]. split; [exact Hnone|].
  split; [rewrite Hcount; vm_compute; reflexivity|].
  rewrite Hhit. cbn [fst snd].
  split; [reflexivity|]. rewrite Hcount. vm_compute. reflexivity.
Defined.

Lemma getApiCreds_failure_is_local_witness :
  apiCredsCache
    (snd (getApiCreds Simulation.tenant
            (snd (getApiCreds "+15550002" (Simulation.boot Simulation.failing_exchange)))))
  !! "+15550002"
  = Some {| key := "k-2"; secret := "AQ=="; passphrase := "pw2" |}
  /\ apiCredsCache
       (snd (getApiCreds Simulation.tenant
               (snd (getApiCreds "+15550002" (Simulation.boot Simulation.failing_exchange)))))
     !! Simulation.tenant = None.
Proof.
  destruct (getApiCreds_failure_is_local (E := Simulation.deployment)
              Simulation.tenant "+15550002"
              (snd (getApiCreds "+15550002" (Simulation.boot Simulation.failing_exchange)))
              (Error "connect ETIMEDOUT"))
    as (Hother & _ & Hown).
  - vm_compute. discriminate.
  - vm_compute. reflexivity.
  - split; [|exact Hown]. rewrite Hother. vm_compute. reflexivity.
Defined.

(* ===================================================================== *)
(** * Signers: what is cached and what is derived again                    *)
(* ===================================================================== *)

Section SignerFacts.
Context `{E : Externals}.

Lemma derivations_record (phone : string) (s : State) :
  derivations phone (trace (record (EvDeriveKey phone) s))
  = S (derivations phone (trace s)).
Proof.
  cbn [trace record]. rewrite derivations_app. simpl.
  rewrite String.eqb_refl. lia.
Qed.

(** [n] calls of [getThirdwebSigner] build [n] equal wallets and derive the
    key [n] times. *)
Lemma getThirdwebSigner_repeat (phone : string) (n : nat) (s : State) :
  fst (repeat_call n (getThirdwebSigner phone) s)
  = replicate n (Ok (signer_of phone))
  /\ derivations phone (trace (snd (repeat_call n (getThirdwebSigner phone) s)))
     = (derivations phone (trace s) + n)%nat.
Proof.
  revert s. induction n as [|n IH]; intros s.
  - simpl. split; [reflexivity | lia].
  - cbn [repeat_call]. rewrite getThirdwebSigner_run.
    destruct (IH (record (EvDeriveKey phone) s)) as [Hrs Hd].
    destruct (repeat_call n (getThirdwebSigner phone) (record (EvDeriveKey phone) s))
      as [rs s2].
    cbn [fst snd] in *. rewrite Hrs, Hd, derivations_record.
    split; [reflexivity | lia].
Qed.

(** Once the SDK of a tenant is cached, further calls return it and change
    nothing. *)
Lemma getSDKForUser_repeat_cached (phone : string) (sdk : ThirdwebSDK) (n : nat) (s : State) :
  sdkCache s !! phone = Some sdk ->
  repeat_call n (getSDKForUser phone) s = (replicate n (Ok sdk), s).
Proof.
  intros H. induction n as [|n IH]; [reflexivity|].
  cbn [repeat_call]. rewrite (getSDKForUser_hit _ _ _ H), IH. reflexivity.
Qed.

(** C3, as the code has it.  [getThirdwebSigner] has no cache: [n] calls
    return [n] wallets that are equal, so of one address, the address derived
    for the tenant, and run the key derivation once per call, [n] times.
    The cache is in [getSDKForUser]: its first call returns a handle after
    at most one derivation, and any number of further calls return that same
    handle and change nothing, so derive nothing. *)
Theorem signer_retrieval_repeated (phone : string) (n : nat) (s : State) :
  (fst (repeat_call n (getThirdwebSigner phone) s)
   = replicate n (Ok (signer_of phone))
   /\ wallet_address (signer_of phone) = address_of phone
   /\ derivations phone (trace (snd (repeat_call n (getThirdwebSigner phone) s)))
      = (derivations phone (trace s) + n)%nat)
  /\ exists sdk s1,
      getSDKForUser phone s = (Ok sdk, s1)
      /\ (derivations phone (trace s1) <= derivations phone (trace s) + 1)%nat
      /\ repeat_call n (getSDKForUser phone) s1 = (replicate n (Ok sdk), s1).
Proof.
  split.
  - destruct (getThirdwebSigner_repeat phone n s) as [Hrs Hd]. auto.
  - destruct (sdkCache s !! phone) as [sdk|] eqn:H.
    + exists sdk, s. rewrite (getSDKForUser_hit _ _ _ H).
      split; [reflexivity|]. split; [lia|].
      now apply getSDKForUser_repeat_cached.
    + eexists _, _. rewrite (getSDKForUser_miss _ _ H).
      split; [reflexivity|].
      split.
      * cbn [trace set_sdkCache]. rewrite derivations_record. lia.
      * apply getSDKForUser_repeat_cached.
        cbn [sdkCache set_sdkCache]. apply lookup_insert_eq.
Qed.

End SignerFacts.

(** C3, as the specification words it, fails: two calls of
    [getThirdwebSigner] for one tenant run the key derivation twice. *)
Lemma getThirdwebSigner_derives_every_time :
  derivations Simulation.tenant
    (trace (snd (repeat_call 2 (getThirdwebSigner Simulation.tenant)
                   (Simulation.boot (Simulation.chain 0 0)))))
  = 2%nat
  /\ ~ (derivations Simulation.tenant
          (trace (snd (repeat_call 2 (getThirdwebSigner Simulation.tenant)
                         (Simulation.boot (Simulation.chain 0 0)))))
        <= 1)%nat.
Proof.
  assert (H : derivations Simulation.tenant
                (trace (snd (repeat_call 2 (getThirdwebSigner Simulation.tenant)
                               (Simulation.boot (Simulation.chain 0 0)))))
              = 2%nat) by (vm_compute; reflexivity).
  split; [exact H | rewrite H; lia].
Qed.

(* ===================================================================== *)
(** * Determinism of the key derivation                                    *)
(* ===================================================================== *)

Lemma hex_digit_is_hex (n : N) : is_hex_digit (Simulation.hex_digit n) = true.
Proof.
  unfold Simulation.hex_digit. generalize (N.to_nat n). intros k.
  do 16 (destruct k as [|k]; [reflexivity|]). reflexivity.
Qed.

Lemma all_hex_hex_of (s : string) : all_hex (Simulation.hex_of s) = true.
Proof.
  induction s as [|c s IH]; [reflexivity|].
  cbn [Simulation.hex_of all_hex]. now rewrite !hex_digit_is_hex, IH.
Qed.

Lemma all_hex_take_pad (n : nat) (s : string) :
  all_hex s = true -> all_hex (Simulation.take_pad n s) = true.
Proof.
  revert s. induction n as [|n IH]; intros s Hs; [reflexivity|].
  destruct s as [|c s]; cbn [Simulation.take_pad all_hex].
  - now rewrite IH.
  - cbn [all_hex] in Hs. apply andb_true_iff in Hs as [Hc Hs].
    now rewrite Hc, IH.
Qed.

Lemma length_take_pad (n : nat) (s : string) :
  String.length (Simulation.take_pad n s) = n.
Proof.
  revert s. induction n as [|n IH]; intros s; [reflexivity|].
  destruct s; cbn [Simulation.take_pad String.length]; now rewrite IH.
Qed.

(** The simulated hash has the shape of a Keccak-256 digest: 32 bytes. *)
Lemma sim_hash_bytes32 (a b : string) :
  hexDataLength (Simulation.sim_hash a b) = Some 32%nat.
Proof.
  unfold Simulation.sim_hash.
  change ("0x" +:+ ?t) with (String "0" (String "x" t)).
  cbn [hexDataLength].
  rewrite all_hex_take_pad by apply all_hex_hex_of.
  rewrite length_take_pad. reflexivity.
Qed.

(** C4.  Two processes that share the hash, the address computation and the
    master key (a process and its restart, or one process at two moments)
    derive the same key for a tenant, whatever their states: the result does
    not depend on the state, and the run changes neither cache nor the
    world.  The key is as long as the digest, 32 bytes, and the signers of
    the tenant resolve to the same address in both processes. *)
Theorem deriveUserPrivateKey_deterministic
  (E1 E2 : Externals) (phone : string) (s1 : State (E := E1)) (s2 : State (E := E2)) :
  solidityKeccak256 (Externals := E1) = solidityKeccak256 (Externals := E2) ->
  computeAddress (Externals := E1) = computeAddress (Externals := E2) ->
  env (Externals := E1) "POLYMARKET_PRIVATE_KEY"
  = env (Externals := E2) "POLYMARKET_PRIVATE_KEY" ->
  (forall a b, hexDataLength (solidityKeccak256 (Externals := E1) a b) = Some 32%nat) ->
  exists k a,
    fst (deriveUserPrivateKey phone s1) = Ok k
    /\ fst (deriveUserPrivateKey phone s2) = Ok k
    /\ hexDataLength k = Some 32%nat
    /\ apiCredsCache (snd (deriveUserPrivateKey phone s1)) = apiCredsCache s1
    /\ sdkCache (snd (deriveUserPrivateKey phone s1)) = sdkCache s1
    /\ world (snd (deriveUserPrivateKey phone s1)) = world s1
    /\ fst (getPolymarketAddress phone s1) = Ok a
    /\ fst (getPolymarketAddress phone s2) = Ok a.
Proof.
  intros Hhash Haddr Hkey Hlen.
  exists (key_of (E := E1) phone), (address_of (E := E1) phone).
  assert (Hk : key_of (E := E2) phone = key_of (E := E1) phone).
  { unfold key_of, MASTER_PRIVATE_KEY. now rewrite Hhash, Hkey. }
  rewrite !deriveUserPrivateKey_run. cbn [fst snd].
  unfold getPolymarketAddress, bind. rewrite !getThirdwebSigner_run.
  unfold signer_of. cbn [fst ret new_Wallet wallet_address]. unfold address_of.
  rewrite Hk, Haddr. repeat split; try reflexivity. apply Hlen.
Qed.

Lemma deriveUserPrivateKey_deterministic_witness :
  fst (deriveUserPrivateKey (E := Simulation.deployment) Simulation.tenant
         (Simulation.boot (Simulation.chain 5 7)))
  = fst (deriveUserPrivateKey (E := Simulation.redeployment) Simulation.tenant
           (initial (E := Simulation.redeployment) Simulation.flaky_exchange))
  /\ fst (getPolymarketAddress (E := Simulation.deployment) Simulation.tenant
            (Simulation.boot (Simulation.chain 5 7)))
     = fst (getPolymarketAddress (E := Simulation.redeployment) Simulation.tenant
              (initial (E := Simulation.redeployment) Simulation.flaky_exchange)).
Proof.
  destruct (deriveUserPrivateKey_deterministic
              Simulation.deployment Simulation.redeployment Simulation.tenant
              (Simulation.boot (Simulation.chain 5 7))
              (initial (E := Simulation.redeployment) Simulation.flaky_exchange)
              eq_refl eq_refl eq_refl sim_hash_bytes32)
    as (k & a & H1 & H2 & _ & _ & _ & _ & H3 & H4).
  split; [now rewrite H1, H2 | now rewrite H3, H4].
Defined.

(* ===================================================================== *)
(** * The signing adapter between construction and address resolution     *)
(* ===================================================================== *)

(** [getAddress] does await the resolution: on an instance without a cached
    address it asks the SDK, and what it returns is what it stores. *)
Lemma ThirdwebSigner_getAddress_awaits
  `{E : Externals} (this : ThirdwebSigner.t) (s : State) (a : string) :
  ThirdwebSigner.address_unset this = true ->
  sdk_wallet_getAddress (world s) (ThirdwebSigner._sdk this) = Ok a ->
  exists this',
    fst (ThirdwebSigner.getAddress this s) = Ok (a, this')
    /\ ThirdwebSigner.address this' = a
    /\ ThirdwebSigner._address this' = Some a.
Proof.
  intros Hunset Hsdk. unfold ThirdwebSigner.getAddress, bind, call_read, ret.
  rewrite Hunset, Hsdk. cbn [fst]. eauto.
Qed.

(** C6.  The constructor always returns, and the instance it returns has
    the empty string as [address] and no cached [_address]: the callbacks
    that set them run only once the wallet promise has settled, after the
    constructor has returned.  When the promise is fulfilled they set both to
    the wallet address; when it is rejected the address stays empty.
    Meanwhile the instance signs: [signMessage] goes to the SDK without
    waiting for any address. *)
Theorem ThirdwebSigner_address_empty_after_construction
  `{E : Externals} (phone : string) (provider : option JsonRpcProvider) (s : State) :
  exists this wallet s',
    ThirdwebSigner.constructor phone provider s = (Ok (this, wallet), s')
    /\ ThirdwebSigner.address this = ""
    /\ ThirdwebSigner._address this = None
    /\ (forall w, wallet = Ok w ->
                  ThirdwebSigner.address (ThirdwebSigner.on_settled this wallet)
                  = address w)
    /\ (forall err, wallet = Throw err ->
                    ThirdwebSigner.address (ThirdwebSigner.on_settled this wallet) = "")
    /\ (forall text signature,
           sdk_wallet_sign (world s') (ThirdwebSigner._sdk this) text = Ok signature ->
           fst (ThirdwebSigner.signMessage this (inl text) s') = Ok signature).
Proof.
  destruct (getSDKForUser_frame phone s) as (sdk & s1 & Hrun & _).
  unfold ThirdwebSigner.constructor, bind, ThirdwebSigner.promise, ret.
  rewrite Hrun.
  destruct (getOrCreateServerWallet phone s1) as [wallet s2].
  exists (ThirdwebSigner.mk phone sdk None "" provider), wallet, s2.
  split; [reflexivity|]. split; [reflexivity|]. split; [reflexivity|].
  split; [intros ? ->; reflexivity|].
  split; [intros ? ->; reflexivity|].
  intros text signature Hsign.
  cbn [ThirdwebSigner._sdk] in Hsign.
  unfold ThirdwebSigner.signMessage, try_catch, call_read.
  cbn [ThirdwebSigner._sdk]. now rewrite Hsign.
Qed.

(** On the simulated chain: the wallet of the tenant resolves to its
    address, and the instance just constructed still shows none. *)
Example ThirdwebSigner_read_before_resolution :
  match fst (ThirdwebSigner.constructor Simulation.tenant None
               (Simulation.boot (Simulation.chain 0 0))) with
  | Ok (this, Ok w) =>
      address w = Simulation.tenant_address
      /\ ThirdwebSigner.address this = ""
      /\ ThirdwebSigner.address (ThirdwebSigner.on_settled this (Ok w))
         = Simulation.tenant_address
  | _ => False
  end.
Proof. vm_compute. auto. Qed.

(* ===================================================================== *)
(** * Executor authentication                                              *)
(* ===================================================================== *)

(** C9.  A request to [/health] is passed on whatever the token.  A request
    to any other path is answered by the middleware, so that no handler
    runs and the state is untouched: with status 500 when no token is
    configured, and with status 401 when one is configured and the
    [x-executor-token] header is absent or differs from it.  With the
    configured token in the header the request is passed on. *)
Theorem auth_rejects_before_handlers
  `{E : Externals} (req : Request) (handlers : Request -> M Response) (s : State) :
  (req_path req = "/health" ->
   auth req = Next /\ app handlers req s = handlers req s)
  /\ (req_path req <> "/health" ->
      (EXECUTOR_API_TOKEN = "" ->
       auth req = Respond token_missing
       /\ status token_missing = 500%Z
       /\ app handlers req s = (Ok token_missing, s))
      /\ (EXECUTOR_API_TOKEN <> "" ->
          req_header req "x-executor-token" <> Some EXECUTOR_API_TOKEN ->
          auth req = Respond unauthorized
          /\ status unauthorized = 401%Z
          /\ app handlers req s = (Ok unauthorized, s))
      /\ (EXECUTOR_API_TOKEN <> "" ->
          req_header req "x-executor-token" = Some EXECUTOR_API_TOKEN ->
          auth req = Next)).
Proof.
  unfold app, auth. split.
  - intros ->. auto.
  - intros Hpath. apply String.eqb_neq in Hpath. rewrite Hpath.
    split; [|split].
    + intros ->. auto.
    + intros Htoken Hheader. apply String.eqb_neq in Htoken. rewrite Htoken.
      assert (Hd : differs (req_header req "x-executor-token") EXECUTOR_API_TOKEN = true).
      { destruct (req_header req "x-executor-token") as [t|]; [|reflexivity].
        simpl. apply negb_true_iff, String.eqb_neq. congruence. }
      rewrite Hd. auto.
    + intros Htoken ->. apply String.eqb_neq in Htoken. rewrite Htoken.
      simpl. now rewrite String.eqb_refl.
Qed.

Lemma auth_rejects_before_handlers_witness :
  auth (E := Simulation.deployment) (mkRequest "/health" (fun _ => None)) = Next
  /\ auth (E := Simulation.unconfigured)
          (mkRequest "/polymarket/balance" (fun _ => Some "s3cret"))
     = Respond token_missing
  /\ auth (E := Simulation.deployment)
          (mkRequest "/polymarket/balance" (fun _ => None))
     = Respond unauthorized
  /\ auth (E := Simulation.deployment)
          (mkRequest "/polymarket/balance" (fun _ => Some " s3cret "))
     = Respond unauthorized
  /\ auth (E := Simulation.deployment)
          (mkRequest "/polymarket/balance" (fun _ => Some "s3cret"))
     = Next.
Proof.
  pose proof (fun E req => auth_rejects_before_handlers (E := E) req
                             (fun _ => ret (mkResponse 200 JsNull))) as H.
  destruct (H Simulation.deployment (mkRequest "/health" (fun _ => None))
              (Simulation.boot (Simulation.chain 0 0))) as [Hhealth _].
  destruct (H Simulation.unconfigured
              (mkRequest "/polymarket/balance" (fun _ => Some "s3cret"))
              (initial (E := Simulation.unconfigured) (Simulation.chain 0 0)))
    as [_ Hno].
  destruct (H Simulation.deployment (mkRequest "/polymarket/balance" (fun _ => None))
              (Simulation.boot (Simulation.chain 0 0))) as [_ Habsent].
  destruct (H Simulation.deployment
              (mkRequest "/polymarket/balance" (fun _ => Some " s3cret "))
              (Simulation.boot (Simulation.chain 0 0))) as [_ Hwrong].
  destruct (H Simulation.deployment
              (mkRequest "/polymarket/balance" (fun _ => Some "s3cret"))
              (Simulation.boot (Simulation.chain 0 0))) as [_ Hright].
  destruct (Hhealth eq_refl) as [H1 _].
  destruct Hno as (Hno & _ & _); [vm_compute; discriminate|].
  destruct Hno as (H2 & _); [vm_compute; reflexivity|].
  destruct Habsent as (_ & Habsent & _); [vm_compute; discriminate|].
  destruct Habsent as (H3 & _); [vm_compute; discriminate | vm_compute; discriminate|].
  destruct Hwrong as (_ & Hwrong & _); [vm_compute; discriminate|].
  destruct Hwrong as (H4 & _); [vm_compute; discriminate | vm_compute; discriminate|].
  destruct Hright as (_ & _ & Hright); [vm_compute; discriminate|].
  pose proof (Hright ltac:(vm_compute; discriminate) ltac:(vm_compute; reflexivity)) as H5.
  auto.
Defined.

(* ===================================================================== *)
(** * The limit of the market listing                                      *)
(* ===================================================================== *)

Section GammaFacts.
Context `{E : Externals}.

Lemma Qle_bool_false (p q : Q) : Qle_bool p q = false -> (q < p)%Q.
Proof.
  intros H. apply Qnot_le_lt. intros Hle.
  apply Qle_bool_iff in Hle. congruence.
Qed.

(** The clamp, case by case on the number requested. *)
Lemma safeLimit_cases (limit : JsValue) :
  match requested limit with
  | NaN => safeLimit limit = Fin 10
  | PosInf => safeLimit limit = Fin 50
  | NegInf => safeLimit limit = Fin 1
  | Fin q =>
      if Qeq_bool q 0 then safeLimit limit = Fin 10
      else if Qle_bool 50 q then safeLimit limit = Fin 50
      else if Qle_bool 1 q then safeLimit limit = Fin q
      else safeLimit limit = Fin 1
  end.
Proof.
  unfold safeLimit. destruct (requested limit) as [| | |q]; try reflexivity.
  cbn [num_truthy]. destruct (Qeq_bool q 0); [reflexivity|].
  cbn [negb Math_min]. destruct (Qle_bool 50 q); [reflexivity|].
  cbn [Math_max]. destruct (Qle_bool 1 q); reflexivity.
Qed.

Lemma safeLimit_range (limit : JsValue) :
  exists q, safeLimit limit = Fin q /\ (1 <= q)%Q /\ (q <= 50)%Q.
Proof.
  pose proof (safeLimit_cases limit) as H.
  destruct (requested limit) as [| | |q].
  - exists 10%Q. split; [exact H|]. split; discriminate.
  - exists 50%Q. split; [exact H|]. split; discriminate.
  - exists 1%Q. split; [exact H|]. split; discriminate.
  - destruct (Qeq_bool q 0).
    { exists 10%Q. split; [exact H|]. split; discriminate. }
    destruct (Qle_bool 50 q) eqn:H50.
    { exists 50%Q. split; [exact H|]. split; discriminate. }
    destruct (Qle_bool 1 q) eqn:H1.
    + exists q. split; [exact H|]. split.
      * now apply Qle_bool_iff.
      * apply Qlt_le_weak. now apply Qle_bool_false.
    + exists 1%Q. split; [exact H|]. split; discriminate.
Qed.

Lemma Qtrunc_range (q : Q) : (1 <= q)%Q -> (q <= 50)%Q -> (1 <= Qtrunc q <= 50)%Z.
Proof.
  intros H1 H50. unfold Qtrunc.
  assert (H0 : Qle_bool 0 q = true).
  { apply Qle_bool_iff. apply Qle_trans with 1%Q; [discriminate | exact H1]. }
  rewrite H0. split.
  - change 1%Z with (Qfloor 1). now apply Qfloor_resp_le.
  - change 50%Z with (Qfloor 50). now apply Qfloor_resp_le.
Qed.

(** [slice(0, end)] keeps at most the integer part of a positive [end]. *)
Lemma length_slice0 {A} (l : list A) (q : Q) :
  (1 <= q)%Q ->
  (Z.of_nat (length (slice0 l (Fin q))) <= Qtrunc q)%Z.
Proof.
  intros H1. unfold slice0.
  assert (Hpos : (1 <= Qtrunc q)%Z).
  { unfold Qtrunc.
    assert (H0 : Qle_bool 0 q = true).
    { apply Qle_bool_iff. apply Qle_trans with 1%Q; [discriminate | exact H1]. }
    rewrite H0. change 1%Z with (Qfloor 1). now apply Qfloor_resp_le. }
  destruct (Qtrunc q <? 0)%Z eqn:Hneg; [apply Z.ltb_lt in Hneg; lia|].
  rewrite length_take. lia.
Qed.

Lemma push_markets_total (ev : JsValue) (evMarkets markets : list JsValue) :
  forallb (fun m => negb (nullish m)) evMarkets = true ->
  exists markets', push_markets ev evMarkets markets = Ok markets'.
Proof.
  revert markets. induction evMarkets as [|m rest IH]; intros markets H.
  - now exists markets.
  - cbn [forallb] in H. apply andb_true_iff in H as [Hm Hrest].
    cbn [push_markets]. unfold flat_market.
    apply negb_true_iff in Hm. rewrite Hm. now apply IH.
Qed.

Lemma flatten_total (events markets : list JsValue) :
  forallb well_formed_event events = true ->
  exists markets', flatten events markets = Ok markets'.
Proof.
  revert markets. induction events as [|ev rest IH]; intros markets H.
  - now exists markets.
  - cbn [forallb] in H. apply andb_true_iff in H as [Hev Hrest].
    cbn [flatten]. unfold well_formed_event in Hev.
    destruct (markets_of ev) as [| | | | | |ms].
    1-6: apply (IH markets Hrest).
    destruct (push_markets_total ev ms markets Hev) as (markets' & ->).
    now apply IH.
Qed.

(** The run of [gammaTopMarkets] once the reply of the service is known. *)
Lemma gammaTopMarkets_run (limit : JsValue) (s : State) :
  gammaTopMarkets limit s =
  let s1 := record (EvFetch (events_url limit)) s in
  match http_fetch (world s) (events_url limit) with
  | (Throw e, w) => (Throw e, set_world w s1)
  | (Ok res, w) =>
      if negb (res_ok res) then
        (Throw (Error ("Gamma error " +:+ NumberToString (num_of_Z (res_status res))
                       +:+ ": " +:+ res_text res)), set_world w s1)
      else
        match JSON_parse (res_text res) with
        | Throw e => (Throw e, set_world w s1)
        | Ok events =>
            match iterate events with
            | Throw e => (Throw e, set_world w s1)
            | Ok evs =>
                match flatten evs [] with
                | Throw e => (Throw e, set_world w s1)
                | Ok markets => (Ok (slice0 markets (safeLimit limit)), set_world w s1)
                end
            end
        end
  end.
Proof.
  unfold gammaTopMarkets, gammaGet, bind, call, lift, throw, ret.
  fold (events_url limit).
  destruct (http_fetch (world s) (events_url limit)) as [[res|e] w]; [|reflexivity].
  cbv zeta. destruct (negb (res_ok res)); [reflexivity|].
  destruct (JSON_parse (res_text res)) as [events|e]; [|reflexivity].
  destruct (iterate events) as [evs|e]; [|reflexivity].
  destruct (flatten evs []); reflexivity.
Qed.

(** C10, as the code has it.  Whatever is requested, the limit used lies in
    [1, 50].  It is 10 when the number requested is NaN or zero (so for an
    absent or non-numeric argument), 1 when the number is negative, 50 when
    it is 50 or more, and the number itself between 1 and 50.  A list that
    is returned holds at most the integer part of that limit, so at most 50
    entries; and a list is returned whenever the service replies with an
    array of events whose markets are objects. *)
Theorem gammaTopMarkets_limit (limit : JsValue) (s : State) :
  exists q,
    safeLimit limit = Fin q
    /\ (1 <= q)%Q /\ (q <= 50)%Q
    /\ (num_truthy (requested limit) = false -> safeLimit limit = Fin 10)
    /\ (is_negative (requested limit) = true -> safeLimit limit = Fin 1)
    /\ (forall n, requested limit = Fin n -> (50 <= n)%Q -> safeLimit limit = Fin 50)
    /\ (forall n, requested limit = Fin n -> (1 <= n)%Q -> (n < 50)%Q ->
                  safeLimit limit = Fin n)
    /\ (forall markets,
           fst (gammaTopMarkets limit s) = Ok markets ->
           (Z.of_nat (length markets) <= Qtrunc q)%Z /\ (length markets <= 50)%nat)
    /\ (forall res w evs,
           http_fetch (world s) (events_url limit) = (Ok res, w) ->
           res_ok res = true ->
           JSON_parse (res_text res) = Ok (JsArray evs) ->
           forallb well_formed_event evs = true ->
           exists markets, fst (gammaTopMarkets limit s) = Ok markets).
Proof.
  destruct (safeLimit_range limit) as (q & Hq & H1 & H50).
  pose proof (safeLimit_cases limit) as Hcases.
  exists q. split; [exact Hq|]. split; [exact H1|]. split; [exact H50|].
  split; [|split; [|split; [|split; [|split]]]].
  - intros Hfalsy. destruct (requested limit) as [| | |n]; try discriminate; [exact Hcases|].
    cbn [num_truthy] in Hfalsy. apply negb_false_iff in Hfalsy.
    now rewrite Hfalsy in Hcases.
  - intros Hneg. destruct (requested limit) as [| | |n]; try discriminate; [exact Hcases|].
    cbn [is_negative] in Hneg. apply negb_true_iff in Hneg.
    pose proof (Qle_bool_false _ _ Hneg) as Hlt.
    destruct (Qeq_bool n 0) eqn:H0.
    { apply Qeq_bool_iff in H0. rewrite H0 in Hlt. now apply Qlt_irrefl in Hlt. }
    destruct (Qle_bool 50 n) eqn:Hn50.
    { apply Qle_bool_iff in Hn50. exfalso.
      apply (Qlt_irrefl 0). apply Qle_lt_trans with n; [|exact Hlt].
      apply Qle_trans with 50%Q; [discriminate | exact Hn50]. }
    destruct (Qle_bool 1 n) eqn:Hn1; [|exact Hcases].
    apply Qle_bool_iff in Hn1. exfalso.
    apply (Qlt_irrefl 0). apply Qle_lt_trans with n; [|exact Hlt].
    apply Qle_trans with 1%Q; [discriminate | exact Hn1].
  - intros n Hn Hge. rewrite Hn in Hcases.
    destruct (Qeq_bool n 0) eqn:H0.
    { apply Qeq_bool_iff in H0. rewrite H0 in Hge. exfalso. now apply Hge. }
    apply Qle_bool_iff in Hge. now rewrite Hge in Hcases.
  - intros n Hn Hge Hlt. rewrite Hn in Hcases.
    destruct (Qeq_bool n 0) eqn:H0.
    { apply Qeq_bool_iff in H0. rewrite H0 in Hge. exfalso. now apply Hge. }
    destruct (Qle_bool 50 n) eqn:Hn50.
    { apply Qle_bool_iff in Hn50. exfalso.
      apply (Qlt_irrefl n). now apply Qlt_le_trans with 50%Q. }
    apply Qle_bool_iff in Hge. now rewrite Hge in Hcases.
  - intros markets. rewrite gammaTopMarkets_run. cbv zeta.
    destruct (http_fetch (world s) (events_url limit)) as [[res|e] w]; [|discriminate].
    destruct (negb (res_ok res)); [discriminate|].
    destruct (JSON_parse (res_text res)) as [events|e]; [|discriminate].
    destruct (iterate events) as [evs|e]; [|discriminate].
    destruct (flatten evs []) as [ms|e]; [|discriminate].
    cbn [fst]. intros [= <-]. rewrite Hq.
    pose proof (length_slice0 ms q H1) as Hlen.
    pose proof (Qtrunc_range q H1 H50) as Hrange.
    split; [exact Hlen | lia].
  - intros res w evs Hfetch Hok Hparse Hwf.
    rewrite gammaTopMarkets_run. cbv zeta.
    rewrite Hfetch, Hok, Hparse. cbn [negb iterate].
    destruct (flatten_total evs [] Hwf) as (ms & ->).
    cbn [fst]. eauto.
Qed.

End GammaFacts.

Lemma gammaTopMarkets_limit_witness :
  fst (gammaTopMarkets (E := Simulation.deployment) (JsNumber (Fin (5 # 2)))
         (Simulation.boot
            (Simulation.market_service (Ok (mkHttpResponse true 200 "[e1,e2]")))))
  = Ok [JsObject [("eventId", JsString "e1"); ("eventTitle", JsString "Election");
                  ("eventSlug", JsUndefined); ("id", JsString "m1");
                  ("question", JsUndefined); ("slug", JsUndefined);
                  ("active", JsUndefined); ("endDate", JsUndefined);
                  ("outcomes", JsUndefined); ("outcomePrices", JsUndefined);
                  ("clobTokenIds", JsUndefined); ("volume", JsUndefined);
                  ("liquidity", JsUndefined)];
        JsObject [("eventId", JsString "e1"); ("eventTitle", JsString "Election");
                  ("eventSlug", JsUndefined); ("id", JsString "m2");
                  ("question", JsUndefined); ("slug", JsUndefined);
                  ("active", JsUndefined); ("endDate", JsUndefined);
                  ("outcomes", JsUndefined); ("outcomePrices", JsUndefined);
                  ("clobTokenIds", JsUndefined); ("volume", JsUndefined);
                  ("liquidity", JsUndefined)]]
  /\ safeLimit (E := Simulation.deployment) (JsString "70") = Fin 50
  /\ safeLimit (E := Simulation.deployment) (JsString "abc") = Fin 10
  /\ safeLimit (E := Simulation.deployment) JsUndefined = Fin 10
  /\ safeLimit (E := Simulation.deployment) (JsNumber (Fin (-5))) = Fin 1.
Proof.
  destruct (gammaTopMarkets_limit (E := Simulation.deployment) (JsNumber (Fin (5 # 2)))
              (Simulation.boot
                 (Simulation.market_service (Ok (mkHttpResponse true 200 "[e1,e2]")))))
    as (q & _ & _ & _ & _ & _ & _ & _ & _ & Htotal).
  destruct (Htotal (mkHttpResponse true 200 "[e1,e2]")
              (Simulation.market_service (Ok (mkHttpResponse true 200 "[e1,e2]")))
              [JsObject [("id", JsString "e1"); ("title", JsString "Election");
                         ("markets", JsArray [JsObject [("id", JsString "m1")];
                                              JsObject [("id", JsString "m2")]])];
               JsObject [("id", JsString "e2");
                         ("markets", JsArray [JsObject [("id", JsString "m3")]])]])
    as (markets & Hm); try (vm_compute; reflexivity).
  destruct (gammaTopMarkets_limit (E := Simulation.deployment) (JsString "70")
              (Simulation.boot (Simulation.chain 0 0)))
    as (q70 & _ & _ & _ & _ & _ & H70 & _).
  destruct (gammaTopMarkets_limit (E := Simulation.deployment) (JsString "abc")
              (Simulation.boot (Simulation.chain 0 0)))
    as (qabc & _ & _ & _ & Habc & _).
  destruct (gammaTopMarkets_limit (E := Simulation.deployment) JsUndefined
              (Simulation.boot (Simulation.chain 0 0)))
    as (qu & _ & _ & _ & _ & _ & _ & Hu & _).
  destruct (gammaTopMarkets_limit (E := Simulation.deployment) (JsNumber (Fin (-5)))
              (Simulation.boot (Simulation.chain 0 0)))
    as (qn & _ & _ & _ & _ & Hn & _).
  split; [vm_compute; reflexivity|].
  split; [apply (H70 70%Q); [vm_compute; reflexivity | discriminate]|].
  split; [apply Habc; vm_compute; reflexivity|].
  split; [apply (Hu 10%Q); [vm_compute; reflexivity | discriminate | reflexivity]|].
  apply Hn. vm_compute. reflexivity.
Defined.

(** C10, as the specification words it, fails: -5 is not a positive number,
    and the limit used for it is 1, not the default 10. *)
Lemma gammaTopMarkets_negative_limit_is_not_default :
  is_positive (requested (E := Simulation.deployment) (JsNumber (Fin (-5)))) = false
  /\ safeLimit (E := Simulation.deployment) (JsNumber (Fin (-5))) = Fin 1
  /\ num_eqb (safeLimit (E := Simulation.deployment) (JsNumber (Fin (-5)))) (Fin 10) = false.
Proof. repeat split. Qed.

(* ===================================================================== *)
(** * More on credentials                                                  *)
(* ===================================================================== *)

Lemma length_nonzero_nonempty (s : string) : String.length s <> 0%nat -> s <> "".
Proof. intros H ->. now apply H. Qed.

Lemma nonempty_length_nonzero (s : string) : s <> "" -> String.length s <> 0%nat.
Proof. destruct s; [congruence | discriminate]. Qed.

(** X1.  The padding is the least that completes a group of four: the result is
    the trimmed input in the standard alphabet followed by at most three [=],
    and its length is the first multiple of 4 from the trimmed length on. *)
Theorem normalizeBase64ForAtob_pads_least (s : string) :
  exists pad : nat,
    (pad <= 3)%nat
    /\ normalizeBase64ForAtob s = to_standard_alphabet (trim s) +:+ Js.repeat "=" pad
    /\ String.length (normalizeBase64ForAtob s) = (String.length (trim s) + pad)%nat
    /\ (String.length (normalizeBase64ForAtob s) mod 4 = 0)%nat
    /\ (String.length (trim s) mod 4 = 0 -> pad = 0)%nat.
Proof.
  exists ((4 - String.length (trim s) mod 4) mod 4)%nat.
  pose proof (Nat.mod_upper_bound (4 - String.length (trim s) mod 4) 4 ltac:(lia)).
  split; [lia|].
  split; [apply normalizeBase64ForAtob_unfold|].
  split.
  - rewrite normalizeBase64ForAtob_unfold, length_append, !length_replaceAll.
    now rewrite length_repeat_char.
  - split; [apply normalizeBase64ForAtob_length | apply pad_of_multiple].
Qed.

Lemma accepted_creds_well_formed (raw : JsValue) (c : ApiCreds) :
  coerceApiCreds raw = Ok c -> well_formed_creds c.
Proof.
  intros H.
  apply coerceApiCreds_Ok in H as (k & s & p & -> & Hk & Hs & Hp).
  unfold well_formed_creds. cbn [key secret passphrase].
  split; [now apply length_nonzero_nonempty|].
  split; [apply trim_idempotent|].
  split; [now apply length_nonzero_nonempty|].
  split; [apply trim_idempotent|].
  split.
  { apply length_nonzero_nonempty.
    pose proof (normalizeBase64ForAtob_length_ge s). lia. }
  split; [apply normalizeBase64ForAtob_trimmed|].
  split; [apply normalizeBase64ForAtob_no_dash|].
  split; [apply normalizeBase64ForAtob_no_underscore|].
  apply normalizeBase64ForAtob_length.
Qed.

(** X2.  Whatever [coerceApiCreds] accepts is an object, and the credential it
    returns has no empty field, no field with white space around it, and a
    secret in the standard alphabet whose length is a multiple of 4. *)
Theorem coerceApiCreds_well_formed (raw : JsValue) (c : ApiCreds) :
  coerceApiCreds raw = Ok c ->
  well_formed_creds c /\ exists props, raw = JsObject props.
Proof.
  intros H. split; [now apply (accepted_creds_well_formed raw)|].
  destruct raw as [| | b | n | s | props | elems]; try discriminate.
  - destruct b; discriminate.
  - unfold coerceApiCreds in H. cbn in H.
    destruct (negb (num_truthy n)); discriminate.
  - unfold coerceApiCreds in H. cbn in H.
    destruct (negb (negb (String.eqb s ""))); discriminate.
  - now exists props.
Qed.

Lemma coerceApiCreds_well_formed_witness :
  well_formed_creds {| key := "k-1"; secret := "+//+AQ=="; passphrase := "pw" |}.
Proof.
  apply (coerceApiCreds_well_formed
           (alternate_response " k-1 " [Byte.xfb; Byte.xff; Byte.xfe; Byte.x01]
                               (JsString "pw"))).
  reflexivity.
Defined.

(** The outcome of [coerceApiCreds] on an object, by its three fields. *)
Lemma coerceApiCreds_object (props : list (string * JsValue)) :
  coerceApiCreds (JsObject props) =
  let chosen := if String.eqb (typeof (get (JsObject props) "key")) "string"
                then get (JsObject props) "key" else get (JsObject props) "apiKey" in
  if missing_string chosen then Throw (Error "Invalid api creds: missing key/apiKey")
  else if missing_string (get (JsObject props) "secret")
  then Throw (Error "Invalid api creds: missing secret")
  else if missing_string (get (JsObject props) "passphrase")
  then Throw (Error "Invalid api creds: missing passphrase")
  else Ok {| key := trim (as_string chosen);
             passphrase := trim (as_string (get (JsObject props) "passphrase"));
             secret := normalizeBase64ForAtob (as_string (get (JsObject props) "secret")) |}.
Proof. reflexivity. Qed.

(** X3.  When [key] is a string, [apiKey] is never looked at: two objects with
    the same string [key], the same [secret] and the same [passphrase] have
    the same outcome; and a blank [key] is refused even beside a usable
    [apiKey]. *)
Theorem coerceApiCreds_key_shadows_apiKey
  (props1 props2 : list (string * JsValue)) (k : string) :
  get (JsObject props1) "key" = JsString k ->
  get (JsObject props2) "key" = JsString k ->
  get (JsObject props1) "secret" = get (JsObject props2) "secret" ->
  get (JsObject props1) "passphrase" = get (JsObject props2) "passphrase" ->
  coerceApiCreds (JsObject props1) = coerceApiCreds (JsObject props2)
  /\ (trim k = "" ->
      coerceApiCreds (JsObject props1)
      = Throw (Error "Invalid api creds: missing key/apiKey")).
Proof.
  intros Hk1 Hk2 Hs Hp.
  rewrite !coerceApiCreds_object, Hk1, Hk2, Hs, Hp.
  split; [reflexivity|].
  intros Hblank. cbn [typeof]. cbv zeta.
  change (String.eqb "string" "string") with true. cbv iota.
  cbn [missing_string]. now rewrite Hblank.
Qed.

Lemma coerceApiCreds_key_shadows_apiKey_witness :
  coerceApiCreds (JsObject [("key", JsString "  "); ("apiKey", JsString "usable");
                            ("secret", JsString "c2VjcmV0"); ("passphrase", JsString "pw")])
  = Throw (Error "Invalid api creds: missing key/apiKey").
Proof.
  apply (coerceApiCreds_key_shadows_apiKey
           [("key", JsString "  "); ("apiKey", JsString "usable");
            ("secret", JsString "c2VjcmV0"); ("passphrase", JsString "pw")]
           [("key", JsString "  ");
            ("secret", JsString "c2VjcmV0"); ("passphrase", JsString "pw")]
           "  "); reflexivity.
Defined.

Lemma normalizeBase64ForAtob_of_trim (s t : string) :
  trim s = trim t -> normalizeBase64ForAtob s = normalizeBase64ForAtob t.
Proof. intros H. now rewrite !normalizeBase64ForAtob_unfold, H. Qed.

(** X4.  White space around the fields of a response does not matter: two
    responses whose fields agree once trimmed are accepted with the same
    credential or refused with the same error. *)
Theorem coerceApiCreds_ignores_surrounding_space (a b : ApiCreds) :
  trim (key a) = trim (key b) ->
  trim (secret a) = trim (secret b) ->
  trim (passphrase a) = trim (passphrase b) ->
  coerceApiCreds (creds_object a) = coerceApiCreds (creds_object b).
Proof.
  intros Hk Hs Hp. unfold creds_object. rewrite !coerceApiCreds_object.
  change (get (JsObject [("key", JsString (key a));
                         ("passphrase", JsString (passphrase a));
                         ("secret", JsString (secret a))]) "key")
    with (JsString (key a)).
  change (get (JsObject [("key", JsString (key a));
                         ("passphrase", JsString (passphrase a));
                         ("secret", JsString (secret a))]) "secret")
    with (JsString (secret a)).
  change (get (JsObject [("key", JsString (key a));
                         ("passphrase", JsString (passphrase a));
                         ("secret", JsString (secret a))]) "passphrase")
    with (JsString (passphrase a)).
  change (get (JsObject [("key", JsString (key b));
                         ("passphrase", JsString (passphrase b));
                         ("secret", JsString (secret b))]) "key")
    with (JsString (key b)).
  change (get (JsObject [("key", JsString (key b));
                         ("passphrase", JsString (passphrase b));
                         ("secret", JsString (secret b))]) "secret")
    with (JsString (secret b)).
  change (get (JsObject [("key", JsString (key b));
                         ("passphrase", JsString (passphrase b));
                         ("secret", JsString (secret b))]) "passphrase")
    with (JsString (passphrase b)).
  cbn [typeof]. change (String.eqb "string" "string") with true.
  cbv zeta iota. cbn [missing_string as_string].
  rewrite Hk, Hs, Hp, (normalizeBase64ForAtob_of_trim _ _ Hs). reflexivity.
Qed.

Lemma coerceApiCreds_ignores_surrounding_space_witness :
  coerceApiCreds (creds_object {| key := " k "; secret := "ab-_ "; passphrase := "p" |})
  = coerceApiCreds (creds_object {| key := "k"; secret := " ab-_"; passphrase := " p " |}).
Proof.
  apply coerceApiCreds_ignores_surrounding_space; reflexivity.
Defined.

Section CacheInvariant.
Context `{E : Externals}.

Lemma getApiCreds_keeps_well_formed (phone : string) (s : State) :
  cache_well_formed s ->
  cache_well_formed (snd (getApiCreds phone s))
  /\ forall c, fst (getApiCreds phone s) = Ok c -> well_formed_creds c.
Proof.
  intros Hwf.
  destruct (apiCredsCache s !! phone) as [c0|] eqn:Hc.
  - rewrite (getApiCreds_hit _ _ _ Hc). cbn [fst snd].
    split; [exact Hwf|]. intros c [= <-]. exact (Hwf _ _ Hc).
  - rewrite (getApiCreds_miss _ _ Hc). cbv zeta.
    destruct (clob_createOrDeriveApiKey (world s) (signer_of phone) api_nonce)
      as [[raw|e0] w].
    + destruct (coerceApiCreds raw) as [c|e0] eqn:Hcoerce; cbn [fst snd].
      * pose proof (accepted_creds_well_formed raw c Hcoerce) as Hc_wf.
        split; [|now intros c' [= <-]].
        intros p c'. cbn [apiCredsCache set_apiCredsCache set_world record].
        destruct (decide (phone = p)) as [<-|Hne].
        -- rewrite lookup_insert_eq. now intros [= <-].
        -- rewrite lookup_insert_ne by exact Hne. apply Hwf.
      * split; [|intros c [=]].
        intros p c'. cbn [apiCredsCache set_apiCredsCache set_world record].
        destruct (decide (phone = p)) as [<-|Hne].
        -- now rewrite lookup_delete_eq.
        -- rewrite lookup_delete_ne by exact Hne. apply Hwf.
    + cbn [fst snd]. split; [|intros c [=]].
      intros p c'. cbn [apiCredsCache set_apiCredsCache set_world record].
      destruct (decide (phone = p)) as [<-|Hne].
      * now rewrite lookup_delete_eq.
      * rewrite lookup_delete_ne by exact Hne. apply Hwf.
Qed.

(** X5.  After any sequence of calls of [getApiCreds], for any tenants and
    whatever the exchange replied, every credential in the cache of a process
    that started empty is well formed; so is every credential a further call
    returns. *)
Theorem apiCredsCache_always_well_formed (phones : list string) (w : World) :
  cache_well_formed (getApiCreds_each phones (initial w))
  /\ forall phone c,
      fst (getApiCreds phone (getApiCreds_each phones (initial w))) = Ok c ->
      well_formed_creds c.
Proof.
  assert (Hgen : forall s, cache_well_formed s ->
                           cache_well_formed (getApiCreds_each phones s)).
  { induction phones as [|p rest IH]; intros s Hs; [exact Hs|].
    cbn [getApiCreds_each]. apply IH. now apply getApiCreds_keeps_well_formed. }
  assert (H0 : cache_well_formed (initial w)).
  { intros p c. cbn [apiCredsCache initial]. now rewrite lookup_empty. }
  split; [now apply Hgen|].
  intros phone c. now apply getApiCreds_keeps_well_formed, Hgen.
Qed.

(** The entry of the tenant after a call: the credential returned, or none. *)
Lemma getApiCreds_entry_after (phone : string) (s : State) :
  apiCredsCache (snd (getApiCreds phone s)) !! phone
  = match fst (getApiCreds phone s) with
    | Ok creds => Some creds
    | Throw _ => None
    end.
Proof.
  destruct (apiCredsCache s !! phone) as [c0|] eqn:Hc.
  - now rewrite (getApiCreds_hit _ _ _ Hc).
  - rewrite (getApiCreds_miss _ _ Hc). cbv zeta.
    destruct (clob_createOrDeriveApiKey (world s) (signer_of phone) api_nonce)
      as [[raw|e0] w]; [destruct (coerceApiCreds raw)|];
      cbn [fst snd apiCredsCache set_apiCredsCache set_world record];
      now rewrite ?lookup_insert_eq, ?lookup_delete_eq.
Qed.

(** ** [getL2Client] *)

(** X6.  [getL2Client] fails exactly when [getApiCreds] does, with its error and
    no entry left in the cache.  A client it returns signs with the wallet
    derived for the tenant, is funded by that wallet's own address, uses
    signature type 0, and carries the credential that is now in the cache. *)
Theorem getL2Client_outcome (phone : string) (s : State) :
  let s1 := record (EvDeriveKey phone) s in
  let s' := snd (getL2Client phone s) in
  s' = snd (getApiCreds phone s1)
  /\ (forall e, fst (getApiCreds phone s1) = Throw e ->
                fst (getL2Client phone s) = Throw e
                /\ apiCredsCache s' !! phone = None)
  /\ (forall creds, fst (getApiCreds phone s1) = Ok creds ->
                    fst (getL2Client phone s)
                    = Ok (mkClobClient POLYMARKET_HOST POLYMARKET_CHAIN_ID (signer_of phone)
                                       (Some creds) (Some 0%Z) (Some (address_of phone)))
                    /\ apiCredsCache s' !! phone = Some creds).
Proof.
  cbv zeta. unfold getL2Client, bind. rewrite getThirdwebSigner_run.
  pose proof (getApiCreds_entry_after phone (record (EvDeriveKey phone) s)) as Hentry.
  destruct (getApiCreds phone (record (EvDeriveKey phone) s)) as [[creds|e] s2] eqn:Hrun;
    cbn [fst snd] in *.
  - split; [reflexivity|]. split; [intros e [=]|].
    intros c [= <-]. split; [reflexivity | exact Hentry].
  - split; [reflexivity|]. split; [|intros c [=]].
    intros e' [= <-]. split; [reflexivity | exact Hentry].
Qed.

End CacheInvariant.

(* ===================================================================== *)
(** * More on wallets and gas                                              *)
(* ===================================================================== *)

Section WalletFacts.
Context `{E : Externals} {O : OnchainExternals E}.

Lemma address_queries_app (t u : list Event) :
  address_queries (t ++ u)%list = (address_queries t + address_queries u)%nat.
Proof.
  induction t as [|e t IH]; [reflexivity|].
  destruct e; simpl; rewrite IH; reflexivity.
Qed.

Lemma sdk_sends_app (t u : list Event) :
  sdk_sends (t ++ u)%list = (sdk_sends t + sdk_sends u)%nat.
Proof.
  induction t as [|e t IH]; [reflexivity|].
  destruct e; simpl; rewrite IH; reflexivity.
Qed.

Lemma getSDKForUser_queries (phone : string) (s : State) :
  address_queries (trace (snd (getSDKForUser phone s))) = address_queries (trace s)
  /\ (derivations phone (trace (snd (getSDKForUser phone s)))
      = derivations phone (trace s)
        + match sdkCache s !! phone with Some _ => 0 | None => 1 end)%nat.
Proof.
  destruct (sdkCache s !! phone) as [sdk|] eqn:H.
  - rewrite (getSDKForUser_hit _ _ _ H). cbn [snd]. split; [reflexivity | lia].
  - rewrite (getSDKForUser_miss _ _ H). cbn [snd trace set_sdkCache record].
    rewrite address_queries_app, derivations_app. simpl.
    rewrite String.eqb_refl. split; lia.
Qed.

(** X7.  [getOrCreateServerWallet] caches the SDK of the tenant, not its address:
    every call asks the SDK for the address once more.  It returns the
    address the SDK gives with the phone as wallet id, and a failure of the
    SDK comes back as a plain [Error] that carries its message. *)
Theorem getOrCreateServerWallet_outcome (phone : string) (s : State) :
  exists sdk,
    sdkCache (snd (getOrCreateServerWallet phone s)) !! phone = Some sdk
    /\ (sdkCache s !! phone = None -> sdk = fromPrivateKey (key_of phone) "polygon")
    /\ (forall cached, sdkCache s !! phone = Some cached -> sdk = cached)
    /\ (forall a, sdk_wallet_getAddress (world s) sdk = Ok a ->
                  fst (getOrCreateServerWallet phone s)
                  = Ok (mkWalletInfo a phone "thirdweb" 137))
    /\ (forall e, sdk_wallet_getAddress (world s) sdk = Throw e ->
                  fst (getOrCreateServerWallet phone s)
                  = Throw (Error ("Thirdweb wallet creation failed: " +:+ err_message e)))
    /\ address_queries (trace (snd (getOrCreateServerWallet phone s)))
       = S (address_queries (trace s)).
Proof.
  destruct (getSDKForUser_frame phone s) as (sdk & s1 & Hrun & Hin & Hw & _).
  pose proof (getSDKForUser_queries phone s) as [Hq _].
  rewrite Hrun in Hq. cbn [snd] in Hq.
  exists sdk.
  unfold getOrCreateServerWallet, try_catch, bind, call_read, ret, throw.
  rewrite Hrun, Hw.
  assert (Hfresh : sdkCache s !! phone = None -> sdk = fromPrivateKey (key_of phone) "polygon").
  { intros Hnone. rewrite (getSDKForUser_miss _ _ Hnone) in Hrun. congruence. }
  assert (Hcached : forall cached, sdkCache s !! phone = Some cached -> sdk = cached).
  { intros cached Hsome. rewrite (getSDKForUser_hit _ _ _ Hsome) in Hrun. congruence. }
  destruct (sdk_wallet_getAddress (world s) sdk) as [a|e];
    cbn [fst snd sdkCache record trace];
    rewrite address_queries_app, Hq; simpl;
    (split; [exact Hin|]); (split; [exact Hfresh|]); (split; [exact Hcached|]);
    (split; [intros ? [=]; subst; reflexivity|]);
    (split; [intros ? [=]; subst; reflexivity | lia]).
Qed.

(** X8.  One call of [ensureGasBalance] submits at most one transfer, and if it
    submits one it is the top-up amount from the master wallet to the address
    of the tenant's wallet, whatever else succeeds or fails.  A failure to
    resolve the wallet is reported with both prefixes and nothing is
    submitted. *)
Theorem ensureGasBalance_at_most_one_transfer (userPhone : string) (s : State) :
  let s' := snd (ensureGasBalance userPhone s) in
  (transfers (trace s') = transfers (trace s)
   \/ exists userWallet,
       fst (getOrCreateServerWallet userPhone s) = Ok userWallet
       /\ transfers (trace s')
          = (transfers (trace s)
             ++ [mkTransfer master_address (address userWallet)
                            MATIC_TOP_UP_AMOUNT_WEI])%list)
  /\ (forall e,
         fst (getOrCreateServerWallet userPhone s) = Throw e ->
         fst (ensureGasBalance userPhone s)
         = Throw (Error ("Gas balance check failed: " +:+ err_message e))
         /\ transfers (trace s') = transfers (trace s)).
Proof.
  cbv zeta.
  pose proof (getOrCreateServerWallet_frame userPhone s) as (Hw & _ & Ht).
  destruct (getOrCreateServerWallet userPhone s) as [[userWallet|e0] s1] eqn:Hwallet;
    cbn [fst snd] in *.
  - split; [|intros e [=]].
    destruct (provider_getBalance (world s) (address userWallet)) as [userBalance|e1] eqn:Hbal.
    + rewrite (ensureGasBalance_run _ _ _ _ _ Hwallet Hbal). cbv zeta.
      destruct (userBalance <? MATIC_TOP_UP_THRESHOLD_WEI)%Z.
      * destruct (provider_getBalance (world s) master_address) as [mb|e2].
        -- destruct (mb <? MATIC_TOP_UP_AMOUNT_WEI)%Z.
           ++ left. cbn [snd trace record]. rewrite !transfers_app, Ht. simpl.
              now rewrite !app_nil_r.
           ++ right. exists userWallet. split; [reflexivity|].
              destruct (wallet_sendTransaction (world s) MASTER_PRIVATE_KEY
                          (address userWallet) MATIC_TOP_UP_AMOUNT_WEI) as [[tx|e3] w1];
                [destruct (tx_wait w1 tx) as [[u|e4] w2]|];
                cbn [snd trace record set_world];
                rewrite !transfers_app, Ht; simpl; now rewrite !app_nil_r.
        -- left. cbn [snd trace record]. rewrite !transfers_app, Ht. simpl.
           now rewrite !app_nil_r.
      * left. cbn [snd trace record]. rewrite !transfers_app, Ht. simpl.
        now rewrite !app_nil_r.
    + left. unfold ensureGasBalance, try_catch, bind. rewrite Hwallet.
      unfold getBalance, call_read. rewrite Hw, Hbal.
      cbn [snd throw trace record]. rewrite transfers_app, Ht. simpl.
      now rewrite app_nil_r.
  - assert (Hrun : ensureGasBalance userPhone s
                   = (Throw (Error ("Gas balance check failed: " +:+ err_message e0)), s1)).
    { unfold ensureGasBalance, try_catch, bind. now rewrite Hwallet. }
    rewrite Hrun. cbn [fst snd].
    split; [now left|]. intros e [= <-]. split; [reflexivity | exact Ht].
Qed.

(** X9.  [checkMasterWalletBalance] never throws and never submits anything.  It
    writes its two warnings exactly when the balance of the master wallet is
    read and is below 10 MATIC; when the read fails it writes the error and
    nothing else. *)
Theorem checkMasterWalletBalance_only_warns (s : State) :
  exists lines,
    fst (checkMasterWalletBalance s) = Ok lines
    /\ transfers (trace (snd (checkMasterWalletBalance s))) = transfers (trace s)
    /\ world (snd (checkMasterWalletBalance s)) = world s
    /\ (forall b, provider_getBalance (world s) master_address = Ok b ->
                  (b < MASTER_WALLET_MIN_BALANCE_WEI)%Z ->
                  warnings lines
                  = [WarnBalanceLow (formatEther b)
                                    (formatEther MASTER_WALLET_MIN_BALANCE_WEI);
                     WarnPleaseTopUp master_address])
    /\ (forall b, provider_getBalance (world s) master_address = Ok b ->
                  (MASTER_WALLET_MIN_BALANCE_WEI <= b)%Z ->
                  lines = [LogMasterBalance (formatEther b) master_address])
    /\ (forall e, provider_getBalance (world s) master_address = Throw e ->
                  lines = [ErrorCheckFailed e]).
Proof.
  unfold checkMasterWalletBalance, try_catch, bind, getBalance, call_read, ret.
  cbn [new_Wallet wallet_address]. fold master_address.
  destruct (provider_getBalance (world s) master_address) as [b|e].
  - destruct (b <? MASTER_WALLET_MIN_BALANCE_WEI)%Z eqn:Hlow;
      eexists; (split; [reflexivity|]);
      cbn [snd trace world record]; rewrite transfers_app; simpl; rewrite app_nil_r;
      (split; [reflexivity|]); (split; [reflexivity|]);
      (split; [|split; [|intros e [=]]]); intros b' [= <-] Hb.
    + reflexivity.
    + apply Z.ltb_lt in Hlow. lia.
    + apply Z.ltb_ge in Hlow. lia.
    + reflexivity.
  - eexists. split; [reflexivity|].
    cbn [snd trace world record]. rewrite transfers_app. simpl. rewrite app_nil_r.
    split; [reflexivity|]. split; [reflexivity|].
    split; [intros b [=]|]. split; [intros b [=]|]. now intros e' [= <-].
Qed.

(** X10.  [sendNativeToken] refuses an amount that is not a number before anything
    is sent.  With a valid amount it submits exactly one transfer, of that
    amount, from the tenant's own derived wallet to the recipient, and when
    the transfer is sent and mined it returns the hash in the receipt. *)
Theorem sendNativeToken_one_transfer (phone toAddress amountWei : string) (s : State) :
  let s' := snd (sendNativeToken phone toAddress amountWei s) in
  (forall e, BigNumber_from amountWei = Throw e ->
             fst (sendNativeToken phone toAddress amountWei s)
             = Throw (Error ("Failed to send native token: " +:+ err_message e))
             /\ transfers (trace s') = transfers (trace s)
             /\ world s' = world s)
  /\ (forall value, BigNumber_from amountWei = Ok value ->
        transfers (trace s')
        = (transfers (trace s) ++ [mkTransfer (address_of phone) toAddress value])%list
        /\ forall tx w1 w2,
            wallet_sendTransaction (world s) (key_of phone) toAddress value = (Ok tx, w1) ->
            tx_wait w1 tx = (Ok tt, w2) ->
            fst (sendNativeToken phone toAddress amountWei s)
            = Ok (receipt_transactionHash w2 tx)).
Proof.
  cbv zeta. unfold sendNativeToken, try_catch, bind. rewrite getThirdwebSigner_run.
  unfold lift. split.
  - intros e ->. cbn [fst snd throw trace world record].
    rewrite transfers_app. simpl. now rewrite app_nil_r.
  - intros value ->.
    unfold sendTransaction, wait, call, gets, ret, throw.
    cbn [world record signer_of new_Wallet wallet_address wallet_privateKey].
    fold (address_of phone).
    destruct (wallet_sendTransaction (world s) (key_of phone) toAddress value)
      as [[tx|e] w1].
    + cbn [world record set_world].
      destruct (tx_wait w1 tx) as [[u|e] w2] eqn:Hwait;
        cbn [fst snd trace world record set_world];
        rewrite !transfers_app; simpl; rewrite !app_nil_r;
        (split; [reflexivity|]);
        intros tx' w1' w2' [= <- <-] Hwait'; rewrite Hwait in Hwait';
        [injection Hwait' as _ ->; reflexivity | discriminate].
    + cbn [fst snd trace world record set_world].
      rewrite !transfers_app. simpl. rewrite !app_nil_r.
      split; [reflexivity|]. intros tx w1' w2 [=].
Qed.

Lemma getOrCreateServerWallet_run (phone : string) (s : State) :
  exists sdk s0,
    getSDKForUser phone s = (Ok sdk, s0)
    /\ getOrCreateServerWallet phone s
       = (match sdk_wallet_getAddress (world s) sdk with
          | Ok a => Ok (mkWalletInfo a phone "thirdweb" CHAIN_ID)
          | Throw e => Throw (Error ("Thirdweb wallet creation failed: " +:+ err_message e))
          end,
          record (EvSdkGetAddress sdk) s0).
Proof.
  destruct (getSDKForUser_frame phone s) as (sdk & s0 & Hrun & _ & Hw & _).
  exists sdk, s0. split; [exact Hrun|].
  unfold getOrCreateServerWallet, try_catch, bind, call_read, ret, throw.
  rewrite Hrun, Hw. now destruct (sdk_wallet_getAddress (world s) sdk).
Qed.

Lemma getWalletAddress_keeps_derived (phone : string) (s : State) :
  sdkCache_derived s ->
  sdkCache_derived (snd (getWalletAddress phone s))
  /\ world (snd (getWalletAddress phone s)) = world s
  /\ fst (getWalletAddress phone s)
     = match sdk_wallet_getAddress (world s) (fromPrivateKey (key_of phone) "polygon") with
       | Ok a => Ok a
       | Throw e => Throw (Error ("Thirdweb wallet creation failed: " +:+ err_message e))
       end.
Proof.
  intros Hinv.
  destruct (getSDKForUser_frame phone s) as (sdk & s0 & Hrun & Hin & Hw & _ & _ & Hother).
  assert (Hsdk : sdk = fromPrivateKey (key_of phone) "polygon").
  { destruct (sdkCache s !! phone) as [cached|] eqn:Hc.
    - rewrite (getSDKForUser_hit _ _ _ Hc) in Hrun. injection Hrun as <- _.
      now apply Hinv.
    - rewrite (getSDKForUser_miss _ _ Hc) in Hrun. now injection Hrun as <- _. }
  destruct (getOrCreateServerWallet_run phone s) as (sdk' & s0' & Hrun' & Hwallet).
  rewrite Hrun in Hrun'. injection Hrun' as <- <-.
  unfold getWalletAddress, bind, ret. rewrite Hwallet, <- Hsdk.
  assert (Hcache : sdkCache_derived (record (EvSdkGetAddress sdk) s0)).
  { intros p k. cbn [sdkCache record].
    destruct (decide (p = phone)) as [->|Hne].
    - rewrite Hin. now intros [= <-].
    - rewrite (Hother p Hne). apply Hinv. }
  destruct (sdk_wallet_getAddress (world s) sdk); cbn [fst snd world record address];
    (split; [exact Hcache|]); (split; [exact Hw | reflexivity]).
Qed.

(** X11.  In a process that started with empty caches, after wallet addresses
    were asked for any tenants in any order, every SDK in the cache is the one
    built from the key derived for its own tenant, the chain is untouched, and
    the address returned for a tenant is the one that SDK reports (or its
    failure, wrapped): never the address of another tenant's wallet. *)
Theorem getWalletAddress_own_wallet (phones : list string) (w : World) (phone : string) :
  let s := getWalletAddress_each phones (initial w) in
  sdkCache_derived s
  /\ world s = w
  /\ fst (getWalletAddress phone s)
     = match sdk_wallet_getAddress w (fromPrivateKey (key_of phone) "polygon") with
       | Ok a => Ok a
       | Throw e => Throw (Error ("Thirdweb wallet creation failed: " +:+ err_message e))
       end.
Proof.
  cbv zeta.
  assert (Hgen : forall s, sdkCache_derived s ->
                           sdkCache_derived (getWalletAddress_each phones s)
                           /\ world (getWalletAddress_each phones s) = world s).
  { induction phones as [|p rest IH]; intros s Hs; [now split|].
    cbn [getWalletAddress_each].
    destruct (getWalletAddress_keeps_derived p s Hs) as (Hinv & Hw & _).
    destruct (IH _ Hinv) as (Hinv' & Hw'). split; [exact Hinv' | congruence]. }
  assert (H0 : sdkCache_derived (initial w)).
  { intros p k. cbn [sdkCache initial]. now rewrite lookup_empty. }
  destruct (Hgen _ H0) as (Hinv & Hw). cbn [world initial] in Hw.
  split; [exact Hinv|]. split; [exact Hw|].
  destruct (getWalletAddress_keeps_derived phone _ Hinv) as (_ & _ & Hres).
  now rewrite Hres, Hw.
Qed.

(** X12.  A balance that [getWalletBalance] returns is the decimal form of the
    balance of the tenant's wallet, read without changing the chain or
    submitting anything; and when that balance is at least the top-up
    threshold, an [ensureGasBalance] that follows for the same tenant succeeds
    without a transfer. *)
Theorem getWalletBalance_then_ensureGasBalance (phone balance : string) (s : State) :
  fst (getWalletBalance phone s) = Ok balance ->
  let s1 := snd (getWalletBalance phone s) in
  world s1 = world s
  /\ transfers (trace s1) = transfers (trace s)
  /\ exists wallet b,
      fst (getOrCreateServerWallet phone s) = Ok wallet
      /\ provider_getBalance (world s) (address wallet) = Ok b
      /\ balance = BigNumber_toString b
      /\ ((MATIC_TOP_UP_THRESHOLD_WEI <= b)%Z ->
          fst (ensureGasBalance phone s1) = Ok tt
          /\ transfers (trace (snd (ensureGasBalance phone s1))) = transfers (trace s)).
Proof.
  cbv zeta.
  destruct (getSDKForUser_frame phone s) as (sdk & s0 & Hrun & Hin & Hw & _ & Ht & _).
  destruct (getOrCreateServerWallet_run phone s) as (sdk' & s0' & Hrun' & Hwallet).
  rewrite Hrun in Hrun'. injection Hrun' as <- <-.
  unfold getWalletBalance, try_catch, bind. rewrite Hwallet.
  destruct (sdk_wallet_getAddress (world s) sdk) as [a|e] eqn:Hsdk; [|discriminate].
  unfold getBalance, call_read, ret. cbn [world record address]. rewrite Hw.
  destruct (provider_getBalance (world s) a) as [b|e] eqn:Hbal; [|discriminate].
  cbn [fst snd]. intros [= <-].
  set (s1 := record (EvGetBalance a) (record (EvSdkGetAddress sdk) s0)).
  assert (Hw1 : world s1 = world s) by exact Hw.
  assert (Ht1 : transfers (trace s1) = transfers (trace s)).
  { unfold s1. cbn [trace record]. rewrite !transfers_app, Ht. simpl.
    now rewrite !app_nil_r. }
  split; [exact Hw1|]. split; [exact Ht1|].
  exists (mkWalletInfo a phone "thirdweb" CHAIN_ID), b.
  split; [reflexivity|]. split; [exact Hbal|]. split; [reflexivity|].
  intros Henough.
  assert (Hin1 : sdkCache s1 !! phone = Some sdk) by exact Hin.
  assert (Hagain : getOrCreateServerWallet phone s1
                   = (Ok (mkWalletInfo a phone "thirdweb" CHAIN_ID),
                      record (EvSdkGetAddress sdk) s1)).
  { destruct (getOrCreateServerWallet_run phone s1) as (sdk1 & s2 & Hhit & Hw2).
    rewrite (getSDKForUser_hit _ _ _ Hin1) in Hhit. injection Hhit as <- <-.
    rewrite Hw2, Hw1, Hsdk. reflexivity. }
  assert (Hbal1 : provider_getBalance (world s1)
                    (address (mkWalletInfo a phone "thirdweb" CHAIN_ID)) = Ok b)
    by (rewrite Hw1; exact Hbal).
  rewrite (ensureGasBalance_run _ _ _ _ _ Hagain Hbal1). cbv zeta.
  apply Z.ltb_ge in Henough. rewrite Henough. cbn [fst snd trace record].
  split; [reflexivity|].
  rewrite !transfers_app. simpl. rewrite !app_nil_r. exact Ht1.
Qed.

End WalletFacts.

Lemma sendNativeToken_one_transfer_witness :
  transfers
    (trace (snd (sendNativeToken (O := SimulationChain.onchain) Simulation.tenant
                   SimulationChain.other_spender "250"
                   (Simulation.boot (Simulation.chain 0 1000)))))
  = [mkTransfer Simulation.tenant_address SimulationChain.other_spender 250]
  /\ fst (sendNativeToken (O := SimulationChain.onchain) Simulation.tenant
            SimulationChain.other_spender "1.5"
            (Simulation.boot (Simulation.chain 0 1000)))
     = Throw (Error "Failed to send native token: invalid BigNumber string").
Proof.
  destruct (sendNativeToken_one_transfer (O := SimulationChain.onchain) Simulation.tenant
              SimulationChain.other_spender "250"
              (Simulation.boot (Simulation.chain 0 1000))) as [_ Hvalid].
  destruct (sendNativeToken_one_transfer (O := SimulationChain.onchain) Simulation.tenant
              SimulationChain.other_spender "1.5"
              (Simulation.boot (Simulation.chain 0 1000))) as [Hinvalid _].
  destruct (Hvalid 250%Z ltac:(vm_compute; reflexivity)) as [Ht _].
  destruct (Hinvalid (mkError "Error" "invalid BigNumber string")
                     ltac:(vm_compute; reflexivity)) as [Hr _].
  split; [rewrite Ht; vm_compute; reflexivity | exact Hr].
Defined.

Lemma getWalletBalance_then_ensureGasBalance_witness :
  fst (getWalletBalance (O := SimulationChain.onchain) Simulation.tenant
         (Simulation.boot (Simulation.chain 0 200000000000000000)))
  = Ok "200000000000000000"
  /\ fst (ensureGasBalance Simulation.tenant
            (snd (getWalletBalance (O := SimulationChain.onchain) Simulation.tenant
                    (Simulation.boot (Simulation.chain 0 200000000000000000)))))
     = Ok tt.
Proof.
  assert (Hrun : fst (getWalletBalance (O := SimulationChain.onchain) Simulation.tenant
                        (Simulation.boot (Simulation.chain 0 200000000000000000)))
                 = Ok "200000000000000000") by (vm_compute; reflexivity).
  split; [exact Hrun|].
  destruct (getWalletBalance_then_ensureGasBalance (O := SimulationChain.onchain)
              Simulation.tenant "200000000000000000"
              (Simulation.boot (Simulation.chain 0 200000000000000000)) Hrun)
    as (_ & _ & wallet & b & Hwallet & Hb & _ & Hnext).
  apply Hnext.
  vm_compute in Hwallet. injection Hwallet as <-.
  vm_compute in Hb. injection Hb as <-.
  vm_compute. discriminate.
Defined.

Lemma checkMasterWalletBalance_only_warns_witness :
  fst (checkMasterWalletBalance
         (Simulation.boot (Simulation.chain 9999999999999999999 0)))
  = Ok [LogMasterBalance "9.999999999999999999" Simulation.master;
        WarnBalanceLow "9.999999999999999999" "10.0";
        WarnPleaseTopUp Simulation.master]
  /\ fst (checkMasterWalletBalance
            (Simulation.boot (Simulation.chain 10000000000000000000 0)))
     = Ok [LogMasterBalance "10.0" Simulation.master].
Proof.
  destruct (checkMasterWalletBalance_only_warns (E := Simulation.deployment)
              (Simulation.boot (Simulation.chain 10000000000000000000 0)))
    as (lines & Hrun & _ & _ & _ & Hfine & _).
  split; [vm_compute; reflexivity|].
  rewrite Hrun. f_equal.
  apply (Hfine 10000000000000000000%Z); vm_compute; [reflexivity | discriminate].
Defined.

(* ===================================================================== *)
(** * More on the signing adapter                                          *)
(* ===================================================================== *)

Section SignerAdapterFacts.
Context `{E : Externals}.

(** X13.  [getAddress] remembers an address that is not the empty string: the next
    call returns it without asking the SDK and changes nothing.  An empty
    address is not remembered: the next call asks the SDK again. *)
Theorem ThirdwebSigner_getAddress_memoizes
  (this : ThirdwebSigner.t) (s : State) (a : string) :
  ThirdwebSigner.address_unset this = true ->
  sdk_wallet_getAddress (world s) (ThirdwebSigner._sdk this) = Ok a ->
  exists this1 s1,
    ThirdwebSigner.getAddress this s = (Ok (a, this1), s1)
    /\ address_queries (trace s1) = S (address_queries (trace s))
    /\ (a <> "" -> ThirdwebSigner.getAddress this1 s1 = (Ok (a, this1), s1))
    /\ (a = "" ->
        address_queries (trace (snd (ThirdwebSigner.getAddress this1 s1)))
        = S (address_queries (trace s1))).
Proof.
  intros Hunset Hsdk.
  unfold ThirdwebSigner.getAddress at 1. rewrite Hunset.
  unfold bind, call_read, ret. rewrite Hsdk.
  eexists _, _. split; [reflexivity|].
  split.
  { cbn [trace record]. rewrite address_queries_app. simpl. lia. }
  split.
  - intros Hne. unfold ThirdwebSigner.getAddress, ThirdwebSigner.address_unset.
    cbn [ThirdwebSigner._address].
    apply String.eqb_neq in Hne. now rewrite Hne.
  - intros ->. unfold ThirdwebSigner.getAddress, ThirdwebSigner.address_unset.
    cbn [ThirdwebSigner._address ThirdwebSigner._sdk].
    change (String.eqb "" "") with true. cbv iota.
    unfold bind, call_read, ret. cbn [world record].
    destruct (sdk_wallet_getAddress (world s) (ThirdwebSigner._sdk this));
      cbn [snd trace record]; rewrite !address_queries_app; simpl; lia.
Qed.

(** X14.  [connect] does not copy what the instance has resolved: the instance it
    returns is bound to the provider, shares the phone and the SDK, derives
    no key again, and starts with an empty address, even when the instance
    it was made from had resolved its own. *)
Theorem ThirdwebSigner_connect_starts_unresolved
  (phone : string) (bound : option JsonRpcProvider) (p : JsonRpcProvider) (s : State) :
  exists this wallet s1 this' wallet' s2,
    ThirdwebSigner.constructor phone bound s = (Ok (this, wallet), s1)
    /\ ThirdwebSigner.connect (ThirdwebSigner.on_settled this wallet) p s1
       = (Ok (this', wallet'), s2)
    /\ ThirdwebSigner._phone this' = phone
    /\ ThirdwebSigner._sdk this' = ThirdwebSigner._sdk this
    /\ ThirdwebSigner.provider this' = Some p
    /\ ThirdwebSigner.address this' = ""
    /\ ThirdwebSigner._address this' = None
    /\ derivations phone (trace s2) = derivations phone (trace s1).
Proof.
  destruct (getSDKForUser_frame phone s) as (sdk & s0 & Hrun & Hin & _).
  assert (Hkeep : forall st, sdkCache st !! phone = Some sdk ->
                   sdkCache (snd (getOrCreateServerWallet phone st)) !! phone = Some sdk
                   /\ derivations phone (trace (snd (getOrCreateServerWallet phone st)))
                      = derivations phone (trace st)).
  { intros st Hst.
    unfold getOrCreateServerWallet, try_catch, bind, call_read, ret, throw.
    rewrite (getSDKForUser_hit _ _ _ Hst).
    destruct (sdk_wallet_getAddress (world st) sdk);
      cbn [snd sdkCache trace record]; rewrite derivations_app; simpl;
      (split; [exact Hst | lia]). }
  assert (Hctor : forall prov st,
             sdkCache st !! phone = Some sdk ->
             ThirdwebSigner.constructor phone prov st
             = (Ok (ThirdwebSigner.mk phone sdk None "" prov,
                    fst (getOrCreateServerWallet phone st)),
                snd (getOrCreateServerWallet phone st))).
  { intros prov st Hst.
    unfold ThirdwebSigner.constructor, bind, ThirdwebSigner.promise, ret.
    rewrite (getSDKForUser_hit _ _ _ Hst).
    now destruct (getOrCreateServerWallet phone st). }
  assert (Hfirst : ThirdwebSigner.constructor phone bound s
                   = (Ok (ThirdwebSigner.mk phone sdk None "" bound,
                          fst (getOrCreateServerWallet phone s0)),
                      snd (getOrCreateServerWallet phone s0))).
  { unfold ThirdwebSigner.constructor, bind, ThirdwebSigner.promise, ret.
    rewrite Hrun. now destruct (getOrCreateServerWallet phone s0). }
  destruct (Hkeep s0 Hin) as [Hin1 _].
  destruct (Hkeep _ Hin1) as [_ Hd].
  exists (ThirdwebSigner.mk phone sdk None "" bound),
         (fst (getOrCreateServerWallet phone s0)),
         (snd (getOrCreateServerWallet phone s0)),
         (ThirdwebSigner.mk phone sdk None "" (Some p)),
         (fst (getOrCreateServerWallet phone (snd (getOrCreateServerWallet phone s0)))),
         (snd (getOrCreateServerWallet phone (snd (getOrCreateServerWallet phone s0)))).
  split; [exact Hfirst|].
  split.
  { unfold ThirdwebSigner.connect.
    replace (ThirdwebSigner._phone
               (ThirdwebSigner.on_settled (ThirdwebSigner.mk phone sdk None "" bound)
                                          (fst (getOrCreateServerWallet phone s0))))
      with phone by (destruct (fst (getOrCreateServerWallet phone s0)); reflexivity).
    now apply Hctor. }
  cbn [ThirdwebSigner._phone ThirdwebSigner._sdk ThirdwebSigner.provider
       ThirdwebSigner.address ThirdwebSigner._address].
  auto 10.
Qed.

(** X15.  Without a provider [sendTransaction] fails before it reaches the SDK,
    with a plain [Error], and changes nothing; with one it calls the SDK
    exactly once and returns what the SDK returns, or its error wrapped. *)
Theorem ThirdwebSigner_sendTransaction_needs_provider
  (this : ThirdwebSigner.t) (transaction : JsValue) (s : State) :
  (ThirdwebSigner.provider this = None ->
   ThirdwebSigner.sendTransaction this transaction s
   = (Throw (Error "Failed to send transaction: Provider required to send transaction"), s))
  /\ (forall p, ThirdwebSigner.provider this = Some p ->
        sdk_sends (trace (snd (ThirdwebSigner.sendTransaction this transaction s)))
        = S (sdk_sends (trace s))
        /\ fst (ThirdwebSigner.sendTransaction this transaction s)
           = match fst (sdk_wallet_sendRawTransaction (world s) (ThirdwebSigner._sdk this)
                                                      transaction) with
             | Ok tx => Ok tx
             | Throw e => Throw (Error ("Failed to send transaction: " +:+ err_message e))
             end).
Proof.
  unfold ThirdwebSigner.sendTransaction, try_catch, call, throw. split.
  - intros ->. reflexivity.
  - intros p ->.
    destruct (sdk_wallet_sendRawTransaction (world s) (ThirdwebSigner._sdk this) transaction)
      as [[tx|e] w]; cbn [fst snd trace set_world record];
      rewrite sdk_sends_app; simpl; split; (lia || reflexivity).
Qed.

End SignerAdapterFacts.

Lemma ThirdwebSigner_getAddress_memoizes_witness :
  exists this1 s1,
    ThirdwebSigner.getAddress
      (ThirdwebSigner.mk Simulation.tenant
         (fromPrivateKey (Simulation.sim_hash
                            (or_string (Simulation.deployed "POLYMARKET_PRIVATE_KEY") "")
                            Simulation.tenant) "polygon")
         None "" None)
      (Simulation.boot (Simulation.chain 0 0))
    = (Ok (Simulation.tenant_address, this1), s1)
    /\ fst (ThirdwebSigner.getAddress this1 s1) = Ok (Simulation.tenant_address, this1)
    /\ address_queries (trace (snd (ThirdwebSigner.getAddress this1 s1))) = 1%nat.
Proof.
  destruct (ThirdwebSigner_getAddress_memoizes (E := Simulation.deployment)
              (ThirdwebSigner.mk Simulation.tenant
                 (fromPrivateKey (Simulation.sim_hash
                                    (or_string (Simulation.deployed "POLYMARKET_PRIVATE_KEY") "")
                                    Simulation.tenant) "polygon")
                 None "" None)
              (Simulation.boot (Simulation.chain 0 0))
              Simulation.tenant_address eq_refl eq_refl)
    as (this1 & s1 & Hrun & Hq & Hmemo & _).
  exists this1, s1. split; [exact Hrun|].
  rewrite Hmemo by (vm_compute; discriminate).
  cbn [fst snd]. split; [reflexivity | exact Hq].
Defined.

Lemma ThirdwebSigner_sendTransaction_needs_provider_witness :
  fst (ThirdwebSigner.sendTransaction
         (ThirdwebSigner.mk Simulation.tenant (fromPrivateKey "0x01" "polygon")
                            None "" None)
         JsNull (Simulation.boot (Simulation.chain 0 0)))
  = Throw (Error "Failed to send transaction: Provider required to send transaction").
Proof.
  destruct (ThirdwebSigner_sendTransaction_needs_provider (E := Simulation.deployment)
              (ThirdwebSigner.mk Simulation.tenant (fromPrivateKey "0x01" "polygon")
                                 None "" None)
              JsNull (Simulation.boot (Simulation.chain 0 0))) as [Hnone _].
  now rewrite (Hnone eq_refl).
Defined.

(* ===================================================================== *)
(** * More on the market listing                                           *)
(* ===================================================================== *)

Section GammaRequestFacts.
Context `{E : Externals}.

Lemma searchParams_set_fresh (k v : string) (ps : list (string * string)) :
  ~ In k (List.map fst ps) -> searchParams_set k v ps = (ps ++ [(k, v)])%list.
Proof.
  induction ps as [|[k' v'] ps IH]; intros Hfresh; [reflexivity|].
  cbn [searchParams_set]. cbn [List.map fst In] in Hfresh.
  destruct (String.eqb k' k) eqn:Hk.
  - apply String.eqb_eq in Hk. exfalso. apply Hfresh. now left.
  - rewrite IH; [reflexivity|]. intros Hin. apply Hfresh. now right.
Qed.

Lemma with_params_fresh (base path : string) (params : list (string * JsValue))
      (acc : list (string * string)) :
  List.NoDup (List.map fst acc ++ List.map fst params)%list ->
  with_params (mkURL base path acc) params
  = mkURL base path (acc ++ defined_params params)%list.
Proof.
  revert acc. induction params as [|[k v] params IH]; intros acc Hnd.
  - unfold defined_params. cbn. now rewrite app_nil_r.
  - unfold with_params. cbn [fold_left fst snd].
    assert (Hk : ~ In k (List.map fst acc)).
    { intros Hin. apply List.NoDup_remove_2 in Hnd. apply Hnd.
      apply List.in_or_app. now left. }
    assert (Hrest : List.NoDup (List.map fst acc ++ List.map fst params)%list).
    { now apply List.NoDup_remove_1 in Hnd. }
    destruct v; cbn [url_base url_path url_searchParams].
    1: { fold (with_params (mkURL base path acc) params).
         rewrite (IH acc Hrest). reflexivity. }
    all: rewrite (searchParams_set_fresh _ _ _ Hk);
      match goal with
      | |- fold_left _ _ (mkURL ?b ?p (?a ++ [(?k0, ?x)])%list) = _ =>
          fold (with_params (mkURL b p (a ++ [(k0, x)])%list) params);
          rewrite (IH (a ++ [(k0, x)])%list);
          [ unfold defined_params; cbn [List.filter List.map fst snd];
            now rewrite <- app_assoc
          | rewrite List.map_app, <- app_assoc; exact Hnd ]
      end.
Qed.

Lemma gammaGet_run (path : string) (params : list (string * JsValue)) (s : State) :
  gammaGet path params s =
  let url := URL_toString (with_params (mkURL GAMMA_HOST path []) params) in
  let s1 := record (EvFetch url) s in
  match http_fetch (world s) url with
  | (Throw e, w) => (Throw e, set_world w s1)
  | (Ok res, w) =>
      if res_ok res then (JSON_parse (res_text res), set_world w s1)
      else (Throw (Error ("Gamma error " +:+ NumberToString (num_of_Z (res_status res))
                          +:+ ": " +:+ res_text res)), set_world w s1)
  end.
Proof.
  unfold gammaGet, bind, call, throw, lift. cbv zeta.
  destruct (http_fetch (world s)
              (URL_toString (with_params (mkURL GAMMA_HOST path []) params)))
    as [[res|e] w]; [|reflexivity].
  destruct (res_ok res); reflexivity.
Qed.

(** X16.  [gammaGet] makes one request and nothing else.  With parameter names
    that are all different, the query holds the parameters that are not
    [undefined], in their order, as strings.  A reply that is not [ok] is
    thrown as an [Error] that quotes the status and the body; the body of an
    [ok] reply is parsed and returned. *)
Theorem gammaGet_request (path : string) (params : list (string * JsValue)) (s : State) :
  List.NoDup (List.map fst params) ->
  let url := URL_toString (mkURL GAMMA_HOST path (defined_params params)) in
  trace (snd (gammaGet path params s)) = (trace s ++ [EvFetch url])%list
  /\ apiCredsCache (snd (gammaGet path params s)) = apiCredsCache s
  /\ sdkCache (snd (gammaGet path params s)) = sdkCache s
  /\ (forall res w, http_fetch (world s) url = (Ok res, w) ->
        fst (gammaGet path params s)
        = if res_ok res then JSON_parse (res_text res)
          else Throw (Error ("Gamma error " +:+ NumberToString (num_of_Z (res_status res))
                             +:+ ": " +:+ res_text res)))
  /\ (forall e w, http_fetch (world s) url = (Throw e, w) ->
        fst (gammaGet path params s) = Throw e).
Proof.
  intros Hnd. cbv zeta. rewrite gammaGet_run.
  rewrite (with_params_fresh GAMMA_HOST path params [] Hnd).
  change ([] ++ defined_params params)%list with (defined_params params). cbv zeta.
  destruct (http_fetch (world s)
              (URL_toString (mkURL GAMMA_HOST path (defined_params params))))
    as [[res|e] w].
  - destruct (res_ok res) eqn:Hok;
      cbn [fst snd trace apiCredsCache sdkCache set_world record];
      (split; [reflexivity|]); (split; [reflexivity|]); (split; [reflexivity|]);
      (split; [|intros e w' [=]]); intros res' w' [= <- <-]; now rewrite Hok.
  - cbn [fst snd trace apiCredsCache sdkCache set_world record].
    split; [reflexivity|]. split; [reflexivity|]. split; [reflexivity|].
    split; [intros res w' [=]|]. now intros e' w' [= <- <-].
Qed.

Lemma push_markets_objects (ev : JsValue) (evMarkets markets : list JsValue) :
  forallb (fun m => negb (nullish m)) evMarkets = true ->
  push_markets ev evMarkets markets
  = Ok (markets ++ List.map (market_object ev) evMarkets)%list.
Proof.
  revert markets. induction evMarkets as [|m rest IH]; intros markets H.
  - cbn. now rewrite app_nil_r.
  - cbn [forallb] in H. apply andb_true_iff in H as [Hm Hrest].
    cbn [push_markets List.map]. unfold flat_market.
    apply negb_true_iff in Hm. rewrite Hm.
    fold (market_object ev m). rewrite (IH _ Hrest). now rewrite <- app_assoc.
Qed.

Lemma push_markets_null (ev : JsValue) (evMarkets markets : list JsValue) :
  existsb nullish evMarkets = true ->
  exists e, push_markets ev evMarkets markets = Throw e /\ err_name e = "TypeError".
Proof.
  revert markets. induction evMarkets as [|m rest IH]; intros markets H; [discriminate|].
  cbn [existsb] in H. cbn [push_markets]. unfold flat_market.
  destruct (nullish m) eqn:Hm.
  - eexists. split; reflexivity.
  - cbn in H. now apply IH.
Qed.

Lemma flatten_all_markets (events markets : list JsValue) :
  forallb well_formed_event events = true ->
  flatten events markets = Ok (markets ++ all_markets events)%list.
Proof.
  revert markets. induction events as [|ev rest IH]; intros markets H.
  - cbn. now rewrite app_nil_r.
  - cbn [forallb] in H. apply andb_true_iff in H as [Hev Hrest].
    cbn [flatten]. unfold all_markets. cbn [flat_map].
    fold (all_markets rest). unfold event_markets.
    unfold well_formed_event in Hev.
    destruct (markets_of ev) as [| | | | | |ms]; cbn [push_markets List.map app];
      try (rewrite (IH markets Hrest); reflexivity).
    rewrite (push_markets_objects ev ms markets Hev), (IH _ Hrest).
    now rewrite <- app_assoc.
Qed.

Lemma flatten_null_market (events markets : list JsValue) :
  existsb (fun ev => existsb nullish (event_markets ev)) events = true ->
  exists e, flatten events markets = Throw e /\ err_name e = "TypeError".
Proof.
  revert markets. induction events as [|ev rest IH]; intros markets H; [discriminate|].
  cbn [existsb] in H. cbn [flatten].
  destruct (existsb nullish (event_markets ev)) eqn:Hev.
  - unfold event_markets in Hev.
    destruct (push_markets_null ev _ markets Hev) as (e & -> & Hname).
    now exists e.
  - cbn in H.
    destruct (push_markets ev match markets_of ev with
                              | JsArray ms => ms
                              | _ => []
                              end markets) as [markets'|e] eqn:Hpush.
    + now apply IH.
    + exfalso.
      assert (Hwf : forallb (fun m => negb (nullish m)) (event_markets ev) = true).
      { clear -Hev. induction (event_markets ev) as [|m l IHl]; [reflexivity|].
        cbn in *. apply orb_false_iff in Hev as [-> Hl]. now rewrite IHl. }
      unfold event_markets in Hwf.
      rewrite (push_markets_objects ev _ markets Hwf) in Hpush. discriminate.
Qed.

(** X17.  The list [gammaTopMarkets] returns is the beginning of the markets of
    all events, event by event and in the order received, each with the id,
    title and slug of its event.  A market that is [null] anywhere in the
    reply, even past the limit, makes the call throw a [TypeError]. *)
Theorem gammaTopMarkets_first_markets
  (limit : JsValue) (s : State) (res : HttpResponse) (w : World) (evs : list JsValue) :
  http_fetch (world s) (events_url limit) = (Ok res, w) ->
  res_ok res = true ->
  JSON_parse (res_text res) = Ok (JsArray evs) ->
  (forallb well_formed_event evs = true ->
   exists markets rest,
     fst (gammaTopMarkets limit s) = Ok markets
     /\ all_markets evs = (markets ++ rest)%list
     /\ (length markets <= 50)%nat)
  /\ (existsb (fun ev => existsb nullish (event_markets ev)) evs = true ->
      exists e, fst (gammaTopMarkets limit s) = Throw e /\ err_name e = "TypeError").
Proof.
  intros Hfetch Hok Hparse.
  rewrite gammaTopMarkets_run. cbv zeta. rewrite Hfetch, Hok, Hparse.
  cbn [negb iterate]. split.
  - intros Hwf. rewrite (flatten_all_markets evs [] Hwf). cbn [app fst].
    destruct (safeLimit_range limit) as (q & Hq & H1 & H50).
    exists (slice0 (all_markets evs) (safeLimit limit)).
    rewrite Hq.
    pose proof (length_slice0 (all_markets evs) q H1) as Hlen.
    pose proof (Qtrunc_range q H1 H50) as Hrange.
    unfold slice0 in *.
    eexists. split; [reflexivity|].
    split; [symmetry; apply take_drop | lia].
  - intros Hnull. destruct (flatten_null_market evs [] Hnull) as (e & -> & Hname).
    now exists e.
Qed.


End GammaRequestFacts.

Lemma gammaGet_request_witness :
  trace (snd (gammaGet (E := Simulation.deployment) "/events"
                [("order", JsString "id"); ("cursor", JsUndefined);
                 ("limit", JsNumber (Fin 5))]
                (Simulation.boot
                   (Simulation.market_service (Ok (mkHttpResponse false 503 "busy"))))))
  = [EvFetch "https://gamma-api.polymarket.com/events?order=id&limit=5"]
  /\ fst (gammaGet (E := Simulation.deployment) "/events"
            [("order", JsString "id"); ("cursor", JsUndefined);
             ("limit", JsNumber (Fin 5))]
            (Simulation.boot
               (Simulation.market_service (Ok (mkHttpResponse false 503 "busy")))))
     = Throw (Error "Gamma error 503: busy").
Proof.
  destruct (gammaGet_request (E := Simulation.deployment) "/events"
              [("order", JsString "id"); ("cursor", JsUndefined);
               ("limit", JsNumber (Fin 5))]
              (Simulation.boot
                 (Simulation.market_service (Ok (mkHttpResponse false 503 "busy")))))
    as (Htrace & _ & _ & Hreply & _).
  { repeat constructor; cbn; intuition discriminate. }
  split.
  - rewrite Htrace. vm_compute. reflexivity.
  - rewrite (Hreply (mkHttpResponse false 503 "busy")
                    (Simulation.market_service (Ok (mkHttpResponse false 503 "busy")))).
    + vm_compute. reflexivity.
    + vm_compute. reflexivity.
Defined.

Lemma gammaTopMarkets_first_markets_witness :
  exists markets rest,
    fst (gammaTopMarkets (E := Simulation.deployment) (JsNumber (Fin 2))
           (Simulation.boot
              (Simulation.market_service (Ok (mkHttpResponse true 200 "[e1,e2]")))))
    = Ok markets
    /\ all_markets
         [JsObject [("id", JsString "e1"); ("title", JsString "Election");
                    ("markets", JsArray [JsObject [("id", JsString "m1")];
                                         JsObject [("id", JsString "m2")]])];
          JsObject [("id", JsString "e2");
                    ("markets", JsArray [JsObject [("id", JsString "m3")]])]]
       = (markets ++ rest)%list
    /\ length markets = 2%nat /\ length rest = 1%nat.
Proof.
  destruct (gammaTopMarkets_first_markets (E := Simulation.deployment) (JsNumber (Fin 2))
              (Simulation.boot
                 (Simulation.market_service (Ok (mkHttpResponse true 200 "[e1,e2]"))))
              (mkHttpResponse true 200 "[e1,e2]")
              (Simulation.market_service (Ok (mkHttpResponse true 200 "[e1,e2]")))
              [JsObject [("id", JsString "e1"); ("title", JsString "Election");
                         ("markets", JsArray [JsObject [("id", JsString "m1")];
                                              JsObject [("id", JsString "m2")]])];
               JsObject [("id", JsString "e2");
                         ("markets", JsArray [JsObject [("id", JsString "m3")]])]])
    as [Hfirst _]; try (vm_compute; reflexivity).
  destruct Hfirst as (markets & rest & Hrun & Hall & _); [vm_compute; reflexivity|].
  exists markets, rest. split; [exact Hrun|]. split; [exact Hall|].
  assert (Hm : Ok markets
               = fst (gammaTopMarkets (E := Simulation.deployment) (JsNumber (Fin 2))
                        (Simulation.boot
                           (Simulation.market_service
                              (Ok (mkHttpResponse true 200 "[e1,e2]"))))))
    by (now rewrite Hrun).
  vm_compute in Hm. injection Hm as ->.
  vm_compute in Hall. injection Hall as <-. split; reflexivity.
Defined.

(* ===================================================================== *)
(** * More on the executor token                                           *)
(* ===================================================================== *)



(* ===================================================================== *)
(** * On-chain approvals                                                   *)
(* ===================================================================== *)

Section OnchainFacts.
Context `{E : Externals} {O : OnchainExternals E}.

Lemma mustEnv_Ok (name v : string) :
  mustEnv name = Ok v ->
  exists raw, env name = Some raw /\ v = trim raw /\ v <> "" /\ trim v = v.
Proof.
  unfold mustEnv, or_string.
  destruct (env name) as [raw|].
  - destruct (String.eqb raw "") eqn:Hraw.
    + apply String.eqb_eq in Hraw. subst raw. discriminate.
    + destruct (String.eqb (trim raw) "") eqn:Ht; [discriminate|].
      intros [= <-]. exists raw. apply String.eqb_neq in Ht.
      repeat split; [exact Ht | apply trim_idempotent].
  - discriminate.
Qed.

Lemma mustEnv_Throw (name : string) (e : JsError) :
  mustEnv name = Throw e -> e = Error ("Missing " +:+ name +:+ " in env").
Proof.
  unfold mustEnv. destruct (String.eqb _ ""); [now intros [= <-] | discriminate].
Qed.

Lemma normalizeAddress_Ok (raw name a : string) :
  normalizeAddress raw name = Ok a -> utils_getAddress (trim raw) = Ok a.
Proof.
  unfold normalizeAddress. destruct (utils_getAddress (trim raw)); [congruence | discriminate].
Qed.

Lemma configured_address (name a : string) :
  and_then (mustEnv name) (fun v => normalizeAddress v name) = Ok a ->
  exists raw, env name = Some raw /\ trim raw <> ""
              /\ utils_getAddress (trim raw) = Ok a.
Proof.
  unfold and_then. destruct (mustEnv name) as [v|e] eqn:Hv; [|discriminate].
  intros Ha. apply mustEnv_Ok in Hv as (raw & Henv & -> & Hne & Hidem).
  apply normalizeAddress_Ok in Ha. rewrite Hidem in Ha. eauto.
Qed.

(** X20.  The module loads only in an environment that sets the three contract
    addresses and the private key to values that are not blank.  The
    constants it keeps are the checksummed forms of the trimmed addresses and
    the trimmed key; an address that is set but not valid stops the load. *)
Theorem load_onchain_needs_configuration (m : OnchainModule) :
  load_onchain = Ok m ->
  (exists raw, env "POLY_EXCHANGE_ADDRESS" = Some raw /\ trim raw <> ""
               /\ utils_getAddress (trim raw) = Ok (EXCHANGE m))
  /\ (exists raw, env "POLY_CTF_ADDRESS" = Some raw /\ trim raw <> ""
                  /\ utils_getAddress (trim raw) = Ok (CTF m))
  /\ (exists raw, env "POLY_COLLATERAL_TOKEN_ADDRESS" = Some raw /\ trim raw <> ""
                  /\ utils_getAddress (trim raw) = Ok (COLLATERAL m))
  /\ (exists raw, env "POLYMARKET_PRIVATE_KEY" = Some raw /\ trim raw <> ""
                  /\ PRIVATE_KEY m = trim raw).
Proof.
  unfold load_onchain. cbv zeta.
  destruct (and_then (mustEnv "POLY_EXCHANGE_ADDRESS")
                     (fun v => normalizeAddress v "POLY_EXCHANGE_ADDRESS"))
    as [ex|e] eqn:Hex; [|discriminate].
  destruct (and_then (mustEnv "POLY_CTF_ADDRESS")
                     (fun v => normalizeAddress v "POLY_CTF_ADDRESS"))
    as [ctf|e] eqn:Hctf; [|discriminate].
  destruct (and_then (mustEnv "POLY_COLLATERAL_TOKEN_ADDRESS")
                     (fun v => normalizeAddress v "POLY_COLLATERAL_TOKEN_ADDRESS"))
    as [col|e] eqn:Hcol; [|discriminate].
  cbn [and_then].
  destruct (String.eqb (trim (or_string (env "POLYMARKET_PRIVATE_KEY") "")) "") eqn:Hkey;
    [discriminate|].
  intros [= <-]. cbn [EXCHANGE CTF COLLATERAL PRIVATE_KEY].
  split; [now apply configured_address|].
  split; [now apply configured_address|].
  split; [now apply configured_address|].
  apply String.eqb_neq in Hkey. unfold or_string in *.
  destruct (env "POLYMARKET_PRIVATE_KEY") as [raw|]; [|now elim Hkey].
  exists raw. destruct (String.eqb raw "") eqn:Hraw.
  - now elim Hkey.
  - auto.
Qed.

(** ** Spenders *)

Lemma normalize_all_Throw (xs : list string) (e : JsError) :
  normalize_all xs = Throw e -> e = Error "Invalid address in spender".
Proof.
  induction xs as [|x rest IH]; [discriminate|].
  cbn [normalize_all]. unfold and_then, normalizeAddress.
  destruct (utils_getAddress (trim x)); [|now intros [= <-]].
  destruct (normalize_all rest); [discriminate|].
  intros [= <-]. now apply IH.
Qed.

Lemma normalize_all_invalid (xs : list string) (x : string) (e : JsError) :
  In x xs -> utils_getAddress (trim x) = Throw e ->
  normalize_all xs = Throw (Error "Invalid address in spender").
Proof.
  induction xs as [|y rest IH]; intros Hin Hx; [destruct Hin|].
  cbn [normalize_all]. unfold and_then at 1.
  destruct (normalizeAddress y "spender") as [a|e0] eqn:Hy.
  - destruct Hin as [->|Hin].
    + unfold normalizeAddress in Hy. rewrite Hx in Hy. discriminate.
    + now rewrite (IH Hin Hx).
  - unfold normalizeAddress in Hy.
    destruct (utils_getAddress (trim y)); [discriminate|].
    injection Hy as <-. reflexivity.
Qed.

Lemma normalize_all_Ok (xs l : list string) :
  normalize_all xs = Ok l ->
  forall a, In a l -> exists x, In x xs /\ utils_getAddress (trim x) = Ok a.
Proof.
  revert l. induction xs as [|x rest IH]; intros l.
  - intros [= <-] a [].
  - cbn [normalize_all]. unfold and_then.
    destruct (normalizeAddress x "spender") as [a0|] eqn:Hx; [|discriminate].
    destruct (normalize_all rest) as [l0|]; [|discriminate].
    intros [= <-] a [<-|Hin].
    + exists x. split; [now left | now apply normalizeAddress_Ok in Hx].
    + destruct (IH l0 eq_refl a Hin) as (y & Hy & Hok). exists y. split; [now right | exact Hok].
Qed.

Lemma Set_add_spec (set : list string) (x : string) :
  NoDup set ->
  NoDup (Set_add set x)
  /\ (forall y, y ∈ Set_add set x <-> y ∈ set \/ y = x)
  /\ exists tail, Set_add set x = (set ++ tail)%list.
Proof.
  intros Hnd. unfold Set_add.
  destruct (existsb (String.eqb x) set) eqn:Hex.
  - apply existsb_exists in Hex as (z & Hz & Heq). apply String.eqb_eq in Heq. subst z.
    split; [exact Hnd|]. split.
    + intros y. split; [auto|]. intros [H| ->]; [exact H | now apply list_elem_of_In].
    + exists []. now rewrite app_nil_r.
  - assert (Hnot : x ∉ set).
    { intros Hin. apply list_elem_of_In in Hin.
      assert (existsb (String.eqb x) set = true)
        by (apply existsb_exists; exists x; split; [exact Hin | apply String.eqb_refl]).
      congruence. }
    split.
    + apply NoDup_app. split; [exact Hnd|]. split; [|apply NoDup_singleton].
      intros y Hy Hy'. apply list_elem_of_singleton in Hy'. now subst.
    + split; [|now exists [x]].
      intros y. rewrite elem_of_app, list_elem_of_singleton. tauto.
Qed.

Lemma fold_Set_add_spec (xs set : list string) :
  NoDup set ->
  NoDup (fold_left Set_add xs set)
  /\ (forall y, y ∈ fold_left Set_add xs set <-> y ∈ set \/ y ∈ xs)
  /\ exists tail, fold_left Set_add xs set = (set ++ tail)%list.
Proof.
  revert set. induction xs as [|x rest IH]; intros set Hnd.
  - cbn. split; [exact Hnd|]. split.
    + intros y. rewrite elem_of_nil. tauto.
    + exists []. now rewrite app_nil_r.
  - cbn [fold_left].
    destruct (Set_add_spec set x Hnd) as (Hnd1 & Hmem1 & tail1 & Htail1).
    destruct (IH _ Hnd1) as (Hnd2 & Hmem2 & tail2 & Htail2).
    split; [exact Hnd2|]. split.
    + intros y. rewrite Hmem2, Hmem1, elem_of_cons. tauto.
    + exists (tail1 ++ tail2)%list. now rewrite Htail2, Htail1, <- app_assoc.
Qed.

(** [Array.from(new Set(xs))]: no element twice, the same elements, and the
    first element first. *)
Lemma unique_spec (x : string) (xs : list string) :
  NoDup (unique (x :: xs))
  /\ (forall y, y ∈ unique (x :: xs) <-> y ∈ x :: xs)
  /\ exists tail, unique (x :: xs) = x :: tail.
Proof.
  unfold unique. cbn [fold_left]. change (Set_add [] x) with [x].
  destruct (fold_Set_add_spec xs [x] (NoDup_singleton x)) as (Hnd & Hmem & tail & Htail).
  split; [exact Hnd|]. split.
  - intros y. rewrite Hmem, list_elem_of_singleton, elem_of_cons. tauto.
  - exists tail. exact Htail.
Qed.

End OnchainFacts.

Section OnchainRunFacts.
Context `{E : Externals} {O : OnchainExternals E}.

Lemma approved_spenders_app (a b : list ChainCall) :
  approved_spenders (a ++ b)%list = (approved_spenders a ++ approved_spenders b)%list.
Proof.
  induction a as [|c a IH]; [reflexivity|].
  destruct c; cbn; now rewrite IH.
Qed.

Lemma gas_price_floor (gp : Z) :
  (GAS_PRICE_FLOOR <= (if (gp <? GAS_PRICE_FLOOR)%Z then GAS_PRICE_FLOOR else gp))%Z.
Proof.
  destruct (gp <? GAS_PRICE_FLOOR)%Z eqn:H; [lia | now apply Z.ltb_ge in H].
Qed.

(** One turn of the loop over the spenders, call by call. *)
Lemma approve_each_cons (m : OnchainModule) (owner sp : string) (rest : list string)
      (approvals : list Approval) (l : Ledger) :
  approve_each m owner (sp :: rest) approvals l
  = let c1 := (ledger_calls l ++ [CallAllowance (COLLATERAL m) owner sp])%list in
    match erc20_allowance (ledger_world l) (COLLATERAL m) owner sp with
    | Throw e => (Throw e, mkLedger (ledger_world l) c1)
    | Ok current =>
        if (MAXISH_ALLOWANCE <? current)%Z then
          approve_each m owner rest (approvals ++ [mkApproval sp true None])%list
                       (mkLedger (ledger_world l) c1)
        else
          let c2 := (c1 ++ [CallGasPrice])%list in
          match provider_getGasPrice (ledger_world l) with
          | Throw e => (Throw e, mkLedger (ledger_world l) c2)
          | Ok gp =>
              let gasPrice := if (gp <? GAS_PRICE_FLOOR)%Z then GAS_PRICE_FLOOR else gp in
              let c3 := (c2 ++ [CallApprove (COLLATERAL m) sp MAX_UINT256 gasPrice])%list in
              match erc20_approve (ledger_world l) (PRIVATE_KEY m) (COLLATERAL m) sp
                                  MAX_UINT256 gasPrice with
              | (Throw e, w1) => (Throw e, mkLedger w1 c3)
              | (Ok tx, w1) =>
                  let c4 := (c3 ++ [CallWait tx])%list in
                  match tx_wait w1 tx with
                  | (Throw e, w2) => (Throw e, mkLedger w2 c4)
                  | (Ok _, w2) =>
                      approve_each m owner rest
                                   (approvals ++ [mkApproval sp false (Some tx)])%list
                                   (mkLedger w2 c4)
                  end
              end
          end
    end.
Proof.
  cbn [approve_each]. unfold t_bind at 1. unfold t_read at 1.
  destruct (erc20_allowance (ledger_world l) (COLLATERAL m) owner sp) as [current|e];
    [|reflexivity].
  cbv zeta. destruct (MAXISH_ALLOWANCE <? current)%Z; [reflexivity|].
  unfold t_bind at 1. unfold txOverrides, t_bind at 1, t_read, t_ret.
  cbn [ledger_world ledger_calls].
  destruct (provider_getGasPrice (ledger_world l)) as [gp|e]; [|reflexivity].
  unfold t_bind at 1. unfold t_call at 1. cbn [ledger_world ledger_calls].
  destruct (erc20_approve (ledger_world l) (PRIVATE_KEY m) (COLLATERAL m) sp MAX_UINT256
                          (if (gp <? GAS_PRICE_FLOOR)%Z then GAS_PRICE_FLOOR else gp))
    as [[tx|e] w1]; [|reflexivity].
  unfold t_bind at 1. unfold chain_wait, t_call at 1. cbn [ledger_world ledger_calls].
  destruct (tx_wait w1 tx) as [[u|e] w2]; reflexivity.
Qed.

(** The loop over the spenders: the calls it adds, and the entries it adds
    when it completes. *)
Lemma approve_each_spec (m : OnchainModule) (owner : string) (spenders : list string) :
  forall (approvals : list Approval) (l : Ledger),
  exists new,
    ledger_calls (snd (approve_each m owner spenders approvals l))
    = (ledger_calls l ++ new)%list
    /\ Forall (safe_call m) new
    /\ approved_spenders new `sublist_of` spenders
    /\ forall out,
        fst (approve_each m owner spenders approvals l) = Ok out ->
        exists added,
          out = (approvals ++ added)%list
          /\ List.map spender added = spenders
          /\ Forall (fun a => alreadyOk a
                              = match txHash a with Some _ => false | None => true end)
                    added
          /\ List.map spender (List.filter (fun a => negb (alreadyOk a)) added)
             = approved_spenders new.
Proof.
  induction spenders as [|sp rest IH]; intros approvals l.
  - exists []. cbn. rewrite app_nil_r.
    split; [reflexivity|]. split; [constructor|]. split; [constructor|].
    intros out [= <-]. exists []. rewrite app_nil_r. repeat split. constructor.
  - rewrite approve_each_cons. cbv zeta.
    destruct (erc20_allowance (ledger_world l) (COLLATERAL m) owner sp) as [current|e].
    2: { exists [CallAllowance (COLLATERAL m) owner sp]. cbn.
         split; [reflexivity|]. split; [repeat constructor|].
         split; [apply sublist_nil_l|]. intros out [=]. }
    destruct (MAXISH_ALLOWANCE <? current)%Z.
    + destruct (IH (approvals ++ [mkApproval sp true None])%list
                   (mkLedger (ledger_world l)
                             (ledger_calls l ++ [CallAllowance (COLLATERAL m) owner sp])))
        as (new' & Hcalls & Hsafe & Hsub & Hout).
      exists (CallAllowance (COLLATERAL m) owner sp :: new').
      cbn [ledger_calls ledger_world] in Hcalls.
      split; [rewrite Hcalls, <- app_assoc; reflexivity|].
      split; [constructor; [exact I | exact Hsafe]|].
      split; [cbn [approved_spenders]; now apply sublist_cons|].
      intros out Hrun. destruct (Hout out Hrun) as (added & -> & Hmap & Hall & Hfil).
      exists (mkApproval sp true None :: added).
      split; [now rewrite <- app_assoc|].
      split; [cbn; now rewrite Hmap|].
      split; [constructor; [reflexivity | exact Hall]|].
      cbn. exact Hfil.
    + destruct (provider_getGasPrice (ledger_world l)) as [gp|e].
      2: { exists [CallAllowance (COLLATERAL m) owner sp; CallGasPrice]. cbn.
           split; [now rewrite <- app_assoc|]. split; [repeat constructor|].
           split; [apply sublist_nil_l|]. intros out [=]. }
      assert (Hgas := gas_price_floor gp).
      set (gasPrice := if (gp <? GAS_PRICE_FLOOR)%Z then GAS_PRICE_FLOOR else gp) in *.
      destruct (erc20_approve (ledger_world l) (PRIVATE_KEY m) (COLLATERAL m) sp
                              MAX_UINT256 gasPrice) as [[tx|e] w1].
      2: { exists [CallAllowance (COLLATERAL m) owner sp; CallGasPrice;
                   CallApprove (COLLATERAL m) sp MAX_UINT256 gasPrice].
           cbn [snd fst ledger_calls].
           split; [now rewrite <- !app_assoc|].
           split; [repeat constructor; exact Hgas|].
           split; [cbn; apply sublist_skip, sublist_nil_l|]. intros out [=]. }
      destruct (tx_wait w1 tx) as [[u|e] w2].
      2: { exists [CallAllowance (COLLATERAL m) owner sp; CallGasPrice;
                   CallApprove (COLLATERAL m) sp MAX_UINT256 gasPrice; CallWait tx].
           cbn [snd fst ledger_calls].
           split; [now rewrite <- !app_assoc|].
           split; [repeat constructor; exact Hgas|].
           split; [cbn; apply sublist_skip, sublist_nil_l|]. intros out [=]. }
      destruct (IH (approvals ++ [mkApproval sp false (Some tx)])%list
                   (mkLedger w2
                      ((((ledger_calls l ++ [CallAllowance (COLLATERAL m) owner sp])
                           ++ [CallGasPrice])
                          ++ [CallApprove (COLLATERAL m) sp MAX_UINT256 gasPrice])
                         ++ [CallWait tx])%list))
        as (new' & Hcalls & Hsafe & Hsub & Hout).
      exists ([CallAllowance (COLLATERAL m) owner sp; CallGasPrice;
               CallApprove (COLLATERAL m) sp MAX_UINT256 gasPrice; CallWait tx]
                ++ new')%list.
      cbn [ledger_calls ledger_world] in Hcalls.
      split; [rewrite Hcalls, <- !app_assoc; reflexivity|].
      split.
      { apply Forall_app. split; [repeat constructor; exact Hgas | exact Hsafe]. }
      split; [cbn; now apply sublist_skip|].
      intros out Hrun. destruct (Hout out Hrun) as (added & -> & Hmap & Hall & Hfil).
      exists (mkApproval sp false (Some tx) :: added).
      split; [now rewrite <- app_assoc|].
      split; [cbn; now rewrite Hmap|].
      split; [constructor; [reflexivity | exact Hall]|].
      cbn. now rewrite Hfil.
Qed.

Lemma normalize_all_Forall2 (xs l : list string) :
  normalize_all xs = Ok l ->
  Forall2 (fun x a => utils_getAddress (trim x) = Ok a) xs l.
Proof.
  revert l. induction xs as [|x rest IH]; intros l.
  - intros [= <-]. constructor.
  - cbn [normalize_all]. unfold and_then.
    destruct (normalizeAddress x "spender") as [a0|] eqn:Hx; [|discriminate].
    destruct (normalize_all rest) as [l0|]; [|discriminate].
    intros [= <-]. constructor; [now apply normalizeAddress_Ok in Hx | now apply IH].
Qed.

(** The statements of [enableTrading], call by call. *)
Lemma enableTrading_run (m : OnchainModule) (spenders : list string) (l : Ledger) :
  enableTrading m spenders l
  = let owner := computeAddress (PRIVATE_KEY m) in
    match normalize_all (EXCHANGE m :: spenders) with
    | Throw e => (Throw e, l)
    | Ok addrs =>
        match approve_each m owner (unique addrs) [] l with
        | (Throw e, l1) => (Throw e, l1)
        | (Ok approvals, l1) =>
            let c1 := (ledger_calls l1
                         ++ [CallIsApprovedForAll (CTF m) owner (EXCHANGE m)])%list in
            match erc1155_isApprovedForAll (ledger_world l1) (CTF m) owner (EXCHANGE m) with
            | Throw e => (Throw e, mkLedger (ledger_world l1) c1)
            | Ok true =>
                (Ok (mkEnableTradingResult owner (EXCHANGE m) approvals true None),
                 mkLedger (ledger_world l1) c1)
            | Ok false =>
                let c2 := (c1 ++ [CallGasPrice])%list in
                match provider_getGasPrice (ledger_world l1) with
                | Throw e => (Throw e, mkLedger (ledger_world l1) c2)
                | Ok gp =>
                    let gasPrice :=
                      if (gp <? GAS_PRICE_FLOOR)%Z then GAS_PRICE_FLOOR else gp in
                    let c3 := (c2 ++ [CallSetApprovalForAll (CTF m) (EXCHANGE m) true
                                                            gasPrice])%list in
                    match erc1155_setApprovalForAll (ledger_world l1) (PRIVATE_KEY m)
                                                    (CTF m) (EXCHANGE m) true gasPrice with
                    | (Throw e, w1) => (Throw e, mkLedger w1 c3)
                    | (Ok tx, w1) =>
                        let c4 := (c3 ++ [CallWait tx])%list in
                        match tx_wait w1 tx with
                        | (Throw e, w2) => (Throw e, mkLedger w2 c4)
                        | (Ok _, w2) =>
                            (Ok (mkEnableTradingResult owner (EXCHANGE m) approvals
                                                       false (Some tx)),
                             mkLedger w2 c4)
                        end
                    end
                end
            end
        end
    end.
Proof.
  unfold enableTrading. cbv zeta. unfold t_bind at 1. unfold t_lift at 1.
  destruct (normalize_all (EXCHANGE m :: spenders)) as [addrs|e]; [|reflexivity].
  cbn [and_then]. unfold t_bind at 1.
  destruct (approve_each m (computeAddress (PRIVATE_KEY m)) (unique addrs) [] l)
    as [[approvals|e] l1]; [|reflexivity].
  unfold t_bind at 1. unfold t_read at 1.
  destruct (erc1155_isApprovedForAll (ledger_world l1) (CTF m)
                                     (computeAddress (PRIVATE_KEY m)) (EXCHANGE m))
    as [[|]|e]; [reflexivity| |reflexivity].
  unfold t_bind at 1. unfold txOverrides, t_bind at 1, t_read, t_ret.
  cbn [ledger_world ledger_calls].
  destruct (provider_getGasPrice (ledger_world l1)) as [gp|e]; [|reflexivity].
  unfold t_bind at 1. unfold t_call at 1. cbn [ledger_world ledger_calls].
  destruct (erc1155_setApprovalForAll (ledger_world l1) (PRIVATE_KEY m) (CTF m)
              (EXCHANGE m) true
              (if (gp <? GAS_PRICE_FLOOR)%Z then GAS_PRICE_FLOOR else gp))
    as [[tx|e] w1]; [|reflexivity].
  unfold t_bind at 1. unfold chain_wait, t_call at 1. cbn [ledger_world ledger_calls].
  destruct (tx_wait w1 tx) as [[u|e] w2]; reflexivity.
Qed.

(** X21.  A spender (or an exchange constant) that is not a valid address stops
    [enableTrading] before any call to the chain: it throws
    ["Invalid address in spender"] and the chain and the log of calls are as
    before, whatever the other spenders are. *)
Theorem enableTrading_invalid_spender (m : OnchainModule) (spenders : list string)
        (x : string) (e : JsError) (l : Ledger) :
  In x (EXCHANGE m :: spenders) ->
  utils_getAddress (trim x) = Throw e ->
  enableTrading m spenders l = (Throw (Error "Invalid address in spender"), l).
Proof.
  intros Hin Hx. rewrite enableTrading_run. cbv zeta.
  now rewrite (normalize_all_invalid _ x e Hin Hx).
Qed.

(** X22.  Whatever [enableTrading] is given and however far it gets, the calls
    it adds to the log are reads, waits, approvals of the collateral token
    for the unlimited amount and the grant of the exchange as operator of the
    CTF token, each transaction at a gas price of at least 30 gwei; no
    spender is approved twice, and every approved spender is the checksummed
    form of the exchange or of a requested spender. *)
Theorem enableTrading_calls (m : OnchainModule) (spenders : list string) (l : Ledger) :
  exists new,
    ledger_calls (snd (enableTrading m spenders l)) = (ledger_calls l ++ new)%list
    /\ Forall (safe_call m) new
    /\ NoDup (approved_spenders new)
    /\ forall s, s ∈ approved_spenders new ->
                 exists x, In x (EXCHANGE m :: spenders)
                           /\ utils_getAddress (trim x) = Ok s.
Proof.
  rewrite enableTrading_run. cbv zeta.
  destruct (normalize_all (EXCHANGE m :: spenders)) as [addrs|e] eqn:Hn.
  2: { exists []. cbn. rewrite app_nil_r. split; [reflexivity|].
       split; [constructor|]. split; [constructor|]. intros s Hs. inversion Hs. }
  destruct addrs as [|a addrs0]; [cbn in Hn; unfold and_then in Hn;
    destruct (normalizeAddress (EXCHANGE m) "spender"); [|discriminate];
    destruct (normalize_all spenders); discriminate|].
  destruct (unique_spec a addrs0) as (Hnd & Hmem & _).
  destruct (approve_each_spec m (computeAddress (PRIVATE_KEY m)) (unique (a :: addrs0)) [] l)
    as (new1 & Hcalls & Hsafe & Hsub & _).
  assert (Hnd1 : NoDup (approved_spenders new1)) by (eapply sublist_NoDup; eassumption).
  assert (Hfrom : forall s, s ∈ approved_spenders new1 ->
                            exists x, In x (EXCHANGE m :: spenders)
                                      /\ utils_getAddress (trim x) = Ok s).
  { intros s Hs. apply (normalize_all_Ok _ _ Hn).
    apply list_elem_of_In, Hmem. eapply elem_of_sublist; eassumption. }
  assert (Hdone : forall tail,
             approved_spenders tail = [] -> Forall (safe_call m) tail ->
             Forall (safe_call m) (new1 ++ tail)%list
             /\ NoDup (approved_spenders (new1 ++ tail)%list)
             /\ forall s, s ∈ approved_spenders (new1 ++ tail)%list ->
                          exists x, In x (EXCHANGE m :: spenders)
                                    /\ utils_getAddress (trim x) = Ok s).
  { intros tail Htail Hsafe'. rewrite approved_spenders_app, Htail, app_nil_r.
    split; [apply Forall_app; now split|]. now split. }
  destruct (approve_each m (computeAddress (PRIVATE_KEY m)) (unique (a :: addrs0)) [] l)
    as [[approvals|e] l1]; cbn [snd] in Hcalls.
  2: { exists new1. split; [exact Hcalls|]. split; [exact Hsafe|]. now split. }
  destruct (erc1155_isApprovedForAll (ledger_world l1) (CTF m)
                                     (computeAddress (PRIVATE_KEY m)) (EXCHANGE m))
    as [[|]|e].
  1, 3: (eexists (new1 ++ [_])%list; cbn [snd ledger_calls];
         split; [now rewrite Hcalls, <- app_assoc|];
         apply Hdone; [reflexivity | repeat constructor]).
  destruct (provider_getGasPrice (ledger_world l1)) as [gp|e].
  2: { eexists (new1 ++ [_; _])%list; cbn [snd ledger_calls].
       split; [now rewrite Hcalls, <- !app_assoc|].
       apply Hdone; [reflexivity | repeat constructor]. }
  assert (Hgas := gas_price_floor gp).
  set (gasPrice := if (gp <? GAS_PRICE_FLOOR)%Z then GAS_PRICE_FLOOR else gp) in *.
  destruct (erc1155_setApprovalForAll (ledger_world l1) (PRIVATE_KEY m) (CTF m)
                                      (EXCHANGE m) true gasPrice) as [[tx|e] w1].
  2: { eexists (new1 ++ [_; _; _])%list; cbn [snd ledger_calls].
       split; [now rewrite Hcalls, <- !app_assoc|].
       apply Hdone; [reflexivity | repeat constructor; exact Hgas]. }
  destruct (tx_wait w1 tx) as [[u|e] w2];
    (eexists (new1 ++ [_; _; _; _])%list; cbn [snd ledger_calls];
     split; [now rewrite Hcalls, <- !app_assoc|];
     apply Hdone; [reflexivity | repeat constructor; exact Hgas]).
Qed.

(** X23.  The report of a completed [enableTrading]: the owner is the address of
    the configured key; the approvals list one entry per distinct checksummed
    address among the exchange and the requested spenders, the exchange
    first, no address twice; an entry carries a transaction hash exactly when
    it is not [alreadyOk], and those entries are, in order, the spenders for
    which an approval was sent; the CTF part carries a hash exactly when the
    exchange was not yet an operator. *)
Theorem enableTrading_report (m : OnchainModule) (spenders : list string) (l : Ledger)
        (out : EnableTradingResult) :
  fst (enableTrading m spenders l) = Ok out ->
  out_owner out = computeAddress (PRIVATE_KEY m)
  /\ out_exchange out = EXCHANGE m
  /\ NoDup (List.map spender (out_approvals out))
  /\ (exists a tail, utils_getAddress (trim (EXCHANGE m)) = Ok a
                     /\ List.map spender (out_approvals out) = a :: tail)
  /\ (forall s, s ∈ List.map spender (out_approvals out)
                <-> exists x, In x (EXCHANGE m :: spenders)
                              /\ utils_getAddress (trim x) = Ok s)
  /\ Forall (fun a => alreadyOk a = match txHash a with Some _ => false | None => true end)
            (out_approvals out)
  /\ out_ctf_wasApproved out
     = match out_ctf_txHash out with Some _ => false | None => true end
  /\ exists new,
      ledger_calls (snd (enableTrading m spenders l)) = (ledger_calls l ++ new)%list
      /\ List.map spender (List.filter (fun a => negb (alreadyOk a)) (out_approvals out))
         = approved_spenders new.
Proof.
  rewrite enableTrading_run. cbv zeta.
  destruct (normalize_all (EXCHANGE m :: spenders)) as [addrs|e] eqn:Hn; [|discriminate].
  assert (Hall := normalize_all_Forall2 _ _ Hn).
  destruct addrs as [|a addrs0]; [inversion Hall|].
  destruct (unique_spec a addrs0) as (Hnd & Hmem & tail & Htail).
  destruct (approve_each_spec m (computeAddress (PRIVATE_KEY m)) (unique (a :: addrs0)) [] l)
    as (new1 & Hcalls & _ & _ & Hout).
  assert (Hmember : forall s, s ∈ unique (a :: addrs0)
                              <-> exists x, In x (EXCHANGE m :: spenders)
                                            /\ utils_getAddress (trim x) = Ok s).
  { intros s. rewrite Hmem. split.
    - intros Hs. apply list_elem_of_In in Hs. exact (normalize_all_Ok _ _ Hn s Hs).
    - intros (x & Hx & Hok). apply list_elem_of_In in Hx.
      apply list_elem_of_lookup in Hx as (i & Hi).
      destruct (Forall2_lookup_l _ _ _ _ _ Hall Hi) as (s' & Hs' & Hok').
      rewrite Hok in Hok'. injection Hok' as <-.
      apply list_elem_of_lookup. now exists i. }
  assert (Hfirst : utils_getAddress (trim (EXCHANGE m)) = Ok a) by now inversion Hall.
  destruct (approve_each m (computeAddress (PRIVATE_KEY m)) (unique (a :: addrs0)) [] l)
    as [[approvals|e] l1]; [|discriminate].
  cbn [fst snd] in Hout, Hcalls.
  destruct (Hout approvals eq_refl) as (added & Happ & Hmap & Hok & Hfil).
  change ([] ++ added)%list with added in Happ. subst added.
  assert (Hreport : forall wasApproved hash tailcalls,
             approved_spenders tailcalls = [] ->
             wasApproved = match hash with Some _ => false | None => true end ->
             let out := mkEnableTradingResult (computeAddress (PRIVATE_KEY m)) (EXCHANGE m)
                                              approvals wasApproved hash in
             out_owner out = computeAddress (PRIVATE_KEY m)
             /\ out_exchange out = EXCHANGE m
             /\ NoDup (List.map spender (out_approvals out))
             /\ (exists a tail, utils_getAddress (trim (EXCHANGE m)) = Ok a
                                /\ List.map spender (out_approvals out) = a :: tail)
             /\ (forall s, s ∈ List.map spender (out_approvals out)
                           <-> exists x, In x (EXCHANGE m :: spenders)
                                         /\ utils_getAddress (trim x) = Ok s)
             /\ Forall (fun a => alreadyOk a
                                 = match txHash a with Some _ => false | None => true end)
                       (out_approvals out)
             /\ out_ctf_wasApproved out
                = match out_ctf_txHash out with Some _ => false | None => true end
             /\ List.map spender (List.filter (fun a => negb (alreadyOk a))
                                              (out_approvals out))
                = approved_spenders (new1 ++ tailcalls)%list).
  { intros wasApproved hash tailcalls Htc Hwas. cbn.
    rewrite Hmap, approved_spenders_app, Htc, app_nil_r.
    split; [reflexivity|]. split; [reflexivity|]. split; [exact Hnd|].
    split; [exists a, tail; now split|]. split; [exact Hmember|].
    split; [exact Hok|]. split; [exact Hwas | exact Hfil]. }
  destruct (erc1155_isApprovedForAll (ledger_world l1) (CTF m)
                                     (computeAddress (PRIVATE_KEY m)) (EXCHANGE m))
    as [[|]|e]; [| |discriminate].
  - intros [= <-]. cbn [snd ledger_calls].
    destruct (Hreport true None [CallIsApprovedForAll (CTF m)
                                   (computeAddress (PRIVATE_KEY m)) (EXCHANGE m)]
                      eq_refl eq_refl) as (H1 & H2 & H3 & H4 & H5 & H6 & H7 & H8).
    repeat (split; [assumption|]).
    eexists. split; [rewrite Hcalls, <- app_assoc; reflexivity | exact H8].
  - destruct (provider_getGasPrice (ledger_world l1)) as [gp|e]; [|discriminate].
    set (gasPrice := if (gp <? GAS_PRICE_FLOOR)%Z then GAS_PRICE_FLOOR else gp) in *.
    destruct (erc1155_setApprovalForAll (ledger_world l1) (PRIVATE_KEY m) (CTF m)
                                        (EXCHANGE m) true gasPrice) as [[tx|e] w1];
      [|discriminate].
    destruct (tx_wait w1 tx) as [[u|e] w2]; [|discriminate].
    intros [= <-]. cbn [snd ledger_calls].
    destruct (Hreport false (Some tx)
                [CallIsApprovedForAll (CTF m) (computeAddress (PRIVATE_KEY m)) (EXCHANGE m);
                 CallGasPrice;
                 CallSetApprovalForAll (CTF m) (EXCHANGE m) true gasPrice;
                 CallWait tx]
                eq_refl eq_refl) as (H1 & H2 & H3 & H4 & H5 & H6 & H7 & H8).
    repeat (split; [assumption|]).
    eexists. split; [rewrite Hcalls, <- !app_assoc; reflexivity | exact H8].
Qed.

(** A loop over spenders that all hold an allowance above the mark only
    reads. *)
Lemma approve_each_nothing_to_do (m : OnchainModule) (owner : string)
      (spenders : list string) :
  forall (approvals : list Approval) (l : Ledger),
  (forall s, s ∈ spenders ->
             exists current,
               erc20_allowance (ledger_world l) (COLLATERAL m) owner s = Ok current
               /\ (MAXISH_ALLOWANCE < current)%Z) ->
  approve_each m owner spenders approvals l
  = (Ok (approvals ++ List.map (fun s => mkApproval s true None) spenders)%list,
     mkLedger (ledger_world l)
              (ledger_calls l ++ List.map (CallAllowance (COLLATERAL m) owner) spenders)%list).
Proof.
  induction spenders as [|sp rest IH]; intros approvals l Hall.
  - cbn. rewrite !app_nil_r. now destruct l.
  - rewrite approve_each_cons. cbv zeta.
    destruct (Hall sp) as (current & -> & Hbig); [left|].
    apply Z.ltb_lt in Hbig. rewrite Hbig.
    rewrite IH.
    + cbn [ledger_world ledger_calls List.map]. now rewrite <- !app_assoc.
    + intros s Hs. cbn [ledger_world]. apply Hall. now right.
Qed.

(** X24.  When every address among the exchange and the requested spenders
    already holds an allowance above 1,000,000 units of the collateral and the
    exchange is already an operator of the CTF token, [enableTrading] sends no
    transaction: it completes, the chain is as before, the calls it adds are
    reads, and its report marks every entry [alreadyOk] with no hash. *)
Theorem enableTrading_nothing_to_do (m : OnchainModule) (spenders addrs : list string)
        (l : Ledger) :
  normalize_all (EXCHANGE m :: spenders) = Ok addrs ->
  (forall s, s ∈ addrs ->
             exists current,
               erc20_allowance (ledger_world l) (COLLATERAL m)
                               (computeAddress (PRIVATE_KEY m)) s = Ok current
               /\ (MAXISH_ALLOWANCE < current)%Z) ->
  erc1155_isApprovedForAll (ledger_world l) (CTF m) (computeAddress (PRIVATE_KEY m))
                           (EXCHANGE m) = Ok true ->
  exists out new,
    enableTrading m spenders l
    = (Ok out, mkLedger (ledger_world l) (ledger_calls l ++ new)%list)
    /\ Forall (fun c => is_write c = false) new
    /\ Forall (fun a => alreadyOk a = true /\ txHash a = None) (out_approvals out)
    /\ out_ctf_wasApproved out = true
    /\ out_ctf_txHash out = None.
Proof.
  intros Hn Hall Hop. rewrite enableTrading_run. cbv zeta. rewrite Hn.
  destruct addrs as [|a addrs0];
    [apply normalize_all_Forall2 in Hn; inversion Hn|].
  destruct (unique_spec a addrs0) as (_ & Hmem & _).
  rewrite approve_each_nothing_to_do
    by (intros s Hs; apply Hall; now apply Hmem).
  cbn [ledger_world ledger_calls]. rewrite Hop.
  eexists. eexists. split; [rewrite <- app_assoc; reflexivity|].
  split.
  { apply Forall_app. split; [|repeat constructor].
    apply Forall_forall. intros c Hc. apply list_elem_of_In, in_map_iff in Hc as (s & <- & _). reflexivity. }
  cbn. split; [|now split].
  apply Forall_forall. intros ap Hap. apply list_elem_of_In, in_map_iff in Hap as (s & <- & _). now split.
Qed.

End OnchainRunFacts.

Lemma load_onchain_needs_configuration_witness :
  load_onchain (E := Simulation.externals SimulationChain.with_addresses)
               (O := SimulationChain.onchain_for SimulationChain.with_addresses)
  = Ok SimulationChain.loaded
  /\ exists raw,
      SimulationChain.with_addresses "POLY_EXCHANGE_ADDRESS" = Some raw
      /\ trim raw <> ""
      /\ SimulationChain.sim_getAddress (trim raw) = Ok SimulationChain.exchange_address.
Proof.
  assert (Hload : load_onchain (E := Simulation.externals SimulationChain.with_addresses)
                    (O := SimulationChain.onchain_for SimulationChain.with_addresses)
                  = Ok SimulationChain.loaded) by (vm_compute; reflexivity).
  split; [exact Hload|].
  exact (proj1 (load_onchain_needs_configuration
                  (E := Simulation.externals SimulationChain.with_addresses)
                  (O := SimulationChain.onchain_for SimulationChain.with_addresses)
                  SimulationChain.loaded Hload)).
Defined.

Lemma enableTrading_invalid_spender_witness :
  enableTrading (O := SimulationChain.onchain) SimulationChain.loaded
                [SimulationChain.other_spender; "0x1234"] SimulationChain.start
  = (Throw (Error "Invalid address in spender"), SimulationChain.start).
Proof.
  apply (enableTrading_invalid_spender (O := SimulationChain.onchain) SimulationChain.loaded
           [SimulationChain.other_spender; "0x1234"] "0x1234"
           (mkError "Error" "invalid address") SimulationChain.start).
  - right. right. left. reflexivity.
  - vm_compute. reflexivity.
Defined.

Lemma enableTrading_report_witness :
  fst (enableTrading (O := SimulationChain.onchain) SimulationChain.loaded
         [SimulationChain.other_spender; SimulationChain.exchange_address]
         SimulationChain.start)
  = Ok SimulationChain.enabled
  /\ NoDup (List.map spender (out_approvals SimulationChain.enabled))
  /\ exists new,
      ledger_calls
        (snd (enableTrading (O := SimulationChain.onchain) SimulationChain.loaded
                [SimulationChain.other_spender; SimulationChain.exchange_address]
                SimulationChain.start))
      = (ledger_calls SimulationChain.start ++ new)%list
      /\ approved_spenders new = [SimulationChain.other_spender].
Proof.
  assert (Hrun : fst (enableTrading (O := SimulationChain.onchain) SimulationChain.loaded
                        [SimulationChain.other_spender; SimulationChain.exchange_address]
                        SimulationChain.start)
                 = Ok SimulationChain.enabled) by (vm_compute; reflexivity).
  split; [exact Hrun|].
  destruct (enableTrading_report (O := SimulationChain.onchain) SimulationChain.loaded
              [SimulationChain.other_spender; SimulationChain.exchange_address]
              SimulationChain.start SimulationChain.enabled Hrun)
    as (_ & _ & Hnd & _ & _ & _ & _ & new & Hcalls & Hsent).
  split; [exact Hnd|].
  exists new. split; [exact Hcalls|]. rewrite <- Hsent. reflexivity.
Defined.

Lemma enableTrading_nothing_to_do_witness :
  exists out new,
    enableTrading (O := SimulationChain.onchain) SimulationChain.loaded []
                  SimulationChain.settled
    = (Ok out, mkLedger (ledger_world SimulationChain.settled)
                        (ledger_calls SimulationChain.settled ++ new)%list)
    /\ Forall (fun c => is_write c = false) new
    /\ Forall (fun a => alreadyOk a = true /\ txHash a = None) (out_approvals out)
    /\ out_ctf_wasApproved out = true
    /\ out_ctf_txHash out = None.
Proof.
  apply (enableTrading_nothing_to_do (O := SimulationChain.onchain) SimulationChain.loaded
           [] [SimulationChain.exchange_address] SimulationChain.settled).
  - vm_compute. reflexivity.
  - intros s Hs. apply list_elem_of_singleton in Hs. subst s.
    exists (2 ^ 256 - 1)%Z. split; [vm_compute; reflexivity | vm_compute; reflexivity].
  - vm_compute. reflexivity.
Defined.
